(** * The EV charging-station dashboard: a model of [visualizations.js]

    The script loads a CSV of charging-station records and draws seven charts.
    Its arrow callbacks are pure and become Rocq functions; the chart functions
    read and write the page (the objects in memory, the document, the console,
    the network) and become programs of a state-and-exception monad over a
    [world].  What the script takes from its host (the language's [parseFloat],
    D3's parser and statistics, the network, Vega's verdict on a chart) is the
    class [Host]; every theorem holds for every host. *)

From Stdlib Require Import ZArith Floats String Ascii List Bool Lia Permutation Sorted.
From stdpp Require Import base option list gmap strings pretty.

Set Warnings "-inexact-float".
Local Open Scope string_scope.
Local Open Scope list_scope.

(** ** JavaScript values *)

(** What a property read [d[k]] of a parsed record gives: a string of the CSV,
    or [undefined] when the record has no such column. *)
Definition field : Type := option string.

Definition undefined : field := None.

(** The abstract operation ToString on such a value. *)
Definition ToString (v : field) : string :=
  match v with
  | Some s => s
  | None => "undefined"
  end.

(** [v === s] and [v !== s] against a string. *)
Definition strict_eq (v : field) (s : string) : bool :=
  match v with
  | Some x => (x =? s)%string
  | None => false
  end.

Notation "v === s" := (strict_eq v s) (at level 70, no associativity).
Notation "v !== s" := (negb (strict_eq v s)) (at level 70, no associativity).

(** Two strings compared with [===]: a string is a defined value. *)
Coercion defined (s : string) : field := Some s.

(** JavaScript numbers are IEEE 754 binary64 values, the kernel's [float];
    [<], [<=], [>], [>=] are IEEE comparisons, false as soon as one side is NaN. *)
Definition number : Type := float.

Definition less (x y : number) : bool := PrimFloat.ltb x y.
Definition less_eq (x y : number) : bool := PrimFloat.leb x y.
Definition greater (x y : number) : bool := PrimFloat.ltb y x.
Definition greater_eq (x y : number) : bool := PrimFloat.leb y x.

Arguments less (x y)%_float_scope.
Arguments less_eq (x y)%_float_scope.
Arguments greater (x y)%_float_scope.
Arguments greater_eq (x y)%_float_scope.

Declare Scope js_scope.
Delimit Scope js_scope with js.
Notation "x < y" := (less x y) : js_scope.
Notation "x <= y" := (less_eq x y) : js_scope.
Notation "x > y" := (greater x y) : js_scope.
Notation "x >= y" := (greater_eq x y) : js_scope.

(** The values an object built by the script can hold in a property.
    [VInherited k] is the member [k] that every object literal inherits from
    [Object.prototype] (a function, or the prototype itself for [__proto__]):
    it is truthy, and it is neither a string nor a number. *)
Inductive jsval :=
| VString (s : string)
| VNumber (x : number)
| VBoolean (b : bool)
| VUndefined
| VInherited (name : string).

(** The members of [Object.prototype]. *)
Definition Object_prototype : list string :=
  [ "constructor"; "__defineGetter__"; "__defineSetter__"; "hasOwnProperty";
    "__lookupGetter__"; "__lookupSetter__"; "isPrototypeOf";
    "propertyIsEnumerable"; "toString"; "valueOf"; "__proto__";
    "toLocaleString" ].

(** [l.includes(s)]. *)
Definition includes (l : list string) (s : string) : bool :=
  existsb (String.eqb s) l.

(** An object literal [{k1: v1, ...}]: its own properties, in order. *)
Definition literal : Type := list (string * jsval).

Fixpoint own (o : literal) (k : string) : option jsval :=
  match o with
  | [] => None
  | (k', v) :: o' => if (k' =? k)%string then Some v else own o' k
  end.

(** [o[k]] on an object literal: the own property, else the inherited member,
    else [undefined].  The key is converted with ToString. *)
Definition member (o : literal) (k : field) : jsval :=
  match own o (ToString k) with
  | Some v => v
  | None =>
      if includes Object_prototype (ToString k) then VInherited (ToString k)
      else VUndefined
  end.

Definition truthy (v : jsval) : bool :=
  match v with
  | VString s => negb (s =? "")%string
  | VNumber x => negb (PrimFloat.is_nan x || PrimFloat.eqb x 0)
  | VBoolean b => b
  | VUndefined => false
  | VInherited _ => true
  end.

(** [v || d]. *)
Definition or_else (v d : jsval) : jsval := if truthy v then v else d.

(** A property that holds a CSV field. *)
Definition of_field (v : field) : jsval :=
  match v with
  | Some s => VString s
  | None => VUndefined
  end.

(** ** Parsed records *)

(** A record of the parsed table: the object [d3.csvParse] builds for one line,
    its keys in the order of the CSV header (the order [Object.keys] gives). *)
Definition Row : Type := list (string * string).

Fixpoint get (d : Row) (k : string) : field :=
  match d with
  | [] => undefined
  | (k', v) :: d' => if (k' =? k)%string then Some v else get d' k
  end.

Definition Object_keys (d : Row) : list string := map fst d.

(** [a.slice(0, 2)]. *)
Definition slice_0_2 {A : Type} (a : list A) : list A := firstn 2 a.

(** [d3.rollup(values, reduce, key)]: the groups in the order their keys first
    occur, as the [InternMap] D3 returns lists them. *)
Definition same_key (a b : field) : bool :=
  match a, b with
  | Some x, Some y => (x =? y)%string
  | None, None => true
  | _, _ => false
  end.

Fixpoint group_insert {A : Type} (k : field) (x : A) (groups : list (field * list A))
  : list (field * list A) :=
  match groups with
  | [] => [(k, [x])]
  | (k', xs) :: rest =>
      if same_key k' k then (k', (xs ++ [x])%list) :: rest
      else (k', xs) :: group_insert k x rest
  end.

Definition group {A : Type} (key : A -> field) (values : list A) : list (field * list A) :=
  fold_left (fun groups x => group_insert (key x) x groups) values [].

Definition rollup {A B : Type} (values : list A) (reduce : list A -> B) (key : A -> field)
  : list (field * B) :=
  map (fun '(k, xs) => (k, reduce xs)) (group key values).

(** ** The host *)

Inductive error :=
| Error (message : string)
| TypeError (message : string).

Definition message (e : error) : string :=
  match e with
  | Error m => m
  | TypeError m => m
  end.

(** How a promise settles. *)
Inductive settled (A : Type) :=
| Fulfilled (a : A)
| Rejected (e : error).
Arguments Fulfilled {A} a.
Arguments Rejected {A} e.

(** A [Response]: [ok], [status], and what reading the body as text or as JSON
    settles to (a JSON document is kept as its text). *)
Record Response := {
  ok : bool;
  status : nat;
  text : settled string;
  json : settled string
}.

(** What the script does not define itself.
    - [parseFloat], [ToNumber] (the unary [+] and the coercion of [>=]) and
      [Number_toString] (a number joined to a string) are the language's;
    - [csvParse], [mean], [median], [quantile] are the members of the global
      [d3] the script calls; [correlation] is its member [d3.correlation] where
      the [d3] the page loads has one: version 7, which [index.html] loads, has
      none;
    - [fetch_settles n url] is how the [n]-th request of the page, for [url],
      settles;
    - [vegaEmbed_rejects selector] is the error, if any, with which Vega
      rejects the chart embedded at [selector]. *)
Class Host := {
  parseFloat : string -> number;
  ToNumber : string -> number;
  Number_toString : number -> string;
  csvParse : string -> list Row;
  mean : list number -> option number;
  median : list number -> option number;
  quantile : list number -> number -> option number;
  correlation : option (list number -> list number -> option number);
  fetch_settles : nat -> string -> settled Response;
  vegaEmbed_rejects : string -> option error
}.

(** The number a value converts to (what [isNaN] and D3's statistics read). *)
Definition to_number `{Host} (v : jsval) : number :=
  match v with
  | VNumber x => x
  | VString s => ToNumber s
  | VBoolean b => if b then 1%float else 0%float
  | VUndefined => nan
  | VInherited _ => nan
  end.

(** [isNaN(v)]: the value is converted to a number first. *)
Definition isNaN `{Host} (v : jsval) : bool := PrimFloat.is_nan (to_number v).

(** A count as a number. *)
Definition of_nat (n : nat) : number := PrimFloat.of_uint63 (Uint63.of_Z (Z.of_nat n)).

(** ** The page: memory, document, console, network *)

(** Objects live in a heap and are named by their address, so that two arrays
    can hold the same record and a change made through one name shows through
    the other.  An object is a record [d3.csvParse] built, an object literal a
    callback built, or an array.  [vega_id] is the tuple id Vega writes into
    every datum object it ingests. *)
Definition loc : Type := nat.

Inductive object :=
| Parsed (d : Row) (vega_id : option nat)
| Built (props : literal) (vega_id : option nat)
| Array (elements : list loc).

(** A circle marker of the map. *)
Record marker := {
  Latitude : field;
  Longitude : field;
  fillColor : jsval
}.

(** A point of the trend chart: [{year, type, count}]. *)
Record trend_point := {
  year : number;
  type : string;
  count : nat
}.

(** A colour encoding of a Vega-Lite specification: the field it colours by
    and its scale, a list of values and the list of their colours. *)
Record color_encoding := {
  color_field : string;
  scale_domain : list string;
  scale_range : list string
}.

(** The part of a Vega-Lite specification the script writes that matters here:
    the array handed over as [data.values] and the colour encodings. *)
Record vl_spec := {
  values : loc;
  colors : list color_encoding
}.

(** A specification written in the script, or one read from a JSON file (kept
    as its text). *)
Inductive vega_spec :=
| inline (spec : vl_spec)
| from_json (text : string).

(** One line of a statistics block: the group's keys, its aggregates by name,
    and its size. *)
Record stats_line := {
  keys : list field;
  aggregates : list (string * number);
  sample_size : nat
}.

(** What a chart container can hold. *)
Inductive node :=
| p_error (message : string)
| filterContainer (selects : list string)
| leaflet_map (markers : list marker)
| countInfo (innerHTML : string)
| svg (trendData : list trend_point)
| chartContainer (id : string) (view : option vega_spec)
| vega_view (spec : vega_spec)
| statsDiv (heading : string) (lines : list stats_line).

(** What the script hands to [console.log]. *)
Inductive logged :=
| a_text (s : string)
| a_count (n : nat)
| some_keys (ks : list string)
| some_rows (ds : list Row)
| some_fields (samples : list (field * field * field)).

(** The console, and the errors no handler of the script caught. *)
Inductive entry :=
| log (message : string) (args : list logged)
| error_logged (message : string) (e : error)
| unhandled_rejection (e : error)
| uncaught (e : error).

(** A registered ['change'] listener: the chart whose closure it is and the
    table that closure captured. *)
Inductive chart := Trend | TypeUsage | CostRating | Boxplot.

Record listener := {
  target : string;
  owner : chart;
  captured : loc
}.

(** The page: the objects in memory, the children of every element that has
    an id, the value of every select, the ['change'] listeners, the console,
    the urls the script has passed to [fetch] (what a library loads by itself
    is not recorded), and the next tuple id of Vega. *)
Record world := {
  heap : list object;
  document : gmap string (list node);
  selects : gmap string string;
  listeners : list listener;
  console : list entry;
  network : list string;
  vega_ids : nat
}.

Definition set_heap (w : world) (h : list object) : world :=
  {| heap := h; document := document w; selects := selects w;
     listeners := listeners w; console := console w; network := network w;
     vega_ids := vega_ids w |}.

Definition set_document (w : world) (d : gmap string (list node)) : world :=
  {| heap := heap w; document := d; selects := selects w;
     listeners := listeners w; console := console w; network := network w;
     vega_ids := vega_ids w |}.

Definition set_selects (w : world) (s : gmap string string) : world :=
  {| heap := heap w; document := document w; selects := s;
     listeners := listeners w; console := console w; network := network w;
     vega_ids := vega_ids w |}.

Definition set_listeners (w : world) (l : list listener) : world :=
  {| heap := heap w; document := document w; selects := selects w;
     listeners := l; console := console w; network := network w;
     vega_ids := vega_ids w |}.

Definition set_console (w : world) (c : list entry) : world :=
  {| heap := heap w; document := document w; selects := selects w;
     listeners := listeners w; console := c; network := network w;
     vega_ids := vega_ids w |}.

Definition set_network (w : world) (n : list string) : world :=
  {| heap := heap w; document := document w; selects := selects w;
     listeners := listeners w; console := console w; network := n;
     vega_ids := vega_ids w |}.

Definition set_vega (w : world) (h : list object) (n : nat) : world :=
  {| heap := h; document := document w; selects := selects w;
     listeners := listeners w; console := console w; network := network w;
     vega_ids := n |}.

(** *** The monad: a statement returns a value or throws, and changes the page *)

Inductive outcome (A : Type) :=
| Returned (a : A)
| Thrown (e : error).
Arguments Returned {A} a.
Arguments Thrown {A} e.

Definition M (A : Type) : Type := world -> outcome A * world.

#[global] Instance M_ret : MRet M := fun A a w => (Returned a, w).

#[global] Instance M_bind : MBind M := fun A B k m w =>
  match m w with
  | (Returned a, w') => k a w'
  | (Thrown e, w') => (Thrown e, w')
  end.

Definition throw {A : Type} (e : error) : M A := fun w => (Thrown e, w).

(** [try { body } catch (error) { handler }]. *)
Definition try_catch {A : Type} (body : M A) (handler : error -> M A) : M A :=
  fun w =>
    match body w with
    | (Returned a, w') => (Returned a, w')
    | (Thrown e, w') => handler e w'
    end.

(** [await p] for a promise that has settled. *)
Definition await {A : Type} (p : settled A) : M A :=
  match p with
  | Fulfilled a => mret a
  | Rejected e => throw e
  end.

(** [p.then(callback)] with the promise not awaited: when [p] is fulfilled the
    callback runs; a rejection of [p], or an error of the callback, reaches no
    handler of the script.  The promise settles and the callback runs here at
    once: in the browser they come after the statements that follow the call,
    so that a page of this model is a page whose promises have settled. *)
Definition then_ {A : Type} (p : M A) (callback : A -> M unit) : M unit :=
  fun w =>
    match p w with
    | (Returned a, w1) =>
        match callback a w1 with
        | (Returned _, w2) => (Returned tt, w2)
        | (Thrown e, w2) =>
            (Returned tt, set_console w2 (console w2 ++ [unhandled_rejection e]))
        end
    | (Thrown e, w1) =>
        (Returned tt, set_console w1 (console w1 ++ [unhandled_rejection e]))
    end.

Definition console_log (message : string) (args : list logged) : M unit :=
  fun w => (Returned tt, set_console w (console w ++ [log message args])).

Definition console_error (message : string) (e : error) : M unit :=
  fun w => (Returned tt, set_console w (console w ++ [error_logged message e])).

(** [fetch(url)], awaited: the request is issued, then the promise settles as
    the host decides. *)
Definition fetch `{Host} (url : string) : M Response :=
  fun w =>
    let w' := set_network w (network w ++ [url]) in
    match fetch_settles (length (network w)) url with
    | Fulfilled r => (Returned r, w')
    | Rejected e => (Thrown e, w')
    end.

(** *** Memory *)

Definition alloc (o : object) : M loc :=
  fun w => (Returned (length (heap w)), set_heap w (heap w ++ [o])).

Fixpoint alloc_all (os : list object) : M (list loc) :=
  match os with
  | [] => mret []
  | o :: os' => l ← alloc o; ls ← alloc_all os'; mret (l :: ls)
  end.

(** A fresh array of fresh objects. *)
Definition new_array (os : list object) : M loc :=
  ls ← alloc_all os; alloc (Array ls).

Definition elements_at (h : list object) (a : loc) : list loc :=
  match h !! a with
  | Some (Array ls) => ls
  | _ => []
  end.

Definition record_at (h : list object) (l : loc) : Row :=
  match h !! l with
  | Some (Parsed d _) => d
  | _ => []
  end.

(** The records an array of parsed records holds. *)
Definition table (h : list object) (data : loc) : list Row :=
  map (record_at h) (elements_at h data).

Definition read_table (data : loc) : M (list Row) :=
  fun w => (Returned (table (heap w) data), w).

(** Vega ingests a datum object by writing its tuple id into it. *)
Definition ingest (l : loc) (st : list object * nat) : list object * nat :=
  let '(h, n) := st in
  match h !! l with
  | Some (Parsed d None) => (<[l := Parsed d (Some n)]> h, S n)
  | Some (Built p None) => (<[l := Built p (Some n)]> h, S n)
  | _ => (h, n)
  end.

Definition ingest_all (ls : list loc) (st : list object * nat) : list object * nat :=
  fold_left (fun st l => ingest l st) ls st.

(** *** Document *)

(** An element of the page, named by its id, or [null]. *)
Definition element : Type := option string.

Definition getElementById (id : string) : M element :=
  fun w =>
    (Returned (match document w !! id with Some _ => Some id | None => None end), w).

Definition children (w : world) (id : string) : list node :=
  default [] (document w !! id).

Definition appendChild (el : element) (child : node) : M unit :=
  fun w =>
    match el with
    | None => (Thrown (TypeError "Cannot read properties of null (reading 'appendChild')"), w)
    | Some id =>
        (Returned tt, set_document w (<[id := (children w id ++ [child])%list]> (document w)))
    end.

Definition set_innerHTML (el : element) (content : list node) : M unit :=
  fun w =>
    match el with
    | None => (Thrown (TypeError "Cannot set properties of null (setting 'innerHTML')"), w)
    | Some id => (Returned tt, set_document w (<[id := content]> (document w)))
    end.

(** [el.style.p = v]: layout is not modelled, but a [null] element throws. *)
Definition set_style (el : element) : M unit :=
  match el with
  | None => throw (TypeError "Cannot read properties of null (reading 'style')")
  | Some _ => mret tt
  end.

(** A [select] filled with options shows its first option. *)
Definition create_select (name : string) (options : list string) : M unit :=
  fun w => (Returned tt, set_selects w (<[name := default "" (head options)]> (selects w))).

(** [select.value]: the empty string for a select that has no option. *)
Definition value_of (s : gmap string string) (name : string) : string :=
  default "" (s !! name).

Definition addEventListener (name : string) (c : chart) (data : loc) : M unit :=
  fun w =>
    (Returned tt,
     set_listeners w (listeners w ++ [{| target := name; owner := c; captured := data |}])).

(** *** Vega *)

Definition is_chartContainer (id : string) (n : node) : bool :=
  match n with
  | chartContainer id' _ => (id' =? id)%string
  | _ => false
  end.

Definition has_chartContainer (id : string) (d : gmap string (list node)) : bool :=
  bool_decide (map_Exists (fun _ ns => existsb (is_chartContainer id) ns = true) d).

Definition show (id : string) (spec : vega_spec) (n : node) : node :=
  match n with
  | chartContainer id' v => if (id' =? id)%string then chartContainer id' (Some spec) else n
  | _ => n
  end.

(** The objects Vega is handed as data. *)
Definition data_values (h : list object) (spec : vega_spec) : list loc :=
  match spec with
  | inline s => elements_at h (values s)
  | from_json _ => []
  end.

(** [vegaEmbed('#' + id, spec)]: the promise is rejected when the page has no
    such element or when Vega rejects the chart; otherwise Vega ingests the
    objects of [spec.data.values] and shows the view, as the whole content of
    a container of the page or inside a chart container the script created. *)
Definition vegaEmbed `{Host} (id : string) (spec : vega_spec) : M unit :=
  fun w =>
    if bool_decide (is_Some (document w !! id)) || has_chartContainer id (document w) then
      match vegaEmbed_rejects id with
      | Some e => (Thrown e, w)
      | None =>
          let '(h, n) := ingest_all (data_values (heap w) spec) (heap w, vega_ids w) in
          (Returned tt,
           set_document (set_vega w h n)
             (match document w !! id with
              | Some _ => <[id := [vega_view spec]]> (document w)
              | None => map (show id spec) <$> document w
              end))
      end
    else (Thrown (Error ("#" +:+ id +:+ " does not exist")), w).

(** [xs.map(f)] for a callback that can throw. *)
Fixpoint mapM {A B : Type} (f : A -> M B) (xs : list A) : M (list B) :=
  match xs with
  | [] => mret []
  | x :: xs' => y ← f x; ys ← mapM f xs'; mret (y :: ys)
  end.

(** [x.toFixed(n)]: reading [toFixed] of [undefined] throws. *)
Definition toFixed (x : option number) : M number :=
  match x with
  | Some v => mret v
  | None => throw (TypeError "Cannot read properties of undefined (reading 'toFixed')")
  end.

(** ** [loadData] *)

Definition csv_url : string := "data/processed_detailed_ev_charging_stations.csv".

Definition requiredFields : list string :=
  [ "Cost (USD/kWh)"; "Usage Stats (avg users/day)"; "Is24Hours" ].

(** The callback of [invalidData]: [isNaN(cost) || isNaN(usage) || cost <= 0 || usage < 0]. *)
Definition invalid `{Host} (d : Row) : bool :=
  let cost := parseFloat (ToString (get d "Cost (USD/kWh)")) in
  let usage := parseFloat (ToString (get d "Usage Stats (avg users/day)")) in
  PrimFloat.is_nan cost || PrimFloat.is_nan usage || (cost <= 0)%js || (usage < 0)%js.

(** [Object.keys(data[0])]: [data[0]] is [undefined] for an empty table, and
    [Object.keys(undefined)] throws. *)
Definition Object_keys_of (d : option Row) : M (list string) :=
  match d with
  | Some d => mret (Object_keys d)
  | None => throw (TypeError "Cannot convert undefined or null to object")
  end.

Definition sample (d : Row) : field * field * field :=
  (get d "Cost (USD/kWh)", get d "Usage Stats (avg users/day)", get d "Is24Hours").

Definition loadData `{Host} : M loc :=
  try_catch
    (console_log "Starting data loading..." [];;
     response ← fetch csv_url;
     if negb (ok response)
     then throw (Error ("HTTP error! status: " +:+ pretty (status response)))
     else
       csvText ← await (text response);
       console_log "CSV text loaded successfully, first 100 characters:"
         [a_text (substring 0 100 csvText)];;
       let rows := csvParse csvText in
       data ← new_array (map (fun d => Parsed d None) rows);
       console_log "Parsed data example:" [some_rows (slice_0_2 rows)];;
       console_log "Total data count:" [a_count (length rows)];;
       fields ← Object_keys_of (head rows);
       console_log "Data fields:" [some_keys fields];;
       let missingFields :=
         List.filter (fun field => negb (includes fields field)) requiredFields in
       if (0 <? length missingFields)%nat
       then throw (Error ("Missing required fields: " +:+ String.concat ", " missingFields))
       else
         console_log "Sample values for required fields:"
           [some_fields (map sample (slice_0_2 rows))];;
         let invalidData := List.filter invalid rows in
         (if (0 <? length invalidData)%nat
          then console_log "Found invalid data points:" [some_rows (slice_0_2 invalidData)]
          else mret tt);;
         mret data)
    (fun error =>
       console_error "Error loading data:" error;;
       throw error).

(** ** [createMap] *)

Module Map.

(** The colour table of the markers and its default. *)
Definition colors : literal :=
  [ ("L1", VString "#FF6B6B"); ("L2", VString "#4ECDC4"); ("DC", VString "#45B7D1") ].

Definition color (d : Row) : jsval :=
  or_else (member colors (get d "Charger Type")) (VString "#999").

(** [L.circleMarker([+d.Latitude, +d.Longitude], {fillColor: color, ...})]:
    Leaflet throws when a coordinate is not a number. *)
Definition circleMarker `{Host} (d : Row) : M marker :=
  let lat := to_number (of_field (get d "Latitude")) in
  let lng := to_number (of_field (get d "Longitude")) in
  if PrimFloat.is_nan lat || PrimFloat.is_nan lng
  then throw (Error ("Invalid LatLng object: (" +:+ Number_toString lat +:+ ", "
                     +:+ Number_toString lng +:+ ")"))
  else mret {| Latitude := get d "Latitude"; Longitude := get d "Longitude";
               fillColor := color d |}.

(** [L.map(id)]: Leaflet throws when the page has no such element. *)
Definition L_map (id : string) : M element :=
  fun w =>
    match document w !! id with
    | Some _ => (Returned (Some id), w)
    | None => (Thrown (Error "Map container not found."), w)
    end.

End Map.

Definition createMap `{Host} (data : loc) : M unit :=
  try_catch
    (map_viz ← Map.L_map "map-viz";
     rows ← read_table data;
     markerClusterGroup ← mapM Map.circleMarker rows;
     appendChild map_viz (leaflet_map markerClusterGroup);;
     el ← getElementById "map-viz";
     appendChild el
       (countInfo ("Showing " +:+ pretty (length rows) +:+ " charging stations")))
    (fun error =>
       console_error "Error creating map:" error;;
       el ← getElementById "map-viz";
       set_innerHTML el [p_error ("Error creating map: " +:+ message error)]).

(** ** [loadTrendChart] *)

Module TrendChart.

(** The callback of [filteredData]. *)
Definition available (selectedAvailability : string) (d : Row) : bool :=
  if selectedAvailability === "all" then true
  else if selectedAvailability === "24/7" then get d "Is24Hours" === "True"
  else if selectedAvailability === "limited" then get d "Is24Hours" === "False"
  else true.

(** [data.filter(callback)]: a new array that holds the same record objects. *)
Definition array_filter (callback : Row -> bool) (data : loc) : M loc :=
  fun w =>
    alloc
      (Array (List.filter (fun l => callback (record_at (heap w) l))
                (elements_at (heap w) data))) w.

(** Installations counted by year, then by charger type. *)
Definition yearlyData (filteredData : list Row) : list (field * list (field * nat)) :=
  rollup filteredData
    (fun v => rollup v (fun v' => length v') (fun d => get d "Charger Type"))
    (fun d => get d "Installation Year").

(** [year && year >= 2010 && year <= 2024]. *)
Definition in_window `{Host} (year : field) : bool :=
  match year with
  | Some y => negb (y =? "")%string && (ToNumber y >= 2010)%js && (ToNumber y <= 2024)%js
  | None => false
  end.

(** [a.sort()] on strings. *)
Fixpoint sort_insert (s : string) (a : list string) : list string :=
  match a with
  | [] => [s]
  | x :: a' => if String.leb s x then s :: a else x :: sort_insert s a'
  end.

Definition sort (a : list string) : list string := fold_right sort_insert [] a.

Definition lookup_key {B : Type} (k : field) (m : list (field * B)) : option B :=
  snd <$> List.find (fun p => same_key (fst p) k) m.

Definition types : list string := [ "L1"; "L2"; "DC" ].

Definition trendData `{Host} (filteredData : list Row) : list trend_point :=
  let yearly := yearlyData filteredData in
  let years := sort (omap id (List.filter in_window (map fst yearly))) in
  flat_map
    (fun y =>
       map (fun t =>
              {| year := ToNumber y;
                 type := t;
                 count := default 0%nat (lookup_key (Some y) yearly ≫= lookup_key (Some t)) |})
         types)
    years.

Definition is_svg (n : node) : bool :=
  match n with
  | svg _ => true
  | _ => false
  end.

(** [d3.select('#trend-viz').selectAll('svg').remove()]. *)
Definition remove_svg : M unit :=
  fun w =>
    (Returned tt,
     match document w !! "trend-viz" with
     | Some ns =>
         set_document w (<["trend-viz" := List.filter (fun n => negb (is_svg n)) ns]> (document w))
     | None => w
     end).

(** [d3.select('#trend-viz').append('svg')], with everything drawn in it. *)
Definition append_svg (s : node) : M unit :=
  fun w =>
    (Returned tt,
     match document w !! "trend-viz" with
     | Some ns => set_document w (<["trend-viz" := (ns ++ [s])%list]> (document w))
     | None => w
     end).

Definition updateChart `{Host} (data : loc) (selectedAvailability : string) : M unit :=
  filteredData ← array_filter (available selectedAvailability) data;
  rows ← read_table filteredData;
  remove_svg;;
  append_svg (svg (trendData rows)).

End TrendChart.

Definition loadTrendChart `{Host} : M unit :=
  try_catch
    (data ← loadData;
     container ← getElementById "trend-viz";
     appendChild container (filterContainer [ "trend-viz/availabilitySelect" ]);;
     create_select "trend-viz/availabilitySelect" [ "all"; "24/7"; "limited" ];;
     addEventListener "trend-viz/availabilitySelect" Trend data;;
     TrendChart.updateChart data "all")
    (fun error =>
       console_error "Error loading trend chart:" error;;
       el ← getElementById "trend-viz";
       set_innerHTML el [p_error ("Error loading trend chart: " +:+ message error)]).

(** ** [createHeatmap] *)

Definition createHeatmap `{Host} : M unit :=
  try_catch
    (response ← fetch "heatmap_spec.json";
     if negb (ok response)
     then throw (Error ("HTTP error! status: " +:+ pretty (status response)))
     else
       spec ← await (json response);
       vegaEmbed "heatmap-viz" (from_json spec))
    (fun error =>
       console_error "Error creating heatmap:" error;;
       el ← getElementById "heatmap-viz";
       set_innerHTML el [p_error ("Error creating heatmap: " +:+ message error)]).

(** Predicates applied one after the other, each to what the ones before it
    let through. *)
Definition apply_in_order {A : Type} (ps : list (A -> bool)) (l : list A) : list A :=
  fold_left (fun acc p => List.filter p acc) ps l.

(** The aggregates a node shows, and those a container of the page shows. *)
Definition aggregates_in (n : node) : list number :=
  match n with
  | statsDiv _ lines => flat_map (fun l => map snd (aggregates l)) lines
  | _ => []
  end.

Definition shown (w : world) (id : string) : list number :=
  flat_map aggregates_in (children w id).

(** The colour scale every Vega-Lite chart of the script gives the charger type. *)
Definition charger_type_scale (field_name : string) : color_encoding :=
  {| color_field := field_name;
     scale_domain := [ "L1"; "L2"; "DC" ];
     scale_range := [ "#91bad6"; "#528AAE"; "#1E3f66" ] |}.

Definition colors_of (s : vega_spec) : list color_encoding :=
  match s with
  | inline spec => colors spec
  | from_json _ => []
  end.

(** The colour encodings by charger type of the four Vega-Lite charts the
    script specifies, for the array [a] as data. *)
Definition is_charger_type_field (c : color_encoding) : bool :=
  negb (color_field c =? "renewable")%string.

(** The colour a colour encoding of the script lists for a value, if any. *)
Definition listed_color (c : color_encoding) (v : string) : option string :=
  snd <$> List.find (fun p => (fst p =? v)%string) (combine (scale_domain c) (scale_range c)).

(** ** [createTypeUsageChart] *)

Module TypeUsageChart.

(** The object the [map] callback of [processData] builds. *)
Record datum := {
  charger_type : field;
  usage : number;
  is_high_power : bool;
  cost : number;
  renewable : field;
  hours : string
}.

Definition mapped `{Host} (d : Row) : datum :=
  {| charger_type := get d "Charger Type";
     usage := parseFloat (ToString (get d "Usage Stats (avg users/day)"));
     is_high_power := get d "IsHighPower" === "True";
     cost := parseFloat (ToString (get d "Cost (USD/kWh)"));
     renewable := get d "Renewable Energy Source";
     hours := if get d "Is24Hours" === "True" then "24/7" else "Limited" |}.

Definition built (d : datum) : object :=
  Built
    [ ("charger_type", of_field (charger_type d));
      ("usage", VNumber (usage d));
      ("is_high_power", VBoolean (is_high_power d));
      ("cost", VNumber (cost d));
      ("renewable", of_field (renewable d));
      ("hours", VString (hours d)) ]
    None.

(** The values of the five selects. *)
Record filters := {
  selectedType : string;
  selectedPower : string;
  selectedCost : string;
  selectedRenewable : string;
  selectedRange : string
}.

(** The [filter] callback of [processData], clause by clause: each of the
    first five says whether it returns [false]; the [switch] returns the verdict. *)
Definition unusable (d : datum) : bool :=
  PrimFloat.is_nan (usage d) || (usage d < 0)%js.

Definition wrong_type (f : filters) (d : datum) : bool :=
  (selectedType f !== "all") && (charger_type d !== selectedType f).

Definition wrong_power (f : filters) (d : datum) : bool :=
  if selectedPower f !== "all" then
    if (selectedPower f === "high") && negb (is_high_power d) then true
    else if (selectedPower f === "standard") && is_high_power d then true
    else false
  else false.

Definition wrong_cost (f : filters) (d : datum) : bool :=
  if selectedCost f !== "all" then
    if (selectedCost f === "low") && (cost d >= 0.15)%js then true
    else if (selectedCost f === "medium") && ((cost d < 0.15)%js || (cost d > 0.30)%js) then true
    else if (selectedCost f === "high") && (cost d <= 0.30)%js then true
    else false
  else false.

Definition wrong_renewable (f : filters) (d : datum) : bool :=
  if selectedRenewable f !== "all" then
    if (selectedRenewable f === "yes") && (renewable d !== "Yes") then true
    else if (selectedRenewable f === "no") && (renewable d === "Yes") then true
    else false
  else false.

Definition in_range (f : filters) (d : datum) : bool :=
  if selectedRange f === "low" then (usage d <= 10)%js
  else if selectedRange f === "medium" then (usage d > 10)%js && (usage d <= 20)%js
  else if selectedRange f === "high" then (usage d > 20)%js
  else true.

Definition kept (f : filters) (d : datum) : bool :=
  if unusable d then false
  else if wrong_type f d then false
  else if wrong_power f d then false
  else if wrong_cost f d then false
  else if wrong_renewable f d then false
  else in_range f d.

(** The same clauses as predicates that accept: the validity check and one
    predicate for each select (type, power, cost, renewable, range). *)
Definition clauses (f : filters) : list (datum -> bool) :=
  [ fun d => negb (unusable d);
    fun d => negb (wrong_type f d);
    fun d => negb (wrong_power f d);
    fun d => negb (wrong_cost f d);
    fun d => negb (wrong_renewable f d);
    in_range f ].

(** [processData()], given the values of the selects and the records of [data]. *)
Definition processData `{Host} (f : filters) (data : list Row) : list datum :=
  List.filter (kept f) (map mapped data).

(** [typeFilter.value], ..., [rangeFilter.value]. *)
Definition chosen (s : gmap string string) : filters :=
  {| selectedType := value_of s "type-usage-viz/typeFilter";
     selectedPower := value_of s "type-usage-viz/powerFilter";
     selectedCost := value_of s "type-usage-viz/costFilter";
     selectedRenewable := value_of s "type-usage-viz/renewableFilter";
     selectedRange := value_of s "type-usage-viz/rangeFilter" |}.

Definition read_filters : M filters :=
  fun w => (Returned (chosen (selects w)), w).

Definition spec (processedData : loc) : vega_spec :=
  inline {| values := processedData; colors := [ charger_type_scale "charger_type" ] |}.

(** The statistics block: one line per charger type. *)
Definition stat `{Host} (t : field) (v : list datum) : M stats_line :=
  m ← toFixed (mean (map usage v));
  md ← toFixed (median (map usage v));
  mret {| keys := [t]; aggregates := [ ("mean", m); ("median", md) ];
          sample_size := length v |}.

Definition stats `{Host} (processedData : list datum) : M (list stats_line) :=
  mapM (fun g => stat (fst g) (snd g)) (group charger_type processedData).

(** The callback of [then]: the statistics are shown only when there is data. *)
Definition show_stats `{Host} (container : element) (processedData : list datum) : M unit :=
  if (0 <? length processedData)%nat
  then
    lines ← stats processedData;
    appendChild container (statsDiv "Usage Statistics" lines)
  else mret tt.

Definition updateChart `{Host} (container : element) (data : loc) : M unit :=
  rows ← read_table data;
  f ← read_filters;
  let processed := processData f rows in
  processedData ← new_array (map built processed);
  appendChild container (chartContainer "type-usage-chart" None);;
  then_ (vegaEmbed "type-usage-chart" (spec processedData))
    (fun _ => show_stats container processed).

Definition select_names : list string :=
  [ "type-usage-viz/typeFilter"; "type-usage-viz/powerFilter"; "type-usage-viz/costFilter";
    "type-usage-viz/renewableFilter"; "type-usage-viz/rangeFilter" ].

Definition the_filterContainer : node := filterContainer select_names.

(** The ['change'] listener of each of the five selects. *)
Definition on_change `{Host} (container : element) (data : loc) : M unit :=
  set_innerHTML container [];;
  appendChild container the_filterContainer;;
  updateChart container data.

End TypeUsageChart.

Definition createTypeUsageChart `{Host} (data : loc) : M unit :=
  try_catch
    (console_log "Starting charger type vs usage chart creation..." [];;
     container ← getElementById "type-usage-viz";
     match container with
     | None => throw (Error "Container element not found")
     | Some _ =>
         set_style container;;
         appendChild container TypeUsageChart.the_filterContainer;;
         create_select "type-usage-viz/typeFilter" [ "all"; "L1"; "L2"; "DC" ];;
         create_select "type-usage-viz/powerFilter" [ "all"; "high"; "standard" ];;
         create_select "type-usage-viz/costFilter" [ "all"; "low"; "medium"; "high" ];;
         create_select "type-usage-viz/renewableFilter" [ "all"; "yes"; "no" ];;
         create_select "type-usage-viz/rangeFilter" [ "all"; "low"; "medium"; "high" ];;
         mapM (fun name => addEventListener name TypeUsage data) TypeUsageChart.select_names;;
         TypeUsageChart.updateChart container data
     end)
    (fun error =>
       console_error "Error creating charger type vs usage chart:" error;;
       el ← getElementById "type-usage-viz";
       set_innerHTML el [p_error ("Error creating chart: " +:+ message error)]).

(** ** [createCostRatingChart] *)

Module CostRatingChart.

Record datum := {
  charger_type : field;
  cost : number;
  rating : number;
  is24Hours : bool
}.

Definition mapped `{Host} (d : Row) : datum :=
  {| charger_type := get d "Charger Type";
     cost := parseFloat (ToString (get d "Cost (USD/kWh)"));
     rating := parseFloat (ToString (get d "Reviews (Rating)"));
     is24Hours := get d "Is24Hours" === "True" |}.

Definition built (d : datum) : object :=
  Built
    [ ("charger_type", of_field (charger_type d));
      ("cost", VNumber (cost d));
      ("rating", VNumber (rating d));
      ("is24Hours", VBoolean (is24Hours d)) ]
    None.

Record filters := {
  selectedType : string;
  selectedAvailability : string
}.

Definition unusable (d : datum) : bool :=
  PrimFloat.is_nan (cost d) || PrimFloat.is_nan (rating d) || (cost d <= 0)%js || (rating d < 0)%js.

Definition wrong_type (f : filters) (d : datum) : bool :=
  (selectedType f !== "all") && (charger_type d !== selectedType f).

Definition not_24h (f : filters) (d : datum) : bool :=
  (selectedAvailability f === "24h") && negb (is24Hours d).

Definition not_limited (f : filters) (d : datum) : bool :=
  (selectedAvailability f === "limited") && is24Hours d.

Definition kept (f : filters) (d : datum) : bool :=
  if unusable d then false
  else if wrong_type f d then false
  else if not_24h f d then false
  else if not_limited f d then false
  else true.

(** The validity check and one predicate for each select (type, availability). *)
Definition clauses (f : filters) : list (datum -> bool) :=
  [ fun d => negb (unusable d);
    fun d => negb (wrong_type f d);
    fun d => negb (not_24h f d) && negb (not_limited f d) ].

Definition processData `{Host} (f : filters) (data : list Row) : list datum :=
  List.filter (kept f) (map mapped data).

(** [typeFilter.value] and [availabilityFilter.value]. *)
Definition chosen (s : gmap string string) : filters :=
  {| selectedType := value_of s "cost-rating-viz/typeFilter";
     selectedAvailability := value_of s "cost-rating-viz/availabilityFilter" |}.

Definition read_filters : M filters :=
  fun w => (Returned (chosen (selects w)), w).

Definition spec (processedData : loc) : vega_spec :=
  inline {| values := processedData; colors := [ charger_type_scale "charger_type" ] |}.

(** [(stat.correlation || 0)]. *)
Definition or_zero (x : option number) : number :=
  match x with
  | Some v => if truthy (VNumber v) then v else 0%float
  | None => 0%float
  end.

(** [d3.correlation(xs, ys)]: calling a member that [d3] does not have throws. *)
Definition d3_correlation `{Host} (xs ys : list number) : M (option number) :=
  match correlation with
  | Some f => mret (f xs ys)
  | None => throw (TypeError "d3.correlation is not a function")
  end.

(** What the reducer of [d3.rollup] makes of a group:
    [{meanCost, meanRating, correlation, count}]. *)
Record reduced := {
  meanCost : option number;
  meanRating : option number;
  correlation_of : option number;
  count_of : nat
}.

Definition reduce `{Host} (v : list datum) : M reduced :=
  r ← d3_correlation (map cost v) (map rating v);
  mret {| meanCost := mean (map cost v);
          meanRating := mean (map rating v);
          correlation_of := r;
          count_of := length v |}.

(** The line of a group, written once every group is reduced. *)
Definition stat (t : field) (s : reduced) : M stats_line :=
  mc ← toFixed (meanCost s);
  mr ← toFixed (meanRating s);
  mret {| keys := [t];
          aggregates :=
            [ ("meanCost", mc); ("meanRating", mr);
              ("correlation", or_zero (correlation_of s)) ];
          sample_size := count_of s |}.

Definition stats `{Host} (processedData : list datum) : M (list stats_line) :=
  rolled ← mapM (fun g => s ← reduce (snd g); mret (fst g, s))
             (group charger_type processedData);
  mapM (fun e => stat (fst e) (snd e)) rolled.

(** The callback of [then]. *)
Definition show_stats `{Host} (container : element) (processedData : list datum) : M unit :=
  lines ← stats processedData;
  appendChild container (statsDiv "Cost-Rating Statistics" lines).

Definition updateChart `{Host} (container : element) (data : loc) : M unit :=
  rows ← read_table data;
  f ← read_filters;
  let processed := processData f rows in
  processedData ← new_array (map built processed);
  if (length processed =? 0)%nat
  then set_innerHTML container [p_error "No data available for selected filters"]
  else
    appendChild container (chartContainer "cost-rating-chart" None);;
    then_ (vegaEmbed "cost-rating-chart" (spec processedData))
      (fun _ => show_stats container processed).

Definition select_names : list string :=
  [ "cost-rating-viz/typeFilter"; "cost-rating-viz/availabilityFilter" ].

Definition the_filterContainer : node := filterContainer select_names.

Definition on_change `{Host} (container : element) (data : loc) : M unit :=
  set_innerHTML container [];;
  appendChild container the_filterContainer;;
  updateChart container data.

End CostRatingChart.

Definition createCostRatingChart `{Host} (data : loc) : M unit :=
  try_catch
    (console_log "Starting cost vs rating chart creation..." [];;
     container ← getElementById "cost-rating-viz";
     match container with
     | None => throw (Error "Container element not found")
     | Some _ =>
         set_style container;;
         appendChild container CostRatingChart.the_filterContainer;;
         create_select "cost-rating-viz/typeFilter" [ "all"; "L1"; "L2"; "DC" ];;
         create_select "cost-rating-viz/availabilityFilter" [ "all"; "24h"; "limited" ];;
         mapM (fun name => addEventListener name CostRating data) CostRatingChart.select_names;;
         CostRatingChart.updateChart container data
     end)
    (fun error =>
       console_error "Error creating cost vs rating chart:" error;;
       el ← getElementById "cost-rating-viz";
       set_innerHTML el [p_error ("Error creating chart: " +:+ message error)]).

(** ** [createBoxplotComparison] *)

Module BoxplotComparison.

(** The [transform] of the maintenance feature: [scores[value] || 0]. *)
Definition scores : literal :=
  [ ("Monthly", VNumber 3%float); ("Quarterly", VNumber 2%float);
    ("Annually", VNumber 1%float) ].

Definition maintenance_score (value : field) : jsval :=
  or_else (member scores value) (VNumber 0%float).

(** An entry of [features]: [{value, text, field, transform}]. *)
Record feature := {
  feature_value : string;
  feature_text : string;
  feature_field : string;
  feature_transform : option (field -> jsval)
}.

Definition maintenance : feature :=
  {| feature_value := "maintenance"; feature_text := "Maintenance Score";
     feature_field := "Maintenance Frequency";
     feature_transform := Some maintenance_score |}.

Definition features : list feature :=
  [ {| feature_value := "rating"; feature_text := "User Rating";
       feature_field := "Reviews (Rating)"; feature_transform := None |};
    {| feature_value := "usage"; feature_text := "Daily Users";
       feature_field := "Usage Stats (avg users/day)"; feature_transform := None |};
    {| feature_value := "capacity"; feature_text := "Charging Capacity";
       feature_field := "Charging Capacity (kW)"; feature_transform := None |};
    maintenance ].

Record datum := {
  charger : field;
  value : jsval;
  costRange : field;
  operator : field;
  renewable : field;
  connectors : field
}.

Definition mapped `{Host} (f : feature) (d : Row) : datum :=
  {| charger := get d "Charger Type";
     value :=
       match feature_transform f with
       | Some transform => transform (get d (feature_field f))
       | None => VNumber (parseFloat (ToString (get d (feature_field f))))
       end;
     costRange := get d "Cost_Range";
     operator := get d "Station Operator";
     renewable := get d "Renewable Energy Source";
     connectors := get d "Connector Types" |}.

Definition built (d : datum) : object :=
  Built
    [ ("type", of_field (charger d));
      ("value", value d);
      ("costRange", of_field (costRange d));
      ("operator", of_field (operator d));
      ("renewable", of_field (renewable d));
      ("connectors", of_field (connectors d)) ]
    None.

(** The [filter] callback: [!isNaN(d.value)]. *)
Definition kept `{Host} (d : datum) : bool := negb (isNaN (value d)).

Definition processData `{Host} (f : feature) (data : list Row) : list datum :=
  List.filter kept (map (mapped f) data).

Definition spec (processedData : loc) : vega_spec :=
  inline {| values := processedData; colors := [ charger_type_scale "type" ] |}.

(** [a.sort(d3.ascending)] on numbers. *)
Fixpoint ascending_insert (x : number) (a : list number) : list number :=
  match a with
  | [] => [x]
  | y :: a' => if (x <= y)%js then x :: a else y :: ascending_insert x a'
  end.

Definition sort_ascending (a : list number) : list number :=
  fold_right ascending_insert [] a.

Definition stat `{Host} (t c : field) (v : list datum) : M stats_line :=
  let vs := map (fun d => to_number (value d)) v in
  m ← toFixed (mean vs);
  md ← toFixed (median vs);
  q1 ← toFixed (quantile (sort_ascending vs) 0.25%float);
  q3 ← toFixed (quantile (sort_ascending vs) 0.75%float);
  mret {| keys := [t; c];
          aggregates := [ ("mean", m); ("median", md); ("q1", q1); ("q3", q3) ];
          sample_size := length v |}.

(** One line per charger type and cost range, in the order of the nested maps. *)
Definition stats `{Host} (processedData : list datum) : M (list stats_line) :=
  mapM (fun g => stat (fst (fst g)) (snd (fst g)) (snd g))
    (flat_map (fun g => map (fun g' => ((fst g, fst g'), snd g')) (group costRange (snd g)))
       (group charger processedData)).

Definition the_filterContainer : node := filterContainer [ "boxplot-viz/featureSelect" ].

(** The callback of [then]. *)
Definition show_stats `{Host} (container : element) (f : feature)
  (processedData : list datum) : M unit :=
  lines ← stats processedData;
  appendChild container (statsDiv ("Statistics for " +:+ feature_text f) lines).

Definition updateChart `{Host} (container : element) (data : loc) (selectedFeature : string)
  : M unit :=
  rows ← read_table data;
  match List.find (fun f => feature_value f === selectedFeature) features with
  | None =>
      throw (TypeError
               (if (length rows =? 0)%nat
                then "Cannot read properties of undefined (reading 'text')"
                else "Cannot read properties of undefined (reading 'transform')"))
  | Some f =>
      let processed := processData f rows in
      processedData ← new_array (map built processed);
      set_innerHTML container [];;
      appendChild container the_filterContainer;;
      appendChild container (chartContainer "boxplot-chart" None);;
      then_ (vegaEmbed "boxplot-chart" (spec processedData))
        (fun _ => show_stats container f processed)
  end.

End BoxplotComparison.

Definition createBoxplotComparison `{Host} (data : loc) : M unit :=
  try_catch
    (console_log "Starting boxplot comparison creation..." [];;
     container ← getElementById "boxplot-viz";
     match container with
     | None => throw (Error "Container element not found")
     | Some _ =>
         set_style container;;
         appendChild container BoxplotComparison.the_filterContainer;;
         create_select "boxplot-viz/featureSelect"
           (map BoxplotComparison.feature_value BoxplotComparison.features);;
         addEventListener "boxplot-viz/featureSelect" Boxplot data;;
         BoxplotComparison.updateChart container data "rating"
     end)
    (fun error =>
       console_error "Error creating boxplot comparison:" error;;
       el ← getElementById "boxplot-viz";
       set_innerHTML el [p_error ("Error creating boxplot comparison: " +:+ message error)]).

(** ** [createOperatorAnalysis] *)

Module OperatorAnalysis.

Record datum := {
  operator : field;
  rating : number;
  usage : number;
  renewable : field;
  chargerType : field;
  capacity : number
}.

Definition mapped `{Host} (d : Row) : datum :=
  {| operator := get d "Station Operator";
     rating := parseFloat (ToString (get d "Reviews (Rating)"));
     usage := parseFloat (ToString (get d "Usage Stats (avg users/day)"));
     renewable := get d "Renewable Energy Source";
     chargerType := get d "Charger Type";
     capacity := parseFloat (ToString (get d "Charging Capacity (kW)")) |}.

Definition built (d : datum) : object :=
  Built
    [ ("operator", of_field (operator d));
      ("rating", VNumber (rating d));
      ("usage", VNumber (usage d));
      ("renewable", of_field (renewable d));
      ("chargerType", of_field (chargerType d));
      ("capacity", VNumber (capacity d)) ]
    None.

(** The [filter] callback: [!isNaN(d.rating) && !isNaN(d.usage) && !isNaN(d.capacity)]. *)
Definition kept (d : datum) : bool :=
  negb (PrimFloat.is_nan (rating d)) && negb (PrimFloat.is_nan (usage d))
  && negb (PrimFloat.is_nan (capacity d)).

Definition processData `{Host} (data : list Row) : list datum :=
  List.filter kept (map mapped data).

Definition spec (processedData : loc) : vega_spec :=
  inline
    {| values := processedData;
       colors :=
         [ {| color_field := "renewable"; scale_domain := [ "Yes"; "No" ];
              scale_range := [ "#2ecc71"; "#e74c3c" ] |};
           charger_type_scale "chargerType" ] |}.

Definition stat `{Host} (o : field) (v : list datum) : M stats_line :=
  let renewableCount := length (List.filter (fun d => renewable d === "Yes") v) in
  r ← toFixed (mean (map rating v));
  u ← toFixed (mean (map usage v));
  c ← toFixed (mean (map capacity v));
  mret {| keys := [o];
          aggregates :=
            [ ("avgRating", r); ("avgUsage", u);
              ("renewableCount", of_nat renewableCount);
              ("renewableShare", (of_nat renewableCount / of_nat (length v) * 100)%float);
              ("avgCapacity", c) ];
          sample_size := length v |}.

Definition stats `{Host} (processedData : list datum) : M (list stats_line) :=
  mapM (fun g => stat (fst g) (snd g)) (group operator processedData).

(** The callback of [then]. *)
Definition show_stats `{Host} (container : element) (processedData : list datum) : M unit :=
  lines ← stats processedData;
  appendChild container (statsDiv "Operator Statistics" lines).

End OperatorAnalysis.

Definition createOperatorAnalysis `{Host} (data : loc) : M unit :=
  try_catch
    (console_log "Starting operator analysis creation..." [];;
     container ← getElementById "operator-viz";
     match container with
     | None => throw (Error "Container element not found")
     | Some _ =>
         set_style container;;
         rows ← read_table data;
         let processed := OperatorAnalysis.processData rows in
         processedData ← new_array (map OperatorAnalysis.built processed);
         then_ (vegaEmbed "operator-viz" (OperatorAnalysis.spec processedData))
           (fun _ => OperatorAnalysis.show_stats container processed)
     end)
    (fun error =>
       console_error "Error creating operator analysis:" error;;
       el ← getElementById "operator-viz";
       set_innerHTML el [p_error ("Error creating operator analysis: " +:+ message error)]).

(** ** [initialize] and the page's life *)

Definition initialize `{Host} : M unit :=
  try_catch
    (data ← loadData;
     createMap data;;
     loadTrendChart;;
     createHeatmap;;
     createCostRatingChart data;;
     createTypeUsageChart data;;
     createBoxplotComparison data;;
     createOperatorAnalysis data)
    (fun error => console_error "Error initializing visualizations:" error).

(** The body of a registered ['change'] listener, with the container and the
    table its closure captured and the value the event carries. *)
Definition listener_body `{Host} (l : listener) (value : string) : M unit :=
  match owner l with
  | Trend => TrendChart.updateChart (captured l) value
  | TypeUsage => TypeUsageChart.on_change (Some "type-usage-viz") (captured l)
  | CostRating => CostRatingChart.on_change (Some "cost-rating-viz") (captured l)
  | Boxplot => BoxplotComparison.updateChart (Some "boxplot-viz") (captured l) value
  end.

(** The browser calls a listener: an error it throws is reported and goes no further. *)
Definition call `{Host} (l : listener) (value : string) : M unit :=
  fun w =>
    match listener_body l value w with
    | (Returned _, w') => (Returned tt, w')
    | (Thrown e, w') => (Returned tt, set_console w' (console w' ++ [uncaught e]))
    end.

(** The user picks [value] in the select [name]: the select takes the value,
    then the listeners registered on it are called in order. *)
Definition change `{Host} (name value : string) : M unit :=
  fun w =>
    (mapM (fun l => if (target l =? name)%string then call l value else mret tt)
       (listeners w);;
     mret tt)
      (set_selects w (<[name := value]> (selects w))).

(** A page view: the ['load'] event, then the user's choices. *)
Definition page_view `{Host} (choices : list (string * string)) : M unit :=
  initialize;;
  mapM (fun c => change (fst c) (snd c)) choices;;
  mret tt.

(** ** A host to run the script on

    The theorems below hold for every [Host]; the examples need one to run on.
    This one reads ASCII decimal literals as [parseFloat] does (the value
    rounded to the nearest binary64, ties to even), parses CSV text that has
    no quoted field, and computes the statistics with IEEE arithmetic. *)

Module Examples.

Definition is_space (c : ascii) : bool :=
  let n := nat_of_ascii c in
  ((9 <=? n)%nat && (n <=? 13)%nat) || (n =? 32)%nat.

Definition is_digit (c : ascii) : bool :=
  let n := nat_of_ascii c in
  (48 <=? n)%nat && (n <=? 57)%nat.

Fixpoint skip_spaces (s : string) : string :=
  match s with
  | String c s' => if is_space c then skip_spaces s' else s
  | EmptyString => s
  end.

(** The digits [s] starts with: their value after [acc], how many, and the rest. *)
Fixpoint digits (s : string) (acc : Z) (n : nat) : Z * nat * string :=
  match s with
  | String c s' =>
      if is_digit c
      then digits s' (10 * acc + (Z.of_nat (nat_of_ascii c) - 48))%Z (S n)
      else (acc, n, s)
  | EmptyString => (acc, n, s)
  end.

Definition round_half_even (n d : Z) : Z :=
  let q := (n / d)%Z in
  let r := (n mod d)%Z in
  match (2 * r ?= d)%Z with
  | Lt => q
  | Gt => (q + 1)%Z
  | Eq => if Z.even q then q else (q + 1)%Z
  end.

(** The binary64 value nearest to [n / d], for [0 <= n] and [0 < d]. *)
Definition nearest_double (n d : Z) : number :=
  if (n =? 0)%Z then 0%float
  else
    let e0 := (Z.log2 n - Z.log2 d)%Z in
    let above := if (0 <=? e0)%Z then (d * 2 ^ e0 <=? n)%Z else (d <=? n * 2 ^ (- e0))%Z in
    let e := if above then e0 else (e0 - 1)%Z in
    let u := Z.max (e - 52) (-1074) in
    let m := if (0 <=? u)%Z then round_half_even n (d * 2 ^ u)
             else round_half_even (n * 2 ^ (- u)) d in
    Z.ldexp (PrimFloat.of_uint63 (Uint63.of_Z m)) u.

(** The exponent part [e[+-]digits], if [s] starts with one. *)
Definition exponent_part (s : string) : Z * string :=
  match s with
  | String c s' =>
      if (nat_of_ascii c =? 101)%nat || (nat_of_ascii c =? 69)%nat then
        let '(negative, s'') :=
          match s' with
          | String c' t =>
              if (nat_of_ascii c' =? 45)%nat then (true, t)
              else if (nat_of_ascii c' =? 43)%nat then (false, t)
              else (false, s')
          | EmptyString => (false, s')
          end in
        let '(v, n, rest) := digits s'' 0 0 in
        if (n =? 0)%nat then (0%Z, s) else ((if negative then - v else v)%Z, rest)
      else (0%Z, s)
  | EmptyString => (0%Z, s)
  end.

(** The longest prefix of [s] that is an unsigned decimal literal, as a number,
    and what follows it; [None] when no prefix is one. *)
Definition unsigned_literal (s : string) : option (number * string) :=
  if String.prefix "Infinity" s then Some (infinity, substring 8 (String.length s - 8) s)
  else
    let '(i, ni, s1) := digits s 0 0 in
    let '(m, nf, s2) :=
      match s1 with
      | String c s1' =>
          if (nat_of_ascii c =? 46)%nat then
            let '(m, nf, s2) := digits s1' i 0 in
            if (ni =? 0)%nat && (nf =? 0)%nat then (i, 0%nat, s1) else (m, nf, s2)
          else (i, 0%nat, s1)
      | EmptyString => (i, 0%nat, s1)
      end in
    if (ni + nf =? 0)%nat then None
    else
      let '(e, s3) := exponent_part s2 in
      let p := (e - Z.of_nat nf)%Z in
      Some (if (0 <=? p)%Z then nearest_double (m * 10 ^ p) 1
            else nearest_double m (10 ^ (- p)), s3).

Definition signed_literal (s : string) : option (number * string) :=
  match s with
  | String c s' =>
      if (nat_of_ascii c =? 45)%nat
      then (fun p => ((- fst p)%float, snd p)) <$> unsigned_literal s'
      else if (nat_of_ascii c =? 43)%nat then unsigned_literal s'
      else unsigned_literal s
  | EmptyString => None
  end.

Definition parseFloat (s : string) : number :=
  match signed_literal (skip_spaces s) with
  | Some (x, _) => x
  | None => nan
  end.

(** [Number(s)] for decimal literals: the whole string, blanks apart, must be one. *)
Definition ToNumber (s : string) : number :=
  if (skip_spaces s =? "")%string then 0%float
  else
    match signed_literal (skip_spaces s) with
    | Some (x, rest) => if (skip_spaces rest =? "")%string then x else nan
    | None => nan
    end.

(** The least [n] from [n] on, [fuel] steps at most, with [p / q < 10 ^ n]. *)
Fixpoint magnitude (fuel : nat) (p q n : Z) : Z :=
  match fuel with
  | O => n
  | S fuel' =>
      if (if (0 <=? n)%Z then p <? q * 10 ^ n else p * 10 ^ (- n) <? q)%Z then n
      else magnitude fuel' p q (n + 1)%Z
  end.

(** [s * 10 ^ e] as a fraction. *)
Definition scaled (s e : Z) : Z * Z :=
  if (0 <=? e)%Z then (s * 10 ^ e, 1)%Z else (s, 10 ^ (- e))%Z.

(** The integer [s] of [k] digits, if any, for which [s * 10 ^ (n - k)] reads
    back as [x = p / q]: of the two integers next to [x / 10 ^ (n - k)] the
    nearer one that does, the even one when they are as near. *)
Definition digits_of_length (x : number) (p q n k : Z) : option Z :=
  let '(P, Q) :=
    (if 0 <=? k - n then (p * 10 ^ (k - n), q) else (p, q * 10 ^ (n - k)))%Z in
  let lo := (P / Q)%Z in
  let hi := (lo + 1)%Z in
  let reads s := let '(a, b) := scaled s (n - k) in (nearest_double a b =? x)%float in
  let nearer_lo :=
    match (2 * (P mod Q) ?= Q)%Z with
    | Lt => true
    | Gt => false
    | Eq => Z.even lo
    end in
  match reads lo, reads hi with
  | true, true => Some (if nearer_lo then lo else hi)
  | true, false => Some lo
  | false, true => Some hi
  | false, false => None
  end.

(** The shortest digits that read back as [x], with their length: the lengths
    from [k] on, [fuel] of them. *)
Fixpoint shortest (fuel : nat) (x : number) (p q n k : Z) : Z * Z :=
  match fuel with
  | O => (0, k)%Z
  | S fuel' =>
      match digits_of_length x p q n k with
      | Some s => (s, k)
      | None => shortest fuel' x p q n (k + 1)%Z
      end
  end.

Definition zeros (n : Z) : string := String.concat "" (repeat "0" (Z.to_nat n)).

(** [Number::toString(x)] for a positive finite [x = m * 2 ^ e]: the shortest
    digits that read back as [x], laid out as the language does. *)
Definition positive_toString (x : number) (m e : Z) : string :=
  let '(p, q) := (if 0 <=? e then (m * 2 ^ e, 1) else (m, 2 ^ (- e)))%Z in
  let n0 := magnitude 8 p q ((Z.log2 p - Z.log2 q - 1) * 30103 / 100000 - 1) in
  let '(s0, k0) := shortest 17 x p q n0 1 in
  let '(s, k, n) := if (s0 =? 10 ^ k0)%Z then (1, 1, n0 + 1)%Z else (s0, k0, n0) in
  let ds := pretty s in
  if ((k <=? n) && (n <=? 21))%Z then ds +:+ zeros (n - k)
  else if ((0 <? n) && (n <=? 21))%Z
  then substring 0 (Z.to_nat n) ds +:+ "." +:+ substring (Z.to_nat n) (Z.to_nat (k - n)) ds
  else if ((-6 <? n) && (n <=? 0))%Z then "0." +:+ zeros (- n) +:+ ds
  else
    let exponent := (if (0 <=? n - 1)%Z then "+" else "-") +:+ pretty (Z.abs (n - 1)) in
    if (k =? 1)%Z then ds +:+ "e" +:+ exponent
    else substring 0 1 ds +:+ "." +:+ substring 1 (Z.to_nat (k - 1)) ds +:+ "e" +:+ exponent.

(** [Number::toString(x)], radix 10. *)
Definition Number_toString (x : number) : string :=
  match Prim2SF x with
  | S754_nan => "NaN"
  | S754_zero _ => "0"
  | S754_infinity false => "Infinity"
  | S754_infinity true => "-Infinity"
  | S754_finite negative m e =>
      (if negative then "-" else "") +:+ positive_toString (PrimFloat.abs x) (Z.pos m) e
  end.

(** A line feed. *)
Definition LF : string := String (ascii_of_nat 10) EmptyString.

(** [s] cut at every [c]. *)
Fixpoint split (c : ascii) (s : string) : list string :=
  match s with
  | EmptyString => [EmptyString]
  | String c' s' =>
      if Ascii.eqb c' c then EmptyString :: split c s'
      else
        match split c s' with
        | x :: xs => String c' x :: xs
        | [] => [String c' EmptyString]
        end
  end.

Fixpoint zip_fields (columns fields : list string) : Row :=
  match columns with
  | [] => []
  | k :: columns' => (k, default "" (head fields)) :: zip_fields columns' (tail fields)
  end.

(** The text ends with at most one line feed that ends no record. *)
Definition records (text : string) : list string :=
  let ls := split (ascii_of_nat 10) text in
  match last ls with
  | Some EmptyString => removelast ls
  | _ => ls
  end.

(** [d3.csvParse(text)] for text without quoted fields. *)
Definition csvParse (text : string) : list Row :=
  match records text with
  | [] => []
  | header :: lines =>
      map (fun l => zip_fields (split (ascii_of_nat 44) header) (split (ascii_of_nat 44) l))
        lines
  end.

(** [d3.mean]: the mean of the values that are numbers. *)
Definition mean (values : list number) : option number :=
  let valid := List.filter (fun x => negb (PrimFloat.is_nan x)) values in
  match valid with
  | [] => None
  | _ => Some (fold_left PrimFloat.add valid 0 / of_nat (length valid))%float
  end.

(** The largest [k < n] with [k <= i]. *)
Fixpoint floor_below (n : nat) (i : number) : nat :=
  match n with
  | O => O
  | S k => if (of_nat k <= i)%js then k else floor_below k i
  end.

(** [d3.quantile]: linear interpolation between the two nearest ranks. *)
Definition quantile (values : list number) (p : number) : option number :=
  let sorted :=
    BoxplotComparison.sort_ascending
      (List.filter (fun x => negb (PrimFloat.is_nan x)) values) in
  let n := length sorted in
  if (n =? 0)%nat || PrimFloat.is_nan p then None
  else if (p <= 0)%js || (n <? 2)%nat then head sorted
  else if (p >= 1)%js then last sorted
  else
    let i := (of_nat (n - 1) * p)%float in
    let i0 := floor_below n i in
    let value0 := nth i0 sorted nan in
    let value1 := nth (S i0) sorted nan in
    Some (value0 + (value1 - value0) * (i - of_nat i0))%float.

Definition median (values : list number) : option number := quantile values 0.5%float.

Definition found (body : string) : settled Response :=
  Fulfilled {| ok := true; status := 200; text := Fulfilled body; json := Fulfilled body |}.

Definition not_found : settled Response :=
  Fulfilled {| ok := false; status := 404; text := Fulfilled "Not Found";
               json := Rejected (Error "Unexpected token N in JSON") |}.

(** A page with the given containers, all empty, and nothing loaded yet. *)
Definition page (ids : list string) : world :=
  {| heap := []; document := list_to_map (map (fun id => (id, [])) ids);
     selects := ∅; listeners := []; console := []; network := []; vega_ids := 0 |}.

(** The containers of [index.html]. *)
Definition index_html : world :=
  page [ "map-viz"; "trend-viz"; "heatmap-viz"; "boxplot-viz"; "type-usage-viz";
         "cost-rating-viz" ].

(** A small table: three stations. *)
Definition stations_csv : string :=
  "Charger Type,Cost (USD/kWh),Usage Stats (avg users/day),Is24Hours,IsHighPower,Reviews (Rating),Installation Year,Renewable Energy Source,Maintenance Frequency,Station Operator,Charging Capacity (kW),Cost_Range"
  +:+ LF +:+ "L1,0.12,8,True,False,4.1,2015,Yes,Monthly,ChargePoint,22,0.10-0.15"
  +:+ LF +:+ "DC,0.35,40,False,True,3.9,2019,No,Annually,Tesla,350,0.35-0.40"
  +:+ LF +:+ "L2,0.20,15,True,False,4.5,2015,Yes,Quarterly,EVgo,50,0.20-0.25"
  +:+ LF.

Definition heatmap_json : string := "{}".

(** A CSV with the three required columns and no record. *)
Definition header_only : string :=
  "Cost (USD/kWh),Usage Stats (avg users/day),Is24Hours" +:+ LF.

(** A station with no cost on record. *)
Definition unpriced : Row :=
  [ ("Charger Type", "L2"); ("Cost (USD/kWh)", ""); ("Usage Stats (avg users/day)", "5") ].

(** A station whose availability flag is neither ['True'] nor ['False']. *)
Definition unflagged : Row :=
  [ ("Charger Type", "L2"); ("Cost (USD/kWh)", "0.20"); ("Reviews (Rating)", "4.5");
    ("Is24Hours", "") ].

(** Two stations with maintenance frequencies the score table does not list. *)
Definition weekly : Row :=
  [ ("Charger Type", "L2"); ("Maintenance Frequency", "Weekly") ].

Definition odd_frequency : Row :=
  [ ("Charger Type", "L2"); ("Maintenance Frequency", "constructor") ].

(** Two stations with charger types the colour tables do not list. *)
Definition tesla : Row := [ ("Charger Type", "Tesla") ].

Definition odd_type : Row := [ ("Charger Type", "constructor") ].

End Examples.

(** A host whose network answers the CSV request with [csv] and the heatmap
    request with [heatmap], whose [d3] is version 7 and whose Vega accepts
    every chart. *)
Definition serving (csv heatmap : settled Response) : Host :=
  {| parseFloat := Examples.parseFloat;
     ToNumber := Examples.ToNumber;
     Number_toString := Examples.Number_toString;
     csvParse := Examples.csvParse;
     mean := Examples.mean;
     median := Examples.median;
     quantile := Examples.quantile;
     correlation := None;
     fetch_settles := fun _ url =>
       if (url =? csv_url)%string then csv
       else if (url =? "heatmap_spec.json")%string then heatmap
       else Rejected (TypeError "Failed to fetch");
     vegaEmbed_rejects := fun _ => None |}.

(** The host of the examples: the three stations and a heatmap are served. *)
Definition example_host : Host :=
  serving (Examples.found Examples.stations_csv) (Examples.found Examples.heatmap_json).

(** The page the examples load: [index.html] after its ['load'] event, where
    the table [initialize] loaded is the array at address 3. *)
Definition loaded_page : world := (@initialize example_host Examples.index_html).2.

(** ** What a statement leaves unchanged *)

(** The requests for the CSV the page has issued. *)
Definition csv_requests (w : world) : nat :=
  length (List.filter (String.eqb csv_url) (network w)).

(** [m] takes every page to one related to it by [R], whether it returns or throws. *)
Definition changes {A : Type} (R : world -> world -> Prop) (m : M A) : Prop :=
  forall w, R w (m w).2.

(** No request for the CSV is issued. *)
Definition no_csv_request (w w' : world) : Prop := csv_requests w' = csv_requests w.

(** Every object that exists stays as it is. *)
Definition objects_kept (w w' : world) : Prop :=
  forall l o, heap w !! l = Some o -> heap w' !! l = Some o.

(** An array of records is as it was: the same array object, the same record
    objects. *)
Definition same_table (w w' : world) (data : loc) : Prop :=
  heap w' !! data = heap w !! data
  /\ (forall l, In l (elements_at (heap w) data) -> heap w' !! l = heap w !! l)
  /\ table (heap w') data = table (heap w) data.

(** A page of [index.html] from which the cost-and-rating container is missing. *)
Definition without_cost_rating : world :=
  Examples.page [ "map-viz"; "trend-viz"; "heatmap-viz"; "boxplot-viz"; "type-usage-viz" ].

(** A page of [index.html] from which the map's container is missing. *)
Definition without_map_viz : world :=
  Examples.page [ "trend-viz"; "heatmap-viz"; "boxplot-viz"; "type-usage-viz";
                  "cost-rating-viz" ].

(** Whether the console holds the message a chart function logs when it starts. *)
Definition started (message : string) (w : world) : bool :=
  existsb
    (fun e => match e with
              | log m _ => (m =? message)%string
              | _ => false
              end)
    (console w).

(** The selects of the usage chart after the user picks another cost range,
    another usage range. *)
Definition with_cost (f : TypeUsageChart.filters) (selectedCost : string)
  : TypeUsageChart.filters :=
  {| TypeUsageChart.selectedType := TypeUsageChart.selectedType f;
     TypeUsageChart.selectedPower := TypeUsageChart.selectedPower f;
     TypeUsageChart.selectedCost := selectedCost;
     TypeUsageChart.selectedRenewable := TypeUsageChart.selectedRenewable f;
     TypeUsageChart.selectedRange := TypeUsageChart.selectedRange f |}.

Definition with_range (f : TypeUsageChart.filters) (selectedRange : string)
  : TypeUsageChart.filters :=
  {| TypeUsageChart.selectedType := TypeUsageChart.selectedType f;
     TypeUsageChart.selectedPower := TypeUsageChart.selectedPower f;
     TypeUsageChart.selectedCost := TypeUsageChart.selectedCost f;
     TypeUsageChart.selectedRenewable := TypeUsageChart.selectedRenewable f;
     TypeUsageChart.selectedRange := selectedRange |}.

(** Every element of the page is still on the page. *)
Definition elements_kept (w w' : world) : Prop :=
  forall id, is_Some (document w !! id) -> is_Some (document w' !! id).

(** The chart functions [initialize] calls once the table is loaded, in the
    order of the calls, each with the id of its container. *)
Definition the_charts `{Host} (data : loc) : list (string * M unit) :=
  [ ("map-viz", createMap data); ("trend-viz", loadTrendChart); ("heatmap-viz", createHeatmap);
    ("cost-rating-viz", createCostRatingChart data);
    ("type-usage-viz", createTypeUsageChart data);
    ("boxplot-viz", createBoxplotComparison data);
    ("operator-viz", createOperatorAnalysis data) ].

(** What the [catch] handler of each chart function reports, by the id of the
    container: the label it gives [console.error], and the text it writes
    before the error's message in the paragraph it puts into the container. *)
Definition the_handlers : list (string * (string * string)) :=
  [ ("map-viz", ("Error creating map:", "Error creating map: "));
    ("trend-viz", ("Error loading trend chart:", "Error loading trend chart: "));
    ("heatmap-viz", ("Error creating heatmap:", "Error creating heatmap: "));
    ("cost-rating-viz", ("Error creating cost vs rating chart:", "Error creating chart: "));
    ("type-usage-viz",
     ("Error creating charger type vs usage chart:", "Error creating chart: "));
    ("boxplot-viz",
     ("Error creating boxplot comparison:", "Error creating boxplot comparison: "));
    ("operator-viz",
     ("Error creating operator analysis:", "Error creating operator analysis: ")) ].

(** [create] is a [try] block with the handler of the container [id], and on
    the page [w] the handler does its work: when the block returns, the page is
    as the block left it; when it throws, the handler logs the error under its
    label and puts its message into the container, as the only content. *)
Definition handled (id : string) (create : M unit) (w : world) : Prop :=
  exists label text body,
    In (id, (label, text)) the_handlers
    /\ create
       = try_catch body
           (fun error =>
              console_error label error;;
              el ← getElementById id;
              set_innerHTML el [p_error (text +:+ message error)])
    /\ match body w with
       | (Returned _, w1) => (create w).2 = w1
       | (Thrown e, w1) =>
           console (create w).2 = console w1 ++ [error_logged label e]
           /\ document (create w).2 = <[id := [p_error (text +:+ message e)]]> (document w1)
       end.

(** A page that has the seven containers. *)
Definition complete_page : world :=
  Examples.page
    [ "map-viz"; "trend-viz"; "heatmap-viz"; "cost-rating-viz"; "type-usage-viz";
      "boxplot-viz"; "operator-viz" ].

(** The members of [values] whose key is [k], in their order. *)
Definition of_key {A : Type} (key : A -> field) (k : field) (values : list A) : list A :=
  List.filter (fun x => same_key (key x) k) values.

(** The stations of [rows] installed in year [y] with a charger of type [t]. *)
Definition installed (rows : list Row) (y t : string) : list Row :=
  List.filter
    (fun d => same_key (get d "Installation Year") (Some y)
              && same_key (get d "Charger Type") (Some t))
    rows.

(** Outside the container [own], the page has no element with the id [chart]:
    neither an element of the page nor a chart container a script created. *)
Definition no_other (own chart : string) (w : world) : Prop :=
  (chart <> own -> document w !! chart = None)
  /\ forall id ns,
       id <> own -> document w !! id = Some ns -> existsb (is_chartContainer chart) ns = false.

(** On such a page, nothing changes outside the container [own]. *)
Definition confined (own chart : string) (w w' : world) : Prop :=
  no_other own chart w ->
  forall id, id <> own -> document w' !! id = document w !! id.

(** The chart functions with their container and the id of the element they
    embed a Vega chart in. *)
Definition the_embeddings `{Host} (data : loc) : list (string * string * M unit) :=
  [ ("map-viz", "map-viz", createMap data);
    ("trend-viz", "trend-viz", loadTrendChart);
    ("heatmap-viz", "heatmap-viz", createHeatmap);
    ("cost-rating-viz", "cost-rating-chart", createCostRatingChart data);
    ("type-usage-viz", "type-usage-chart", createTypeUsageChart data);
    ("boxplot-viz", "boxplot-chart", createBoxplotComparison data);
    ("operator-viz", "operator-viz", createOperatorAnalysis data) ].

(** The container of a chart that has selects, and the id of the element it
    draws in. *)
Definition container_of (c : chart) : string * string :=
  match c with
  | Trend => ("trend-viz", "trend-viz")
  | TypeUsage => ("type-usage-viz", "type-usage-chart")
  | CostRating => ("cost-rating-viz", "cost-rating-chart")
  | Boxplot => ("boxplot-viz", "boxplot-chart")
  end.

(** The selects hold what they held. *)
Definition selects_kept (w w' : world) : Prop := selects w' = selects w.

(** [no_other], decided. *)
Definition no_other_b (own chart : string) (w : world) : bool :=
  ((chart =? own)%string || bool_decide (document w !! chart = None :> option (list node)))
  && bool_decide
       (map_Forall
          (fun id ns => id = own \/ existsb (is_chartContainer chart) ns = false)
          (document w)).

(** Whether a console entry was written by [console.log]. *)
Definition is_log (e : entry) : bool :=
  match e with
  | log _ _ => true
  | _ => false
  end.

(** The selects of the usage chart after the user picks another power level,
    another answer for renewable energy. *)
Definition with_power (f : TypeUsageChart.filters) (selectedPower : string)
  : TypeUsageChart.filters :=
  {| TypeUsageChart.selectedType := TypeUsageChart.selectedType f;
     TypeUsageChart.selectedPower := selectedPower;
     TypeUsageChart.selectedCost := TypeUsageChart.selectedCost f;
     TypeUsageChart.selectedRenewable := TypeUsageChart.selectedRenewable f;
     TypeUsageChart.selectedRange := TypeUsageChart.selectedRange f |}.

Definition with_renewable (f : TypeUsageChart.filters) (selectedRenewable : string)
  : TypeUsageChart.filters :=
  {| TypeUsageChart.selectedType := TypeUsageChart.selectedType f;
     TypeUsageChart.selectedPower := TypeUsageChart.selectedPower f;
     TypeUsageChart.selectedCost := TypeUsageChart.selectedCost f;
     TypeUsageChart.selectedRenewable := selectedRenewable;
     TypeUsageChart.selectedRange := TypeUsageChart.selectedRange f |}.

(** The selects of the cost-and-rating chart after the user picks another
    availability. *)
Definition with_availability (f : CostRatingChart.filters) (selectedAvailability : string)
  : CostRatingChart.filters :=
  {| CostRatingChart.selectedType := CostRatingChart.selectedType f;
     CostRatingChart.selectedAvailability := selectedAvailability |}.

(** ** The markers of the map: clusters and popups *)

Module Markers.

(** [iconCreateFunction]: the side of the icon of a cluster of [count] markers. *)
Definition size (count : nat) : nat :=
  if (100 <? count)%nat then 60
  else if (50 <? count)%nat then 50
  else 40.

(** The icon: the count shown in a square of that side. *)
Record divIcon := {
  shown_count : nat;
  iconSize : nat * nat
}.

Definition iconCreateFunction (count : nat) : divIcon :=
  {| shown_count := count; iconSize := (size count, size count) |}.

(** The lines of the popup that say when the station is open and how powerful
    it is. *)
Definition hours (d : Row) : string :=
  if get d "Is24Hours" === "True" then "24/7" else "Limited".

Definition power (d : Row) : string :=
  if get d "IsHighPower" === "True" then "High Power" else "Standard".

End Markers.

(** ** The map of the script's first version *)

Module WorldMap.

(** The callback of [filterData]: [typeMatch && availabilityMatch], as
    [filter] reads it. *)
Definition typeMatch (selectedType : string) (d : Row) : bool :=
  (selectedType === "all") || (get d "Charger Type" === selectedType).

Definition availabilityMatch (selectedAvailability : string) (d : Row) : bool :=
  (selectedAvailability === "all")
  || ((selectedAvailability === "24h") && truthy (of_field (get d "Is24Hours")))
  || ((selectedAvailability === "limited") && negb (truthy (of_field (get d "Is24Hours")))).

Definition filterData (selectedType selectedAvailability : string) (data : list Row)
  : list Row :=
  List.filter (fun d => typeMatch selectedType d && availabilityMatch selectedAvailability d)
    data.

(** The line of the tooltip that says when the station is open. *)
Definition hours (d : Row) : string :=
  if truthy (of_field (get d "Is24Hours")) then "24/7" else "Limited".

End WorldMap.

(** ** The trend chart of the script's earlier version: legend and dots

    The chart is drawn once; afterwards only its event handlers run.  A dot
    keeps the type of its line, whether it carries the class [selected-dot],
    its radius and whether it takes pointer events; the lines' and dots'
    colours and opacities are not modelled. *)

Module Legend.

Record dot := {
  of_type : string;
  selected_dot : bool;
  r : nat;
  pointer_events : bool
}.

Record state := {
  visibilityState : literal;
  dots : list dot;
  tooltip_visible : bool
}.

(** [o[k] = v] on an object literal. *)
Fixpoint assign (o : literal) (k : string) (v : jsval) : literal :=
  match o with
  | [] => [(k, v)]
  | (k', v') :: o' => if (k' =? k)%string then (k', v) :: o' else (k', v') :: assign o' k v
  end.

(** The chart as drawn: every line visible, no dot selected, the tooltip hidden. *)
Definition drawn (points : list trend_point) : state :=
  {| visibilityState :=
       [ ("L1", VBoolean true); ("L2", VBoolean true); ("DC", VBoolean true) ];
     dots := map (fun p => {| of_type := type p; selected_dot := false; r := 4;
                              pointer_events := true |}) points;
     tooltip_visible := false |}.

Definition visible (st : state) (t : string) : bool :=
  truthy (member (visibilityState st) (Some t)).

(** [updateVisibility(type)], the click handler of a legend item. *)
Definition updateVisibility (t : string) (st : state) : state :=
  let vs := assign (visibilityState st) t (VBoolean (negb (visible st t))) in
  let now_visible := truthy (member vs (Some t)) in
  {| visibilityState := vs;
     dots := map (fun d => if (of_type d =? t)%string
                           then {| of_type := of_type d; selected_dot := selected_dot d;
                                   r := r d; pointer_events := now_visible |}
                           else d)
               (dots st);
     tooltip_visible := tooltip_visible st |}.

Definition with_r (d : dot) (radius : nat) : dot :=
  {| of_type := of_type d; selected_dot := selected_dot d; r := radius;
     pointer_events := pointer_events d |}.

(** [svg.selectAll('.selected-dot').classed('selected-dot', false)...attr('r', 4)]. *)
Definition deselect (d : dot) : dot :=
  if selected_dot d
  then {| of_type := of_type d; selected_dot := false; r := 4;
          pointer_events := pointer_events d |}
  else d.

(** The handlers of the dot at position [i]. *)
Definition mouseover (i : nat) (st : state) : state :=
  match dots st !! i with
  | Some d =>
      if visible st (of_type d)
      then {| visibilityState := visibilityState st;
              dots := <[i := with_r d 8]> (dots st);
              tooltip_visible := true |}
      else st
  | None => st
  end.

Definition mouseout (i : nat) (st : state) : state :=
  match dots st !! i with
  | Some d =>
      if visible st (of_type d) && negb (selected_dot d)
      then {| visibilityState := visibilityState st;
              dots := <[i := with_r d 4]> (dots st);
              tooltip_visible := false |}
      else st
  | None => st
  end.

Definition click (i : nat) (st : state) : state :=
  match dots st !! i with
  | Some d =>
      let isSelected := selected_dot d in
      let cleared := map deselect (dots st) in
      if negb isSelected
      then {| visibilityState := visibilityState st;
              dots := <[i := {| of_type := of_type d; selected_dot := true; r := 8;
                                pointer_events := pointer_events d |}]> cleared;
              tooltip_visible := true |}
      else {| visibilityState := visibilityState st;
              dots := cleared;
              tooltip_visible := false |}
  | None => st
  end.

(** The click handler of the chart itself, behind the dots. *)
Definition click_svg (st : state) : state :=
  {| visibilityState := visibilityState st;
     dots := map deselect (dots st);
     tooltip_visible := false |}.

(** What the user does.  The legend has an item for each of the three types,
    and a dot that takes no pointer events gets none.  The legend is drawn
    inside the chart and its handler lets the click through, so that a click
    on a legend item reaches the handler of the chart after it; the handler of
    a dot stops the click. *)
Inductive event :=
| LegendClick (t : string)
| DotOver (i : nat)
| DotOut (i : nat)
| DotClick (i : nat)
| ChartClick.

Definition takes_events (st : state) (i : nat) : bool :=
  match dots st !! i with
  | Some d => pointer_events d
  | None => false
  end.

Definition handle (st : state) (e : event) : state :=
  match e with
  | LegendClick t =>
      if includes TrendChart.types t then click_svg (updateVisibility t st) else st
  | DotOver i => if takes_events st i then mouseover i st else st
  | DotOut i => if takes_events st i then mouseout i st else st
  | DotClick i => if takes_events st i then click i st else st
  | ChartClick => click_svg st
  end.

Definition selected (st : state) : list dot := List.filter selected_dot (dots st).

End Legend.

(** One selected dot at most, and a selected dot is drawn large. *)
Definition well_selected (st : Legend.state) : Prop :=
  (length (Legend.selected st) <= 1)%nat
  /\ Forall (fun d => Legend.selected_dot d = true -> Legend.r d = 8) (Legend.dots st).

(** * Theorems *)

#[local] Arguments String.eqb : simpl never.

(** ** Filtering *)

Section Predicates.

Context {A : Type}.

(** Filtering by one predicate after another is filtering by their conjunction. *)
Lemma apply_in_order_forallb (ps : list (A -> bool)) (l : list A) :
  apply_in_order ps l = List.filter (fun x => forallb (fun p => p x) ps) l.
Proof.
  unfold apply_in_order.
  revert l; induction ps as [|p ps IH]; intros l; simpl.
  - induction l as [|x l IHl]; simpl; congruence.
  - rewrite IH. clear IH.
    induction l as [|x l IHl]; simpl; [reflexivity|].
    destruct (p x); simpl; rewrite IHl; reflexivity.
Qed.

Lemma forallb_permutation (ps qs : list (A -> bool)) (x : A) :
  Permutation ps qs -> forallb (fun p => p x) ps = forallb (fun p => p x) qs.
Proof.
  induction 1 as [|p ps qs _ IH|p q ps|ps qs rs _ IH1 _ IH2]; simpl.
  - reflexivity.
  - now rewrite IH.
  - destruct (p x), (q x); reflexivity.
  - now rewrite IH1.
Qed.

Lemma filter_ext_bool (p q : A -> bool) (l : list A) :
  (forall x, p x = q x) -> List.filter p l = List.filter q l.
Proof.
  intros E. induction l as [|x l IH]; simpl; [reflexivity|].
  now rewrite E, IH.
Qed.

(** In whatever order the predicates of [qs] are applied, the result is the
    filter by [keep], as soon as [keep] is the conjunction of some arrangement. *)
Lemma any_order (keep : A -> bool) (ps qs : list (A -> bool)) (l : list A) :
  (forall x, keep x = forallb (fun p => p x) ps) ->
  Permutation qs ps ->
  apply_in_order qs l = List.filter keep l.
Proof.
  intros E P. rewrite apply_in_order_forallb.
  apply filter_ext_bool. intros x. rewrite E. now apply forallb_permutation.
Qed.

Lemma filter_idempotent (p : A -> bool) (l : list A) :
  List.filter p (List.filter p l) = List.filter p l.
Proof.
  induction l as [|x l IH]; simpl; [reflexivity|].
  destruct (p x) eqn:E; simpl; [rewrite E|]; now rewrite IH.
Qed.

End Predicates.

Lemma TypeUsageChart_kept_clauses (f : TypeUsageChart.filters) (d : TypeUsageChart.datum) :
  TypeUsageChart.kept f d = forallb (fun p => p d) (TypeUsageChart.clauses f).
Proof.
  unfold TypeUsageChart.kept, TypeUsageChart.clauses; simpl.
  destruct (TypeUsageChart.unusable d), (TypeUsageChart.wrong_type f d),
    (TypeUsageChart.wrong_power f d), (TypeUsageChart.wrong_cost f d),
    (TypeUsageChart.wrong_renewable f d), (TypeUsageChart.in_range f d); reflexivity.
Qed.

Lemma CostRatingChart_kept_clauses (f : CostRatingChart.filters) (d : CostRatingChart.datum) :
  CostRatingChart.kept f d = forallb (fun p => p d) (CostRatingChart.clauses f).
Proof.
  unfold CostRatingChart.kept, CostRatingChart.clauses; simpl.
  destruct (CostRatingChart.unusable d), (CostRatingChart.wrong_type f d),
    (CostRatingChart.not_24h f d), (CostRatingChart.not_limited f d); reflexivity.
Qed.

(** C2. For every table and every choice in the selects, applying the
    predicates of [processData] (the validity check and one predicate for each
    select) one after the other gives the result of [processData] whatever
    the order, and filtering the result of [processData] again with the same
    choice changes nothing; both for the usage chart and for the
    cost-and-rating chart. *)
Theorem processData_order_and_idempotence `{Host} (data : list Row) :
  (forall f order,
      Permutation order (TypeUsageChart.clauses f) ->
      apply_in_order order (map TypeUsageChart.mapped data) = TypeUsageChart.processData f data)
  /\ (forall f,
        List.filter (TypeUsageChart.kept f) (TypeUsageChart.processData f data)
        = TypeUsageChart.processData f data)
  /\ (forall f order,
        Permutation order (CostRatingChart.clauses f) ->
        apply_in_order order (map CostRatingChart.mapped data)
        = CostRatingChart.processData f data)
  /\ (forall f,
        List.filter (CostRatingChart.kept f) (CostRatingChart.processData f data)
        = CostRatingChart.processData f data).
Proof.
  repeat split.
  - intros f order P. unfold TypeUsageChart.processData.
    eapply any_order; [apply TypeUsageChart_kept_clauses|exact P].
  - intros f. apply filter_idempotent.
  - intros f order P. unfold CostRatingChart.processData.
    eapply any_order; [apply CostRatingChart_kept_clauses|exact P].
  - intros f. apply filter_idempotent.
Qed.

Lemma processData_order_witness :
  let f :=
    {| TypeUsageChart.selectedType := "all"; TypeUsageChart.selectedPower := "standard";
       TypeUsageChart.selectedCost := "low"; TypeUsageChart.selectedRenewable := "yes";
       TypeUsageChart.selectedRange := "low" |} in
  let data := Examples.csvParse Examples.stations_csv in
  Permutation (rev (TypeUsageChart.clauses f)) (TypeUsageChart.clauses f)
  /\ apply_in_order (rev (TypeUsageChart.clauses f))
       (map (@TypeUsageChart.mapped example_host) data)
     = @TypeUsageChart.processData example_host f data.
Proof.
  split.
  - symmetry. apply Permutation_rev.
  - apply (proj1 (@processData_order_and_idempotence example_host
                    (Examples.csvParse Examples.stations_csv))).
    symmetry. apply Permutation_rev.
Defined.

(** ** Availability *)

(** C9. A record whose [Is24Hours] is neither ['True'] nor ['False'] is
    refused by the trend chart's ['limited'] choice and by its ['24/7'] choice
    while ['all'] accepts it; the cost-and-rating chart's ['limited'] choice
    does not refuse it (it is kept exactly when ['all'] keeps it) and its
    ['24h'] choice refuses it. *)
Theorem availability_of_other_flags `{Host} (d : Row) :
  get d "Is24Hours" <> Some "True" ->
  get d "Is24Hours" <> Some "False" ->
  TrendChart.available "limited" d = false
  /\ TrendChart.available "24/7" d = false
  /\ TrendChart.available "all" d = true
  /\ (forall t,
        CostRatingChart.not_limited
          {| CostRatingChart.selectedType := t; CostRatingChart.selectedAvailability := "limited" |}
          (CostRatingChart.mapped d) = false)
  /\ (forall t,
        CostRatingChart.kept
          {| CostRatingChart.selectedType := t; CostRatingChart.selectedAvailability := "limited" |}
          (CostRatingChart.mapped d)
        = CostRatingChart.kept
            {| CostRatingChart.selectedType := t; CostRatingChart.selectedAvailability := "all" |}
            (CostRatingChart.mapped d))
  /\ (forall t,
        CostRatingChart.kept
          {| CostRatingChart.selectedType := t; CostRatingChart.selectedAvailability := "24h" |}
          (CostRatingChart.mapped d) = false).
Proof.
  intros NT NF.
  assert (T : (get d "Is24Hours" === "True") = false).
  { destruct (get d "Is24Hours") as [s|]; simpl; [|reflexivity].
    apply String.eqb_neq. congruence. }
  assert (F : (get d "Is24Hours" === "False") = false).
  { destruct (get d "Is24Hours") as [s|]; simpl; [|reflexivity].
    apply String.eqb_neq. congruence. }
  unfold TrendChart.available, CostRatingChart.kept, CostRatingChart.not_limited,
    CostRatingChart.not_24h, CostRatingChart.wrong_type, CostRatingChart.unusable,
    CostRatingChart.mapped; simpl.
  rewrite T, F. simpl.
  repeat split; intros;
    repeat match goal with |- context [if ?b then _ else _] => destruct b end;
    reflexivity.
Qed.

Lemma availability_of_other_flags_witness :
  get Examples.unflagged "Is24Hours" <> Some "True"
  /\ get Examples.unflagged "Is24Hours" <> Some "False"
  /\ TrendChart.available "limited" Examples.unflagged = false
  /\ @CostRatingChart.kept
       {| CostRatingChart.selectedType := "all"; CostRatingChart.selectedAvailability := "limited" |}
       (@CostRatingChart.mapped example_host Examples.unflagged) = true.
Proof.
  assert (NT : get Examples.unflagged "Is24Hours" <> Some "True") by (simpl; discriminate).
  assert (NF : get Examples.unflagged "Is24Hours" <> Some "False") by (simpl; discriminate).
  pose proof (@availability_of_other_flags example_host Examples.unflagged NT NF) as P.
  destruct P as (L & _ & _ & _ & K & _).
  split; [exact NT|]. split; [exact NF|]. split; [exact L|].
  rewrite K. vm_compute. reflexivity.
Defined.

(** ** Cost ranges *)

(** C10, at a station with no cost on record: its cost is NaN, the validity
    check of the usage chart lets it through, and each of the three cost
    ranges keeps it. *)
Theorem cost_ranges_share_unpriced_stations :
  let choose c :=
    {| TypeUsageChart.selectedType := "all"; TypeUsageChart.selectedPower := "all";
       TypeUsageChart.selectedCost := c; TypeUsageChart.selectedRenewable := "all";
       TypeUsageChart.selectedRange := "all" |} in
  let d := @TypeUsageChart.mapped example_host Examples.unpriced in
  PrimFloat.is_nan (TypeUsageChart.cost d) = true
  /\ TypeUsageChart.unusable d = false
  /\ @TypeUsageChart.processData example_host (choose "low") [Examples.unpriced] = [d]
  /\ @TypeUsageChart.processData example_host (choose "medium") [Examples.unpriced] = [d]
  /\ @TypeUsageChart.processData example_host (choose "high") [Examples.unpriced] = [d].
Proof.
  vm_compute. repeat split; reflexivity.
Qed.

(** ** Colours *)

Lemma own_colors_other (s : string) :
  s <> "L1" -> s <> "L2" -> s <> "DC" -> own Map.colors s = None.
Proof.
  intros N1 N2 N3. unfold Map.colors; simpl.
  destruct (String.eqb_spec "L1" s); [congruence|].
  destruct (String.eqb_spec "L2" s); [congruence|].
  destruct (String.eqb_spec "DC" s); [congruence|].
  reflexivity.
Qed.

Lemma listed_color_charger_type (name v : string) :
  listed_color (charger_type_scale name) v
  = if ("L1" =? v)%string then Some "#91bad6"
    else if ("L2" =? v)%string then Some "#528AAE"
    else if ("DC" =? v)%string then Some "#1E3f66"
    else None.
Proof.
  unfold listed_color, charger_type_scale; simpl.
  destruct ("L1" =? v)%string; [reflexivity|].
  destruct ("L2" =? v)%string; [reflexivity|].
  destruct ("DC" =? v)%string; reflexivity.
Qed.

(** C5, as the script has it.  The marker colour is ['#FF6B6B'] for ['L1'],
    ['#4ECDC4'] for ['L2'], ['#45B7D1'] for ['DC'], and the default ['#999']
    for every other value that is not the name of a member objects inherit.
    Every colour encoding by charger type of the four Vega-Lite charts lists a
    colour for ['L1'], ['L2'] and ['DC'] and for no other value: the script
    gives these charts no default colour. *)
Theorem marker_and_chart_colors (d : Row) (a : loc) (c : color_encoding) (v : string) :
  (get d "Charger Type" = Some "L1" -> Map.color d = VString "#FF6B6B")
  /\ (get d "Charger Type" = Some "L2" -> Map.color d = VString "#4ECDC4")
  /\ (get d "Charger Type" = Some "DC" -> Map.color d = VString "#45B7D1")
  /\ (get d "Charger Type" <> Some "L1" ->
      get d "Charger Type" <> Some "L2" ->
      get d "Charger Type" <> Some "DC" ->
      includes Object_prototype (ToString (get d "Charger Type")) = false ->
      Map.color d = VString "#999")
  /\ (In c (colors_of (TypeUsageChart.spec a) ++ colors_of (CostRatingChart.spec a)
            ++ colors_of (BoxplotComparison.spec a)
            ++ List.filter is_charger_type_field (colors_of (OperatorAnalysis.spec a))) ->
      listed_color c "L1" = Some "#91bad6"
      /\ listed_color c "L2" = Some "#528AAE"
      /\ listed_color c "DC" = Some "#1E3f66"
      /\ (v <> "L1" -> v <> "L2" -> v <> "DC" -> listed_color c v = None)).
Proof.
  split; [|split; [|split; [|split]]].
  - intros E. unfold Map.color. rewrite E. reflexivity.
  - intros E. unfold Map.color. rewrite E. reflexivity.
  - intros E. unfold Map.color. rewrite E. reflexivity.
  - intros N1 N2 N3 I. unfold Map.color, member.
    rewrite I.
    rewrite own_colors_other; [reflexivity| | |];
      destruct (get d "Charger Type"); simpl; congruence.
  - simpl. intros [E|[E|[E|[E|[]]]]]; subst c;
      (split; [reflexivity|split; [reflexivity|split; [reflexivity|]]]);
      intros N1 N2 N3; rewrite listed_color_charger_type;
      (destruct (String.eqb_spec "L1" v); [congruence|]);
      (destruct (String.eqb_spec "L2" v); [congruence|]);
      (destruct (String.eqb_spec "DC" v); [congruence|]); reflexivity.
Qed.

Lemma marker_and_chart_colors_witness :
  get Examples.tesla "Charger Type" <> Some "L1"
  /\ get Examples.tesla "Charger Type" <> Some "L2"
  /\ get Examples.tesla "Charger Type" <> Some "DC"
  /\ includes Object_prototype (ToString (get Examples.tesla "Charger Type")) = false
  /\ Map.color Examples.tesla = VString "#999".
Proof.
  assert (N1 : get Examples.tesla "Charger Type" <> Some "L1") by (simpl; discriminate).
  assert (N2 : get Examples.tesla "Charger Type" <> Some "L2") by (simpl; discriminate).
  assert (N3 : get Examples.tesla "Charger Type" <> Some "DC") by (simpl; discriminate).
  assert (I : includes Object_prototype (ToString (get Examples.tesla "Charger Type")) = false)
    by reflexivity.
  split; [exact N1|]. split; [exact N2|]. split; [exact N3|]. split; [exact I|].
  exact (proj1 (proj2 (proj2 (proj2
           (marker_and_chart_colors Examples.tesla 0 (charger_type_scale "type") "Tesla"))))
           N1 N2 N3 I).
Defined.

(** C5 fails as stated: a charger type that names an inherited member gets
    that member as its marker colour, not ['#999'], and the colour scale of
    the Vega-Lite charts lists no colour for a type outside its domain. *)
Lemma colors_counterexample :
  Map.color Examples.odd_type = VInherited "constructor"
  /\ listed_color (charger_type_scale "charger_type") "Tesla" = None
  /\ colors_of (TypeUsageChart.spec 0) = [ charger_type_scale "charger_type" ].
Proof.
  repeat split; reflexivity.
Qed.

(** ** Numbers the charts aggregate *)

(** C4, at a station whose maintenance frequency is ['constructor']: the
    score table has no such entry of its own but inherits a member of that
    name, so the transform returns that member and not a number, while an
    unlisted frequency such as ['Weekly'] scores 0; the [isNaN] filter then
    drops the first station and keeps the second. *)
Theorem maintenance_score_of_inherited_names :
  BoxplotComparison.maintenance_score (Some "constructor") = VInherited "constructor"
  /\ BoxplotComparison.maintenance_score (Some "Weekly") = VNumber 0%float
  /\ map BoxplotComparison.value
       (@BoxplotComparison.processData example_host BoxplotComparison.maintenance
          [ Examples.weekly; Examples.odd_frequency ])
     = [ VNumber 0%float ].
Proof.
  repeat split; reflexivity.
Qed.

(** ** Running the page *)

#[local] Arguments pretty : simpl never.
#[local] Arguments substring : simpl never.
#[local] Arguments String.append : simpl never.
#[local] Arguments String.concat : simpl never.

(** Runs the statements at the head of the goal. *)
Ltac run :=
  unfold mbind, M_bind, mret, M_ret, try_catch, throw, await, then_, console_log,
    console_error, fetch, alloc, read_table, getElementById, appendChild, set_innerHTML,
    set_style, create_select, addEventListener, Object_keys_of, toFixed;
  cbn beta iota zeta delta
    [heap document selects listeners console network vega_ids set_heap set_document
     set_selects set_listeners set_console set_network set_vega fst snd].

Lemma bind_eq {A B : Type} (m : M A) (k : A -> M B) (w : world) :
  (m ≫= k) w
  = match m w with
    | (Returned a, w') => k a w'
    | (Thrown e, w') => (Thrown e, w')
    end.
Proof. reflexivity. Qed.

Lemma alloc_all_spec (os : list object) (w : world) :
  alloc_all os w = (Returned (seq (length (heap w)) (length os)), set_heap w (heap w ++ os)).
Proof.
  revert w. induction os as [|o os IH]; intros w.
  - simpl. unfold mret, M_ret. rewrite app_nil_r. destruct w; reflexivity.
  - simpl. rewrite bind_eq. unfold alloc at 1. rewrite bind_eq, IH. simpl.
    rewrite length_app. simpl. rewrite Nat.add_1_r.
    unfold mret, M_ret, set_heap; simpl. rewrite <- app_assoc. reflexivity.
Qed.

(** A new array: its objects are appended to the heap, then the array itself. *)
Lemma new_array_spec (os : list object) (w : world) :
  new_array os w
  = (Returned (length (heap w) + length os),
     set_heap w (heap w ++ os ++ [Array (seq (length (heap w)) (length os))])).
Proof.
  unfold new_array. rewrite bind_eq, alloc_all_spec. unfold alloc, set_heap; simpl.
  rewrite length_app, <- app_assoc. reflexivity.
Qed.

Lemma records_of_new_array (h : list object) (rows : list Row) (tl : list object) :
  map (record_at (h ++ map (fun d => Parsed d None) rows ++ tl)) (seq (length h) (length rows))
  = rows.
Proof.
  revert h. induction rows as [|r rows IH]; intros h; simpl; [reflexivity|].
  f_equal.
  - unfold record_at. rewrite list_lookup_middle by reflexivity. reflexivity.
  - specialize (IH (h ++ [Parsed r None])).
    rewrite length_app in IH. simpl in IH. rewrite Nat.add_1_r in IH.
    rewrite <- app_assoc in IH. simpl in IH. exact IH.
Qed.

(** The table read back from a freshly loaded array is the list of parsed records. *)
Lemma table_loaded (h : list object) (rows : list Row) :
  table (h ++ map (fun d => Parsed d None) rows ++ [Array (seq (length h) (length rows))])
    (length h + length rows)
  = rows.
Proof.
  unfold table, elements_at.
  rewrite app_assoc.
  rewrite list_lookup_middle by (rewrite length_app, length_map; reflexivity).
  rewrite <- app_assoc. apply records_of_new_array.
Qed.

Lemma table_of_new_array (h : list object) (rows : list Row) :
  let os := map (fun d => Parsed d None) rows in
  table (h ++ os ++ [Array (seq (length h) (length os))]) (length h + length os) = rows.
Proof.
  cbv zeta. rewrite length_map. apply table_loaded.
Qed.

Lemma includes_In (l : list string) (s : string) : includes l s = true <-> In s l.
Proof.
  unfold includes. rewrite existsb_exists. split.
  - intros (x & I & E). apply String.eqb_eq in E. now subst.
  - intros I. exists s. split; [exact I|apply String.eqb_refl].
Qed.

Lemma some_pass {A : Type} (p : A -> bool) (l : list A) :
  (0 <? length (List.filter p l))%nat = true <-> exists x, In x l /\ p x = true.
Proof.
  rewrite Nat.ltb_lt. split.
  - intros L. destruct (List.filter p l) as [|x xs] eqn:E; [simpl in L; lia|].
    exists x. apply filter_In. rewrite E. now left.
  - intros (x & I & P).
    assert (In x (List.filter p l)) as I' by (apply filter_In; auto).
    destruct (List.filter p l); [destruct I'|simpl; lia].
Qed.

Lemma missing_field (d : Row) :
  (0 <? length (List.filter (fun field => negb (includes (Object_keys d) field)) requiredFields))%nat
  = true
  <-> exists f, In f requiredFields /\ ~ In f (Object_keys d).
Proof.
  rewrite some_pass. split; intros (f & I & N); exists f; (split; [exact I|]).
  - intros I'. apply includes_In in I'. rewrite I' in N. discriminate.
  - destruct (includes (Object_keys d) f) eqn:E; [|reflexivity].
    apply includes_In in E. contradiction.
Qed.

(** ** [loadData] *)

(** C1, as the script has it.  [loadData] throws exactly when the request is
    rejected, or the response is not ok, or its body cannot be read, or the
    parsed table has no record, or one of the three required columns is not
    among the keys of the first record.  When it returns, the array it returns
    holds the whole parsed table, unchanged; the records that fail the check
    of cost and usage are not removed, and the first two of them are the last
    thing logged. *)
Theorem loadData_throws_or_returns_the_table `{Host} (w : world) :
  let answer := fetch_settles (length (network w)) csv_url in
  ((exists e, (loadData w).1 = Thrown e)
   <-> (exists e, answer = Rejected e)
       \/ (exists r, answer = Fulfilled r /\ ok r = false)
       \/ (exists r e, answer = Fulfilled r /\ ok r = true /\ text r = Rejected e)
       \/ (exists r t,
             answer = Fulfilled r /\ ok r = true /\ text r = Fulfilled t /\ csvParse t = [])
       \/ (exists r t d ds f,
             answer = Fulfilled r /\ ok r = true /\ text r = Fulfilled t
             /\ csvParse t = d :: ds /\ In f requiredFields /\ ~ In f (Object_keys d)))
  /\ (forall data,
        (loadData w).1 = Returned data ->
        exists r t,
          answer = Fulfilled r /\ text r = Fulfilled t
          /\ table (heap (loadData w).2) data = csvParse t
          /\ (List.filter invalid (csvParse t) <> [] ->
              last (console (loadData w).2)
              = Some (log "Found invalid data points:"
                        [some_rows (slice_0_2 (List.filter invalid (csvParse t)))]))).
Proof.
  intros answer. subst answer.
  unfold loadData. run.
  destruct (fetch_settles (length (network w)) csv_url) as [r|e0].
  2:{ split.
      - split; [intros _; left; eauto|intros _; eauto].
      - intros data E. discriminate. }
  destruct (ok r) eqn:Ok; cbn [negb]; run.
  2:{ split.
      - split; [intros _; right; left; eauto|intros _; eauto].
      - intros data E. discriminate. }
  destruct (text r) as [t|e0] eqn:T; run.
  2:{ split.
      - split; [intros _; right; right; left; eauto|intros _; eauto].
      - intros data E. discriminate. }
  rewrite new_array_spec. run.
  destruct (csvParse t) as [|d ds] eqn:P; cbn [head]; run.
  { split.
    - split; [intros _; right; right; right; left; exists r, t; auto 10|intros _; eauto].
    - intros data E. discriminate. }
  destruct (0 <? length (List.filter (fun field => negb (includes (Object_keys d) field))
                           requiredFields))%nat eqn:Missing; run.
  { apply missing_field in Missing. destruct Missing as (f & I & N).
    split.
    - split; [intros _|intros _; eauto].
      right; right; right; right. exists r, t, d, ds, f. auto 10.
    - intros data E. discriminate. }
  assert (NoMissing : ~ exists f, In f requiredFields /\ ~ In f (Object_keys d)).
  { intros Ex. apply missing_field in Ex. congruence. }
  destruct (0 <? length (List.filter invalid (d :: ds)))%nat eqn:Inv; run.
  - split.
    + split.
      * intros (e & E). discriminate.
      * intros [(e & E)|[(r' & E & O)|[(r' & e & E & O & T')|[(r' & t' & E & O & T' & P')
                |(r' & t' & d' & ds' & f & E & O & T' & P' & I & N)]]]];
          try discriminate; injection E as <-; try congruence.
        rewrite T in T'. injection T' as <-. rewrite P in P'. injection P' as <- <-.
        exfalso. apply NoMissing. eauto.
    + intros data E. injection E as <-. exists r, t.
      split; [reflexivity|]. split; [exact T|]. split.
      * rewrite P. exact (table_of_new_array (heap w) (d :: ds)).
      * intros _. rewrite P. rewrite last_snoc. reflexivity.
  - split.
    + split.
      * intros (e & E). discriminate.
      * intros [(e & E)|[(r' & E & O)|[(r' & e & E & O & T')|[(r' & t' & E & O & T' & P')
                |(r' & t' & d' & ds' & f & E & O & T' & P' & I & N)]]]];
          try discriminate; injection E as <-; try congruence.
        rewrite T in T'. injection T' as <-. rewrite P in P'. injection P' as <- <-.
        exfalso. apply NoMissing. eauto.
    + intros data E. injection E as <-. exists r, t.
      split; [reflexivity|]. split; [exact T|]. split.
      * rewrite P. exact (table_of_new_array (heap w) (d :: ds)).
      * intros NE. exfalso. rewrite P in NE.
        apply Nat.ltb_ge in Inv. destruct (List.filter invalid (d :: ds)); [congruence|].
        simpl in Inv. lia.
Qed.

Lemma loadData_witness :
  exists r t,
    @fetch_settles example_host 0 csv_url = Fulfilled r /\ text r = Fulfilled t
    /\ table (heap (@loadData example_host (Examples.page [])).2) 3
       = Examples.csvParse t.
Proof.
  destruct (proj2 (@loadData_throws_or_returns_the_table example_host (Examples.page [])) 3
              eq_refl) as (r & t & A & T & L & _).
  exists r, t. split; [exact A|]. split; [exact T|exact L].
Defined.

(** C1 fails as stated.  Served a CSV that has the three required columns and
    no record, [loadData] throws although the response is ok and no column is
    missing: the table has no first record to read keys from.  It also throws
    when the request is rejected and there is no response at all. *)
Lemma loadData_counterexample :
  let served := serving (Examples.found Examples.header_only)
                  (Examples.found Examples.heatmap_json) in
  let offline := serving (Rejected (TypeError "Failed to fetch"))
                   (Rejected (TypeError "Failed to fetch")) in
  Examples.csvParse Examples.header_only = []
  /\ forallb (includes (Examples.split (ascii_of_nat 44)
                          "Cost (USD/kWh),Usage Stats (avg users/day),Is24Hours"))
       requiredFields = true
  /\ (@loadData served (Examples.page [])).1
     = Thrown (TypeError "Cannot convert undefined or null to object")
  /\ (@loadData offline (Examples.page [])).1 = Thrown (TypeError "Failed to fetch").
Proof.
  vm_compute. repeat split; reflexivity.
Qed.

(** ** Statistics of an empty selection *)

Lemma aggregates_in_show (id : string) (spec : vega_spec) (n : node) :
  aggregates_in (show id spec n) = aggregates_in n.
Proof.
  destruct n as [| | | | |id0 v| |]; simpl; try reflexivity.
  destruct (id0 =? id)%string; reflexivity.
Qed.

Lemma children_insert (w : world) (d : gmap string (list node)) (id id' : string)
  (ns : list node) :
  children (set_document w (<[id := ns]> d)) id'
  = if decide (id = id') then ns else default [] (d !! id').
Proof.
  unfold children; cbn [document set_document].
  rewrite lookup_insert. destruct (decide (id = id')); reflexivity.
Qed.

Lemma shown_insert (w : world) (d : gmap string (list node)) (id id' : string)
  (ns : list node) :
  shown (set_document w (<[id := ns]> d)) id'
  = if decide (id = id') then flat_map aggregates_in ns
    else flat_map aggregates_in (default [] (d !! id')).
Proof.
  unfold shown. rewrite children_insert. destruct (decide (id = id')); reflexivity.
Qed.

(** Embedding a chart shows no aggregate that was not shown before. *)
Lemma vegaEmbed_shown `{Host} (id : string) (spec : vega_spec) (w : world) (id' : string)
  (x : number) :
  In x (shown (vegaEmbed id spec w).2 id') -> In x (shown w id').
Proof.
  unfold vegaEmbed.
  destruct (bool_decide (is_Some (document w !! id)) || has_chartContainer id (document w));
    [|auto].
  destruct (vegaEmbed_rejects id); [auto|].
  destruct (ingest_all (data_values (heap w) spec) (heap w, vega_ids w)) as [h n].
  cbn [snd].
  destruct (document w !! id) eqn:D.
  - rewrite shown_insert. destruct (decide (id = id')); [intros []|].
    cbn [document set_vega]. auto.
  - unfold shown, children; cbn [document set_document set_vega].
    rewrite lookup_fmap. destruct (document w !! id') as [ns|]; cbn; [|auto].
    intros I. apply in_flat_map in I. destruct I as (n' & I & A).
    apply in_map_iff in I. destruct I as (n0 & <- & I).
    rewrite aggregates_in_show in A. apply in_flat_map. eauto.
Qed.

(** Appending a node that shows no aggregate shows no new aggregate. *)
Lemma shown_append (w w0 : world) (container id : string) (n : node) (x : number) :
  aggregates_in n = [] ->
  document w0 = document w ->
  In x (shown (set_document w0 (<[container := children w0 container ++ [n]]> (document w))) id) ->
  In x (shown w id).
Proof.
  intros A D. rewrite shown_insert. unfold shown, children. rewrite D.
  destruct (decide (container = id)) as [->|]; [|auto].
  rewrite flat_map_app. simpl. rewrite A, !app_nil_r. auto.
Qed.

(** C3. When the filtered set is empty: the cost-and-rating chart's
    [updateChart] returns with its container holding the message and nothing
    else (no mean, no correlation), the other containers untouched; the usage
    chart's [updateChart] and the boxplot's show no aggregate that was not
    shown already, so none that is NaN. *)
Theorem empty_selection_shows_no_aggregate `{Host} (container : string) (data : loc)
  (w : world) :
  (CostRatingChart.processData (CostRatingChart.chosen (selects w)) (table (heap w) data) = [] ->
   let r := CostRatingChart.updateChart (Some container) data w in
   r.1 = Returned tt
   /\ children r.2 container = [p_error "No data available for selected filters"]
   /\ shown r.2 container = []
   /\ (forall id, id <> container -> children r.2 id = children w id))
  /\ (TypeUsageChart.processData (TypeUsageChart.chosen (selects w)) (table (heap w) data) = [] ->
      let r := TypeUsageChart.updateChart (Some container) data w in
      r.1 = Returned tt /\ (forall id x, In x (shown r.2 id) -> In x (shown w id)))
  /\ (forall selectedFeature f,
        List.find (fun f => BoxplotComparison.feature_value f === selectedFeature)
          BoxplotComparison.features = Some f ->
        BoxplotComparison.processData f (table (heap w) data) = [] ->
        let r := BoxplotComparison.updateChart (Some container) data selectedFeature w in
        r.1 = Returned tt /\ (forall id x, In x (shown r.2 id) -> In x (shown w id))).
Proof.
  split; [|split].
  - intros E r. subst r.
    unfold CostRatingChart.updateChart, CostRatingChart.read_filters. run.
    rewrite E. cbn [map length Nat.eqb]. rewrite new_array_spec. run.
    split; [reflexivity|]. split; [|split].
    + rewrite children_insert. destruct (decide (container = container)); congruence.
    + rewrite shown_insert. destruct (decide (container = container)); [reflexivity|congruence].
    + intros id N. rewrite children_insert.
      destruct (decide (container = id)); [congruence|reflexivity].
  - intros E r. subst r.
    unfold TypeUsageChart.updateChart, TypeUsageChart.read_filters,
      TypeUsageChart.show_stats. run.
    rewrite E. cbn [map length Nat.ltb Nat.leb]. rewrite new_array_spec. run.
    match goal with
    | |- context [vegaEmbed ?i ?s ?w1] =>
        pose proof (vegaEmbed_shown i s w1) as V; destruct (vegaEmbed i s w1) as [[[]|e] w2]
    end; cbn [fst snd] in *.
    + split; [reflexivity|]. intros id x I. apply V in I.
      match type of I with
      | In _ (shown (set_document ?w0 (<[_ := _ ++ [?n]]> _)) _) =>
          exact (shown_append w w0 container id n x eq_refl eq_refl I)
      end.
    + split; [reflexivity|]. intros id x I.
      change (In x (shown w2 id)) in I. apply V in I.
      match type of I with
      | In _ (shown (set_document ?w0 (<[_ := _ ++ [?n]]> _)) _) =>
          exact (shown_append w w0 container id n x eq_refl eq_refl I)
      end.
  - intros selectedFeature f F E r. subst r.
    unfold BoxplotComparison.updateChart, BoxplotComparison.show_stats. run.
    rewrite F, E. cbn [map length]. rewrite new_array_spec. run.
    match goal with
    | |- context [vegaEmbed ?i ?s ?w1] =>
        pose proof (vegaEmbed_shown i s w1) as V; destruct (vegaEmbed i s w1) as [[[]|e] w2]
    end; cbn [fst snd] in *.
    + change (BoxplotComparison.stats []) with (mret (M := M) (@nil stats_line)). run.
      split; [reflexivity|]. intros id x I.
      assert (In x (shown w2 id)) as I'.
      { rewrite shown_insert in I. unfold shown.
        destruct (decide (container = id)) as [->|]; [|exact I].
        rewrite flat_map_app in I. simpl in I. rewrite app_nil_r in I. exact I. }
      apply V in I'. clear V I.
      rewrite shown_insert, !children_insert in I'.
      destruct (decide (container = container)); [|congruence].
      destruct (decide (container = id)) as [->|]; [destruct I'|].
      rewrite lookup_insert_ne, lookup_insert_ne in I' by assumption. exact I'.
    + split; [reflexivity|]. intros id x I.
      change (In x (shown w2 id)) in I. apply V in I. clear V.
      rewrite shown_insert, !children_insert in I.
      destruct (decide (container = container)); [|congruence].
      destruct (decide (container = id)) as [->|]; [destruct I|].
      rewrite lookup_insert_ne, lookup_insert_ne in I by assumption. exact I.
Qed.

Lemma empty_selection_witness :
  let w :=
    set_selects loaded_page
      (<["cost-rating-viz/typeFilter" := "L1"]>
         (<["cost-rating-viz/availabilityFilter" := "limited"]> (selects loaded_page))) in
  @CostRatingChart.processData example_host (CostRatingChart.chosen (selects w))
    (table (heap w) 3) = []
  /\ children (@CostRatingChart.updateChart example_host (Some "cost-rating-viz") 3 w).2
       "cost-rating-viz"
     = [p_error "No data available for selected filters"].
Proof.
  cbv zeta.
  match goal with
  | |- ?E /\ _ => assert (Empty : E) by (vm_compute; reflexivity)
  end.
  split; [exact Empty|].
  exact (proj1 (proj2 (proj1 (@empty_selection_shows_no_aggregate example_host
                                "cost-rating-viz" 3 _) Empty))).
Defined.

(** ** Composing what statements leave unchanged *)

Section Changes.

Variable R : world -> world -> Prop.
Context `{!PreOrder R}.
Hypothesis R_console : forall w c, R w (set_console w c).

Lemma changes_ret {A : Type} (a : A) : changes R (mret a).
Proof. intros w. reflexivity. Qed.

Lemma changes_throw {A : Type} (e : error) : changes R (@throw A e).
Proof. intros w. reflexivity. Qed.

Lemma changes_bind {A B : Type} (m : M A) (k : A -> M B) :
  changes R m -> (forall a, changes R (k a)) -> changes R (m ≫= k).
Proof.
  intros Hm Hk w. rewrite bind_eq. specialize (Hm w).
  destruct (m w) as [[a|e] w1]; cbn [snd] in *; [|exact Hm].
  etransitivity; [exact Hm|apply Hk].
Qed.

Lemma changes_try_catch {A : Type} (body : M A) (handler : error -> M A) :
  changes R body -> (forall e, changes R (handler e)) -> changes R (try_catch body handler).
Proof.
  intros Hb Hh w. unfold try_catch. specialize (Hb w).
  destruct (body w) as [[a|e] w1]; cbn [snd] in *; [exact Hb|].
  etransitivity; [exact Hb|apply Hh].
Qed.

Lemma changes_then {A : Type} (p : M A) (callback : A -> M unit) :
  changes R p -> (forall a, changes R (callback a)) -> changes R (then_ p callback).
Proof.
  intros Hp Hc w. unfold then_. specialize (Hp w).
  destruct (p w) as [[a|e] w1]; cbn [snd] in *.
  - specialize (Hc a w1). destruct (callback a w1) as [[u|e] w2]; cbn [snd] in *.
    + etransitivity; eassumption.
    + etransitivity; [exact Hp|]. etransitivity; [exact Hc|apply R_console].
  - etransitivity; [exact Hp|apply R_console].
Qed.

Lemma changes_mapM {A B : Type} (f : A -> M B) (xs : list A) :
  (forall x, changes R (f x)) -> changes R (mapM f xs).
Proof.
  intros Hf. induction xs as [|x xs IH]; simpl.
  - apply changes_ret.
  - apply changes_bind; [apply Hf|]. intros y.
    apply changes_bind; [exact IH|]. intros ys. apply changes_ret.
Qed.

Lemma changes_await {A : Type} (p : settled A) : changes R (await p).
Proof. destruct p; [apply changes_ret|apply changes_throw]. Qed.

Lemma changes_toFixed (x : option number) : changes R (toFixed x).
Proof. destruct x; [apply changes_ret|apply changes_throw]. Qed.

Lemma changes_Object_keys_of (d : option Row) : changes R (Object_keys_of d).
Proof. destruct d; [apply changes_ret|apply changes_throw]. Qed.

Lemma changes_console_log (m : string) (args : list logged) : changes R (console_log m args).
Proof. intros w. apply R_console. Qed.

Lemma changes_console_error (m : string) (e : error) : changes R (console_error m e).
Proof. intros w. apply R_console. Qed.

End Changes.

(** One step of a proof that a program changes the page within [R]; [side]
    proves that [R] holds when only the console changes. *)
Ltac changes_step side :=
  lazymatch goal with
  | |- changes _ (mbind _ _) => apply changes_bind; [| |intros ?]; [solve [side]| |]
  | |- changes _ (try_catch _ _) => apply changes_try_catch; [| |intros ?]; [solve [side]| |]
  | |- changes _ (then_ _ _) =>
      apply changes_then; [| | |intros ?]; [solve [side]|solve [side]| |]
  | |- changes _ (mret _) => apply changes_ret; solve [side]
  | |- changes _ (throw _) => apply changes_throw; solve [side]
  | |- changes _ (mapM _ _) => apply changes_mapM; [|intros ?]; [solve [side]|]
  | |- changes _ (await _) => apply changes_await; solve [side]
  | |- changes _ (toFixed _) => apply changes_toFixed; solve [side]
  | |- changes _ (Object_keys_of _) => apply changes_Object_keys_of; solve [side]
  | |- changes _ (console_log _ _) => apply changes_console_log; solve [side]
  | |- changes _ (console_error _ _) => apply changes_console_error; solve [side]
  | |- changes _ (match ?x with _ => _ end) => destruct x
  | |- changes _ (let _ := _ in _) => cbv zeta
  end.

(** ** Requests for the CSV *)

Section NoCsvRequest.

Context `{Host}.

#[local] Instance no_csv_request_preorder : PreOrder no_csv_request.
Proof.
  split.
  - intros w. reflexivity.
  - intros a b c E1 E2. unfold no_csv_request in *. congruence.
Qed.

Lemma no_csv_request_console (w : world) (c : list entry) :
  no_csv_request w (set_console w c).
Proof. reflexivity. Qed.

(** A statement that leaves the list of requests alone. *)
Ltac offline := intros w; unfold no_csv_request, csv_requests; f_equal; f_equal.

Lemma no_csv_request_new_array (os : list object) : changes no_csv_request (new_array os).
Proof. intros w. rewrite new_array_spec. reflexivity. Qed.

Lemma no_csv_request_read_table (data : loc) : changes no_csv_request (read_table data).
Proof. intros w. reflexivity. Qed.

Lemma no_csv_request_getElementById (id : string) : changes no_csv_request (getElementById id).
Proof. intros w. reflexivity. Qed.

Lemma no_csv_request_appendChild (el : element) (n : node) :
  changes no_csv_request (appendChild el n).
Proof. intros w. destruct el; reflexivity. Qed.

Lemma no_csv_request_set_innerHTML (el : element) (ns : list node) :
  changes no_csv_request (set_innerHTML el ns).
Proof. intros w. destruct el; reflexivity. Qed.

Lemma no_csv_request_set_style (el : element) : changes no_csv_request (set_style el).
Proof. intros w. destruct el; reflexivity. Qed.

Lemma no_csv_request_create_select (name : string) (options : list string) :
  changes no_csv_request (create_select name options).
Proof. intros w. reflexivity. Qed.

Lemma no_csv_request_addEventListener (name : string) (c : chart) (data : loc) :
  changes no_csv_request (addEventListener name c data).
Proof. intros w. reflexivity. Qed.

Lemma no_csv_request_vegaEmbed (id : string) (spec : vega_spec) :
  changes no_csv_request (vegaEmbed id spec).
Proof.
  intros w. unfold vegaEmbed.
  destruct (bool_decide (is_Some (document w !! id)) || has_chartContainer id (document w));
    [|reflexivity].
  destruct (vegaEmbed_rejects id); [reflexivity|].
  destruct (ingest_all (data_values (heap w) spec) (heap w, vega_ids w)). reflexivity.
Qed.

Lemma no_csv_request_L_map (id : string) : changes no_csv_request (Map.L_map id).
Proof. intros w. unfold Map.L_map. destruct (document w !! id); reflexivity. Qed.

Lemma no_csv_request_fetch_heatmap : changes no_csv_request (fetch "heatmap_spec.json").
Proof.
  intros w. unfold fetch.
  assert (no_csv_request w (set_network w (network w ++ ["heatmap_spec.json"]))) as E.
  { unfold no_csv_request, csv_requests; cbn [network set_network].
    rewrite List.filter_app, length_app. simpl. lia. }
  destruct (fetch_settles (length (network w)) "heatmap_spec.json"); exact E.
Qed.

Lemma no_csv_request_read_usage_filters : changes no_csv_request TypeUsageChart.read_filters.
Proof. intros w. reflexivity. Qed.

Lemma no_csv_request_read_cost_filters : changes no_csv_request CostRatingChart.read_filters.
Proof. intros w. reflexivity. Qed.

Create HintDb offline.

#[local] Hint Resolve no_csv_request_console no_csv_request_new_array no_csv_request_read_table
  no_csv_request_getElementById no_csv_request_appendChild no_csv_request_set_innerHTML
  no_csv_request_set_style no_csv_request_create_select no_csv_request_addEventListener
  no_csv_request_vegaEmbed no_csv_request_L_map no_csv_request_fetch_heatmap
  no_csv_request_read_usage_filters no_csv_request_read_cost_filters : offline.

(** Decomposes a program into its statements and closes each with the lemmas above. *)
Ltac no_request :=
  repeat first
    [ solve [auto with offline]
    | changes_step ltac:(first [exact no_csv_request_preorder | exact no_csv_request_console]) ].

Lemma createMap_no_csv_request (data : loc) : changes no_csv_request (createMap data).
Proof. unfold createMap, Map.circleMarker. no_request. Qed.

Lemma createHeatmap_no_csv_request : changes no_csv_request createHeatmap.
Proof. unfold createHeatmap. no_request. Qed.

Lemma createTypeUsageChart_no_csv_request (data : loc) :
  changes no_csv_request (createTypeUsageChart data).
Proof.
  unfold createTypeUsageChart, TypeUsageChart.updateChart, TypeUsageChart.show_stats,
    TypeUsageChart.stats, TypeUsageChart.stat.
  no_request.
Qed.

Lemma createCostRatingChart_no_csv_request (data : loc) :
  changes no_csv_request (createCostRatingChart data).
Proof.
  unfold createCostRatingChart, CostRatingChart.updateChart, CostRatingChart.show_stats,
    CostRatingChart.stats, CostRatingChart.stat, CostRatingChart.reduce,
    CostRatingChart.d3_correlation.
  no_request.
Qed.

Lemma createBoxplotComparison_no_csv_request (data : loc) :
  changes no_csv_request (createBoxplotComparison data).
Proof.
  unfold createBoxplotComparison, BoxplotComparison.updateChart,
    BoxplotComparison.show_stats, BoxplotComparison.stats, BoxplotComparison.stat.
  no_request.
Qed.

Lemma createOperatorAnalysis_no_csv_request (data : loc) :
  changes no_csv_request (createOperatorAnalysis data).
Proof.
  unfold createOperatorAnalysis, OperatorAnalysis.show_stats, OperatorAnalysis.stats,
    OperatorAnalysis.stat.
  no_request.
Qed.

Lemma TrendChart_updateChart_no_csv_request (data : loc) (selectedAvailability : string) :
  changes no_csv_request (TrendChart.updateChart data selectedAvailability).
Proof.
  unfold TrendChart.updateChart. no_request.
  all: intros w;
    unfold TrendChart.array_filter, TrendChart.remove_svg, TrendChart.append_svg, alloc;
    try destruct (document w !! "trend-viz"); reflexivity.
Qed.

(** What [loadData] does to the page, however it ends: one request, for the
    CSV; new objects at most; nothing else but the console. *)
Lemma loadData_effect (w : world) :
  network (loadData w).2 = network w ++ [csv_url]
  /\ document (loadData w).2 = document w
  /\ selects (loadData w).2 = selects w
  /\ listeners (loadData w).2 = listeners w
  /\ vega_ids (loadData w).2 = vega_ids w
  /\ exists os, heap (loadData w).2 = heap w ++ os.
Proof.
  assert (N : exists os, heap w = heap w ++ os) by (exists []; now rewrite app_nil_r).
  unfold loadData. run.
  destruct (fetch_settles (length (network w)) csv_url) as [r|e0]; [|auto 10].
  destruct (ok r); cbn [negb]; run; [|auto 10].
  destruct (text r) as [t|e0]; run; [|auto 10].
  rewrite new_array_spec. run.
  destruct (csvParse t) as [|d ds]; cbn [head]; run; [eauto 10|].
  destruct (0 <? length (List.filter (fun field => negb (includes (Object_keys d) field))
                           requiredFields))%nat; run; [eauto 10|].
  destruct (0 <? length (List.filter invalid (d :: ds)))%nat; run; eauto 10.
Qed.

Lemma loadData_one_csv_request (w : world) :
  csv_requests (loadData w).2 = S (csv_requests w).
Proof.
  unfold csv_requests. rewrite (proj1 (loadData_effect w)).
  rewrite List.filter_app, length_app.
  change (List.filter (String.eqb csv_url) [csv_url]) with [csv_url]. simpl. lia.
Qed.

(** A program that starts with [loadData] and issues no other request for the CSV. *)
Lemma one_csv_request {A B : Type} (k : loc -> M A) (handler : error -> M A) (w : world) :
  (forall data, changes no_csv_request (k data)) ->
  (forall e, changes no_csv_request (handler e)) ->
  csv_requests (try_catch (loadData ≫= k) handler w).2 = S (csv_requests w).
Proof.
  intros Hk Hh. unfold try_catch. rewrite bind_eq.
  pose proof (loadData_one_csv_request w) as L.
  destruct (loadData w) as [[data|e] w1]; cbn [snd] in L.
  - pose proof (Hk data w1) as K. unfold no_csv_request in K.
    destruct (k data w1) as [[a|e] w2]; cbn [snd] in *; [congruence|].
    rewrite (Hh e w2). congruence.
  - rewrite (Hh e w1). exact L.
Qed.

Lemma loadTrendChart_one_csv_request (w : world) :
  csv_requests (loadTrendChart w).2 = S (csv_requests w).
Proof.
  unfold loadTrendChart. apply (one_csv_request (B := unit)).
  - intros data. pose proof (TrendChart_updateChart_no_csv_request data "all"). no_request.
  - intros e. no_request.
Qed.

(** [loadTrendChart] draws only once its table is loaded: when [loadData]
    throws, the document changes at most by the error message in the trend
    container. *)
Lemma loadTrendChart_after_loading (w : world) (e : error) :
  (loadData w).1 = Thrown e ->
  document (loadTrendChart w).2
  = match document w !! "trend-viz" with
    | Some _ =>
        <["trend-viz" := [p_error ("Error loading trend chart: " +:+ message e)]]> (document w)
    | None => document w
    end.
Proof.
  intros T. unfold loadTrendChart, try_catch. rewrite bind_eq.
  destruct (loadData_effect w) as (_ & D & _).
  destruct (loadData w) as [[d|e'] w1]; cbn [fst snd] in *; [discriminate|].
  injection T as ->. run. rewrite D.
  destruct (document w !! "trend-viz"); cbn [snd document set_document set_console];
    rewrite ?D; reflexivity.
Qed.

(** [initialize] runs no chart function before its table is loaded: when
    [loadData] throws, the document is as it was and the CSV request is the
    only request. *)
Lemma initialize_after_loading (w : world) (e : error) :
  (loadData w).1 = Thrown e ->
  document (initialize w).2 = document w /\ network (initialize w).2 = network w ++ [csv_url].
Proof.
  intros T. unfold initialize, try_catch. rewrite bind_eq.
  destruct (loadData_effect w) as (N & D & _).
  destruct (loadData w) as [[d|e'] w1]; cbn [fst snd] in *; [discriminate|].
  run. auto.
Qed.

(** Making the markers changes nothing, whether Leaflet takes them all or not. *)
Lemma circleMarkers_leave_the_page (rows : list Row) (w : world) :
  (mapM Map.circleMarker rows w).2 = w.
Proof.
  induction rows as [|d rows IH]; [reflexivity|].
  cbn [mapM]. rewrite bind_eq. unfold Map.circleMarker at 1. cbv zeta.
  destruct (_ || _); [reflexivity|].
  unfold mret at 1, M_ret. cbv beta iota. rewrite bind_eq.
  destruct (mapM Map.circleMarker rows w) as [[ms|e] w1]; cbn [snd] in IH; subst w1;
    reflexivity.
Qed.

(** [createMap] returns exactly when the page has its container: without it the
    handler itself throws. *)
Lemma createMap_outcome (data : loc) (w : world) :
  (createMap data w).1
  = match document w !! "map-viz" with
    | Some _ => Returned tt
    | None => Thrown (TypeError "Cannot set properties of null (setting 'innerHTML')")
    end.
Proof.
  unfold createMap, try_catch. rewrite bind_eq. unfold Map.L_map.
  destruct (document w !! "map-viz") as [ns|] eqn:E.
  - rewrite bind_eq. unfold read_table. rewrite bind_eq.
    pose proof (circleMarkers_leave_the_page (table (heap w) data) w) as P.
    destruct (mapM Map.circleMarker (table (heap w) data) w) as [[ms|e] w1];
      cbn [snd] in P; subst w1; run.
    + rewrite lookup_insert_eq. run. reflexivity.
    + rewrite E. reflexivity.
  - run. rewrite E. reflexivity.
Qed.

(** The requests of the ['load'] event, counted: [loadTrendChart] is reached,
    and issues the second, exactly when [loadData] and [createMap] return. *)
Lemma initialize_csv_requests_counted (w : world) :
  csv_requests (initialize w).2
  = match (loadData w).1, document w !! "map-viz" with
    | Returned _, Some _ => S (S (csv_requests w))
    | _, _ => S (csv_requests w)
    end.
Proof.
  unfold initialize, try_catch. rewrite bind_eq.
  pose proof (loadData_one_csv_request w) as L.
  destruct (loadData_effect w) as (_ & D & _).
  destruct (loadData w) as [[data|e] w1]; cbn [fst snd] in *.
  2:{ change (csv_requests (console_error "Error initializing visualizations:" e w1).2)
        with (csv_requests w1). exact L. }
  rewrite bind_eq.
  pose proof (createMap_no_csv_request data w1) as C. unfold no_csv_request in C.
  pose proof (createMap_outcome data w1) as O. rewrite D in O.
  destruct (createMap data w1) as [[[]|e] w2]; cbn [fst snd] in C, O.
  2:{ change (csv_requests (console_error "Error initializing visualizations:" e w2).2)
        with (csv_requests w2). destruct (document w !! "map-viz"); [discriminate|]. lia. }
  destruct (document w !! "map-viz"); [|discriminate].
  rewrite bind_eq.
  pose proof (loadTrendChart_one_csv_request w2) as T.
  destruct (loadTrendChart w2) as [[[]|e] w3]; cbn [snd] in T.
  2:{ change (csv_requests (console_error "Error initializing visualizations:" e w3).2)
        with (csv_requests w3). lia. }
  assert (changes no_csv_request
            (createHeatmap;; createCostRatingChart data;; createTypeUsageChart data;;
             createBoxplotComparison data;; createOperatorAnalysis data)) as Rest.
  { pose proof createHeatmap_no_csv_request.
    pose proof (createCostRatingChart_no_csv_request data).
    pose proof (createTypeUsageChart_no_csv_request data).
    pose proof (createBoxplotComparison_no_csv_request data).
    pose proof (createOperatorAnalysis_no_csv_request data).
    no_request. }
  specialize (Rest w3). unfold no_csv_request in Rest.
  match goal with
  | |- context [match ?m w3 with _ => _ end] => change m with
      (createHeatmap;; createCostRatingChart data;; createTypeUsageChart data;;
       createBoxplotComparison data;; createOperatorAnalysis data)
  end.
  destruct ((createHeatmap;; createCostRatingChart data;; createTypeUsageChart data;;
             createBoxplotComparison data;; createOperatorAnalysis data) w3)
    as [[[]|e] w4]; cbn [snd] in *.
  - lia.
  - change (csv_requests (console_error "Error initializing visualizations:" e w4).2)
      with (csv_requests w4). lia.
Qed.

End NoCsvRequest.

(** C7, as the script has it.  [loadData] issues exactly one request, for the
    CSV, and draws nothing.  The page does not fetch the CSV once for each
    chart: [createMap], [createCostRatingChart], [createTypeUsageChart],
    [createBoxplotComparison] and [createOperatorAnalysis] issue no request for
    it (they are handed the table [initialize] loaded), nor does
    [createHeatmap] (it fetches another file); [loadTrendChart] issues exactly
    one, and draws only after it; [initialize] issues one before any chart
    function runs.  The whole ['load'] event issues two when [loadData] returns
    and the page has the map's container, so that [createMap] returns and
    [loadTrendChart] is reached, and one otherwise: when [loadData] throws, or
    when [createMap] throws for want of its container. *)
Theorem csv_requests_of_the_charts `{Host} (data : loc) (w : world) :
  network (loadData w).2 = network w ++ [csv_url]
  /\ document (loadData w).2 = document w
  /\ Forall (fun create : M unit => csv_requests (create w).2 = csv_requests w)
       [ createMap data; createHeatmap; createCostRatingChart data;
         createTypeUsageChart data; createBoxplotComparison data;
         createOperatorAnalysis data ]
  /\ csv_requests (loadTrendChart w).2 = S (csv_requests w)
  /\ (forall e,
        (loadData w).1 = Thrown e ->
        document (loadTrendChart w).2
        = match document w !! "trend-viz" with
          | Some _ =>
              <["trend-viz" := [p_error ("Error loading trend chart: " +:+ message e)]]>
                (document w)
          | None => document w
          end)
  /\ (forall e,
        (loadData w).1 = Thrown e ->
        document (initialize w).2 = document w
        /\ network (initialize w).2 = network w ++ [csv_url])
  /\ (createMap data w).1
     = match document w !! "map-viz" with
       | Some _ => Returned tt
       | None => Thrown (TypeError "Cannot set properties of null (setting 'innerHTML')")
       end
  /\ csv_requests (initialize w).2
     = match (loadData w).1, document w !! "map-viz" with
       | Returned _, Some _ => S (S (csv_requests w))
       | _, _ => S (csv_requests w)
       end.
Proof.
  destruct (loadData_effect w) as (N & D & _).
  split; [exact N|]. split; [exact D|]. split; [|split; [|split; [|split; [|split]]]].
  - repeat constructor.
    + apply createMap_no_csv_request.
    + apply createHeatmap_no_csv_request.
    + apply createCostRatingChart_no_csv_request.
    + apply createTypeUsageChart_no_csv_request.
    + apply createBoxplotComparison_no_csv_request.
    + apply createOperatorAnalysis_no_csv_request.
  - apply loadTrendChart_one_csv_request.
  - apply loadTrendChart_after_loading.
  - apply initialize_after_loading.
  - apply createMap_outcome.
  - apply initialize_csv_requests_counted.
Qed.

Lemma csv_requests_witness :
  ((@loadData (serving Examples.not_found Examples.not_found) Examples.index_html).1
   = Thrown (Error "HTTP error! status: 404")
   /\ document (@initialize (serving Examples.not_found Examples.not_found)
                  Examples.index_html).2
      = document Examples.index_html)
  /\ ((@loadData example_host without_map_viz).1 = Returned 3
      /\ csv_requests (@initialize example_host without_map_viz).2 = 1)
  /\ csv_requests (@initialize example_host Examples.index_html).2 = 2.
Proof.
  assert (T : (@loadData (serving Examples.not_found Examples.not_found)
                 Examples.index_html).1
              = Thrown (Error "HTTP error! status: 404")) by (vm_compute; reflexivity).
  assert (L : (@loadData example_host without_map_viz).1 = Returned 3)
    by (vm_compute; reflexivity).
  assert (One : match (@loadData example_host without_map_viz).1,
                      document without_map_viz !! "map-viz" with
                | Returned _, Some _ => S (S (csv_requests without_map_viz))
                | _, _ => S (csv_requests without_map_viz)
                end = 1) by (vm_compute; reflexivity).
  assert (Two : match (@loadData example_host Examples.index_html).1,
                      document Examples.index_html !! "map-viz" with
                | Returned _, Some _ => S (S (csv_requests Examples.index_html))
                | _, _ => S (csv_requests Examples.index_html)
                end = 2) by (vm_compute; reflexivity).
  split; [split; [exact T|]|split; [split; [exact L|]|]].
  - exact (proj1 (proj1 (proj2 (proj2 (proj2 (proj2 (proj2
             (@csv_requests_of_the_charts (serving Examples.not_found Examples.not_found)
                0 Examples.index_html)))))) _ T)).
  - exact (eq_trans
             (proj2 (proj2 (proj2 (proj2 (proj2 (proj2 (proj2
                (@csv_requests_of_the_charts example_host 0 without_map_viz))))))))
             One).
  - exact (eq_trans
             (proj2 (proj2 (proj2 (proj2 (proj2 (proj2 (proj2
                (@csv_requests_of_the_charts example_host 0 Examples.index_html))))))))
             Two).
Defined.

(** C7 fails as stated: on the page of [index.html], [createMap] issues no
    request at all, and the seven chart functions of the ['load'] event leave
    two requests for the CSV (one by [initialize], one by [loadTrendChart])
    and one for the heatmap's specification. *)
Lemma csv_requests_counterexample :
  network (@createMap example_host 3 (@loadData example_host Examples.index_html).2).2
  = network (@loadData example_host Examples.index_html).2
  /\ network (@loadData example_host Examples.index_html).2 = [ csv_url ]
  /\ network (@initialize example_host Examples.index_html).2
     = [ csv_url; csv_url; "heatmap_spec.json" ].
Proof.
  vm_compute. repeat split; reflexivity.
Qed.

(** ** Failures of a chart *)

(** C6, on two pages.  On the page of [index.html], which has no element
    [operator-viz], [createOperatorAnalysis] throws: its handler writes the
    message into the container that is missing; [initialize] logs the error.
    On a page without [cost-rating-viz], [createCostRatingChart] throws in the
    same way, and the three chart functions after it are never called: their
    containers stay empty and their first log line is never written. *)
Theorem missing_container_escapes :
  (@createOperatorAnalysis example_host 3 loaded_page).1
  = Thrown (TypeError "Cannot set properties of null (setting 'innerHTML')")
  /\ last (console loaded_page)
     = Some (error_logged "Error initializing visualizations:"
               (TypeError "Cannot set properties of null (setting 'innerHTML')"))
  /\ (let w := (@loadData example_host without_cost_rating).2 in
      (@createCostRatingChart example_host 3 w).1
      = Thrown (TypeError "Cannot set properties of null (setting 'innerHTML')"))
  /\ (let w := (@initialize example_host without_cost_rating).2 in
      started "Starting cost vs rating chart creation..." w = true
      /\ started "Starting charger type vs usage chart creation..." w = false
      /\ started "Starting boxplot comparison creation..." w = false
      /\ started "Starting operator analysis creation..." w = false
      /\ children w "type-usage-viz" = []
      /\ children w "boxplot-viz" = []
      /\ last (console w)
         = Some (error_logged "Error initializing visualizations:"
                   (TypeError "Cannot set properties of null (setting 'innerHTML')"))).
Proof.
  vm_compute. repeat split; reflexivity.
Qed.

(** ** The loaded table is never changed *)

Section ObjectsKept.

Context `{Host}.

#[local] Instance objects_kept_preorder : PreOrder objects_kept.
Proof.
  split.
  - intros w l o E. exact E.
  - intros a b c K1 K2 l o E. apply K2, K1, E.
Qed.

Lemma kept_same_heap (w w' : world) : heap w' = heap w -> objects_kept w w'.
Proof. intros E l o L. rewrite E. exact L. Qed.

Lemma kept_longer_heap (w w' : world) (os : list object) :
  heap w' = heap w ++ os -> objects_kept w w'.
Proof. intros E l o L. rewrite E. apply lookup_app_l_Some. exact L. Qed.

Lemma objects_kept_console (w : world) (c : list entry) : objects_kept w (set_console w c).
Proof. apply kept_same_heap. reflexivity. Qed.

Lemma ingest_other (l l' : loc) (h : list object) (n : nat) :
  l' <> l -> (ingest l (h, n)).1 !! l' = h !! l'.
Proof.
  intros N. unfold ingest.
  destruct (h !! l) as [[d [i|]|p [i|]|ls]|]; cbn [fst]; try reflexivity;
    apply list_lookup_insert_ne; congruence.
Qed.

(** Vega writes only into the objects it is handed. *)
Lemma ingest_all_other (ls : list loc) (l' : loc) (h : list object) (n : nat) :
  ~ In l' ls -> (ingest_all ls (h, n)).1 !! l' = h !! l'.
Proof.
  unfold ingest_all. revert h n. induction ls as [|l ls IH]; intros h n N; [reflexivity|].
  cbn [fold_left].
  destruct (ingest l (h, n)) as [h1 n1] eqn:E.
  rewrite IH by (intros I; apply N; now right).
  change h1 with (h1, n1).1. rewrite <- E. apply ingest_other.
  intros ->. apply N. now left.
Qed.

Lemma elements_of_new_array (h os : list object) (ls : list loc) :
  elements_at (h ++ os ++ [Array ls]) (length h + length os) = ls.
Proof.
  unfold elements_at. rewrite app_assoc.
  rewrite list_lookup_middle by (now rewrite length_app). reflexivity.
Qed.

(** Embedding a chart whose data is a fresh array of fresh objects keeps every
    object that existed before the array was built. *)
Lemma embed_fresh (w w1 : world) (os : list object) (id : string) (s : vl_spec) :
  heap w1 = heap w ++ os ++ [Array (seq (length (heap w)) (length os))] ->
  values s = length (heap w) + length os ->
  objects_kept w (vegaEmbed id (inline s) w1).2.
Proof.
  intros E V.
  assert (K : objects_kept w w1) by (eapply kept_longer_heap; exact E).
  unfold vegaEmbed.
  destruct (bool_decide (is_Some (document w1 !! id)) || has_chartContainer id (document w1));
    [|exact K].
  destruct (vegaEmbed_rejects id); [exact K|].
  destruct (ingest_all (data_values (heap w1) (inline s)) (heap w1, vega_ids w1))
    as [h n] eqn:I.
  cbn [snd]. intros l o L.
  cbn [heap set_document set_vega].
  change h with (h, n).1. rewrite <- I.
  rewrite ingest_all_other; [apply K, L|].
  cbn [data_values]. rewrite E, V, elements_of_new_array.
  rewrite in_seq. apply lookup_lt_Some in L. lia.
Qed.

Lemma kept_then {A : Type} (p : M A) (callback : A -> M unit) (w w1 : world) :
  objects_kept w (p w1).2 ->
  (forall a, changes objects_kept (callback a)) ->
  objects_kept w (then_ p callback w1).2.
Proof.
  intros P C. unfold then_.
  destruct (p w1) as [[a|e] w2]; cbn [snd] in *.
  - specialize (C a w2). destruct (callback a w2) as [[u|e] w3]; cbn [snd] in *.
    + etransitivity; eassumption.
    + etransitivity; [exact P|]. etransitivity; [exact C|apply objects_kept_console].
  - etransitivity; [exact P|apply objects_kept_console].
Qed.

Lemma objects_kept_appendChild (el : element) (n : node) :
  changes objects_kept (appendChild el n).
Proof. intros w. apply kept_same_heap. destruct el; reflexivity. Qed.

Lemma objects_kept_set_innerHTML (el : element) (ns : list node) :
  changes objects_kept (set_innerHTML el ns).
Proof. intros w. apply kept_same_heap. destruct el; reflexivity. Qed.

Lemma objects_kept_read_table (data : loc) : changes objects_kept (read_table data).
Proof. intros w. apply kept_same_heap. reflexivity. Qed.

Lemma objects_kept_array_filter (callback : Row -> bool) (data : loc) :
  changes objects_kept (TrendChart.array_filter callback data).
Proof. intros w. eapply kept_longer_heap. reflexivity. Qed.

Lemma objects_kept_remove_svg : changes objects_kept TrendChart.remove_svg.
Proof.
  intros w. apply kept_same_heap. unfold TrendChart.remove_svg.
  destruct (document w !! "trend-viz"); reflexivity.
Qed.

Lemma objects_kept_append_svg (s : node) : changes objects_kept (TrendChart.append_svg s).
Proof.
  intros w. apply kept_same_heap. unfold TrendChart.append_svg.
  destruct (document w !! "trend-viz"); reflexivity.
Qed.

Create HintDb kept.

#[local] Hint Resolve objects_kept_console objects_kept_appendChild objects_kept_set_innerHTML
  objects_kept_read_table objects_kept_array_filter objects_kept_remove_svg
  objects_kept_append_svg : kept.

(** Decomposes a program that allocates at most and closes each statement. *)
Ltac keeps :=
  repeat first
    [ solve [auto with kept]
    | changes_step ltac:(first [exact objects_kept_preorder | exact objects_kept_console]) ].

(** Runs the statements at the head of the goal, down to the embedding of a chart. *)
Ltac run_to_embed :=
  unfold mbind, M_bind, mret, M_ret, throw, read_table, appendChild, set_innerHTML;
  cbn beta iota zeta delta
    [heap document selects listeners console network vega_ids set_heap set_document
     set_selects set_listeners set_console set_network set_vega fst snd].

Lemma TrendChart_updateChart_keeps (data : loc) (selectedAvailability : string) :
  changes objects_kept (TrendChart.updateChart data selectedAvailability).
Proof. unfold TrendChart.updateChart. keeps. Qed.

Lemma TypeUsageChart_updateChart_keeps (container : element) (data : loc) :
  changes objects_kept (TypeUsageChart.updateChart container data).
Proof.
  intros w. unfold TypeUsageChart.updateChart, TypeUsageChart.read_filters.
  run_to_embed. rewrite new_array_spec. run_to_embed.
  destruct container as [c|]; run_to_embed.
  - apply kept_then.
    + eapply embed_fresh; reflexivity.
    + intros a. unfold TypeUsageChart.show_stats, TypeUsageChart.stats, TypeUsageChart.stat.
      keeps.
  - eapply kept_longer_heap. reflexivity.
Qed.

Lemma CostRatingChart_updateChart_keeps (container : element) (data : loc) :
  changes objects_kept (CostRatingChart.updateChart container data).
Proof.
  intros w. unfold CostRatingChart.updateChart, CostRatingChart.read_filters.
  run_to_embed. rewrite new_array_spec. run_to_embed.
  destruct (length _ =? 0)%nat; destruct container as [c|]; run_to_embed;
    try (eapply kept_longer_heap; reflexivity).
  apply kept_then.
  - eapply embed_fresh; reflexivity.
  - intros a.
    unfold CostRatingChart.show_stats, CostRatingChart.stats, CostRatingChart.stat,
      CostRatingChart.reduce, CostRatingChart.d3_correlation.
    keeps.
Qed.

Lemma BoxplotComparison_updateChart_keeps (container : element) (data : loc)
  (selectedFeature : string) :
  changes objects_kept (BoxplotComparison.updateChart container data selectedFeature).
Proof.
  intros w. unfold BoxplotComparison.updateChart. run_to_embed.
  destruct (List.find _ BoxplotComparison.features) as [f|]; [|intros l o L; exact L].
  run_to_embed. rewrite new_array_spec. run_to_embed.
  destruct container as [c|]; run_to_embed.
  - apply kept_then.
    + eapply embed_fresh; reflexivity.
    + intros a.
      unfold BoxplotComparison.show_stats, BoxplotComparison.stats, BoxplotComparison.stat.
      keeps.
  - eapply kept_longer_heap. reflexivity.
Qed.

#[local] Hint Resolve TrendChart_updateChart_keeps TypeUsageChart_updateChart_keeps
  CostRatingChart_updateChart_keeps BoxplotComparison_updateChart_keeps : kept.

Lemma listener_body_keeps (l : listener) (value : string) :
  changes objects_kept (listener_body l value).
Proof.
  unfold listener_body, TypeUsageChart.on_change, CostRatingChart.on_change. keeps.
Qed.

Lemma call_keeps (l : listener) (value : string) : changes objects_kept (call l value).
Proof.
  intros w. unfold call. pose proof (listener_body_keeps l value w) as K.
  destruct (listener_body l value w) as [[u|e] w1]; cbn [snd] in *; [exact K|].
  etransitivity; [exact K|apply objects_kept_console].
Qed.

Lemma change_keeps (name value : string) : changes objects_kept (change name value).
Proof.
  intros w. unfold change.
  set (w1 := set_selects w (<[name:=value]> (selects w))).
  transitivity w1; [apply kept_same_heap; reflexivity|].
  pose proof call_keeps.
  assert (changes objects_kept
            (mapM (fun l => if (target l =? name)%string then call l value else mret tt)
               (listeners w);; mret tt)) as K by keeps.
  apply K.
Qed.

Lemma choices_keep (choices : list (string * string)) :
  changes objects_kept (mapM (fun c => change c.1 c.2) choices).
Proof. pose proof change_keeps. keeps. Qed.

(** What is kept of the objects is kept of a table that exists. *)
Lemma kept_same_table (w w' : world) (data : loc) (records : list loc) :
  heap w !! data = Some (Array records) ->
  (forall l, In l records -> is_Some (heap w !! l)) ->
  objects_kept w w' ->
  same_table w w' data.
Proof.
  intros A Rs K. unfold same_table.
  assert (E : elements_at (heap w) data = records) by (unfold elements_at; now rewrite A).
  assert (A' : heap w' !! data = Some (Array records)) by (apply K, A).
  assert (E' : elements_at (heap w') data = records) by (unfold elements_at; now rewrite A').
  assert (L : forall l, In l records -> heap w' !! l = heap w !! l).
  { intros l I. destruct (Rs l I) as [o O]. rewrite O. apply K, O. }
  split; [congruence|]. split; [rewrite E; exact L|].
  unfold table. rewrite E, E'. apply map_ext_in. intros l I.
  unfold record_at. now rewrite L.
Qed.

End ObjectsKept.

(** C8. For a table that is in memory (an array of records), each chart
    update ([updateChart] of the trend, usage, cost-and-rating and boxplot
    charts, with the [processData] it runs) and every sequence of filter
    changes leaves the array object and every record object in it as they
    were: nothing is added, removed or written. *)
Theorem loaded_table_is_never_changed `{Host} (w : world) (data : loc) (records : list loc) :
  heap w !! data = Some (Array records) ->
  (forall l, In l records -> is_Some (heap w !! l)) ->
  (forall (captured : loc) (container : element) (value : string),
      Forall (fun update : M unit => same_table w (update w).2 data)
        [ TrendChart.updateChart captured value;
          TypeUsageChart.updateChart container captured;
          CostRatingChart.updateChart container captured;
          BoxplotComparison.updateChart container captured value ])
  /\ (forall choices : list (string * string),
        same_table w (mapM (fun c => change c.1 c.2) choices w).2 data).
Proof.
  intros A Rs. split.
  - intros captured container value.
    repeat match goal with |- Forall _ _ => constructor end;
      apply (kept_same_table w _ data records A Rs).
    + apply TrendChart_updateChart_keeps.
    + apply TypeUsageChart_updateChart_keeps.
    + apply CostRatingChart_updateChart_keeps.
    + apply BoxplotComparison_updateChart_keeps.
  - intros choices. apply (kept_same_table w _ data records A Rs). apply choices_keep.
Qed.

(** On the page of [index.html] once loaded, the table is the array at
    location 3 with its records at 0, 1 and 2; two choices of the user, which
    run the listeners of the usage chart and of the trend chart, leave it as
    it was. *)
Lemma loaded_table_witness :
  heap loaded_page !! 3 = Some (Array [0; 1; 2])
  /\ same_table loaded_page
       (mapM (fun c => @change example_host c.1 c.2)
          [ ("type-usage-viz/costFilter", "low"); ("trend-viz/availabilitySelect", "24/7") ]
          loaded_page).2
       3.
Proof.
  assert (A : heap loaded_page !! 3 = Some (Array [0; 1; 2])) by (vm_compute; reflexivity).
  split; [exact A|].
  refine (proj2 (@loaded_table_is_never_changed example_host loaded_page 3 [0; 1; 2] A _) _).
  intros l [<-|[<-|[<-|[]]]]; vm_compute; eexists; reflexivity.
Defined.

(** ** Numbers the statistics read *)

(** What [filter] keeps passes the test. *)
Lemma Forall_filter_kept {A : Type} (keep : A -> bool) (l : list A) :
  Forall (fun x => keep x = true) (List.filter keep l).
Proof. apply List.Forall_forall. intros x I. apply filter_In in I. apply I. Qed.

Lemma Forall_weaken {A : Type} (P Q : A -> Prop) (l : list A) :
  (forall x, P x -> Q x) -> Forall P l -> Forall Q l.
Proof. intros PQ F. induction F; constructor; auto. Qed.

(** The maintenance score is a number or an inherited member. *)
Lemma maintenance_score_cases (value : field) :
  (exists x, BoxplotComparison.maintenance_score value = VNumber x)
  \/ (exists k, BoxplotComparison.maintenance_score value = VInherited k).
Proof.
  unfold BoxplotComparison.maintenance_score, member, BoxplotComparison.scores, own.
  destruct ("Monthly" =? ToString value)%string; [left; eexists; reflexivity|].
  destruct ("Quarterly" =? ToString value)%string; [left; eexists; reflexivity|].
  destruct ("Annually" =? ToString value)%string; [left; eexists; reflexivity|].
  destruct (includes Object_prototype (ToString value)).
  - right. eexists. reflexivity.
  - left. eexists. reflexivity.
Qed.

(** X1. Whatever the table and the selects, every record a chart function
    hands to its statistics has a number in each field they aggregate: the
    usage in the usage chart; the cost and the rating in the cost-and-rating
    chart; the value of the chosen feature in the boxplot, where a maintenance
    score that is not a number has been dropped; the rating, the usage and the
    capacity in the operator analysis. *)
Theorem aggregated_values_are_numbers `{Host} (data : list Row) :
  (forall f,
      Forall (fun d => PrimFloat.is_nan (TypeUsageChart.usage d) = false)
        (TypeUsageChart.processData f data))
  /\ (forall f,
        Forall (fun d => PrimFloat.is_nan (CostRatingChart.cost d) = false
                         /\ PrimFloat.is_nan (CostRatingChart.rating d) = false)
          (CostRatingChart.processData f data))
  /\ Forall
       (fun f =>
          Forall (fun d => exists x, BoxplotComparison.value d = VNumber x
                                     /\ PrimFloat.is_nan x = false)
            (BoxplotComparison.processData f data))
       BoxplotComparison.features
  /\ Forall (fun d => PrimFloat.is_nan (OperatorAnalysis.rating d) = false
                      /\ PrimFloat.is_nan (OperatorAnalysis.usage d) = false
                      /\ PrimFloat.is_nan (OperatorAnalysis.capacity d) = false)
       (OperatorAnalysis.processData data).
Proof.
  split; [|split; [|split]].
  - intros f. eapply Forall_weaken; [|apply Forall_filter_kept].
    intros d. unfold TypeUsageChart.kept, TypeUsageChart.unusable.
    destruct (PrimFloat.is_nan (TypeUsageChart.usage d)); [discriminate|reflexivity].
  - intros f. eapply Forall_weaken; [|apply Forall_filter_kept].
    intros d. unfold CostRatingChart.kept, CostRatingChart.unusable.
    destruct (PrimFloat.is_nan (CostRatingChart.cost d)); [discriminate|].
    destruct (PrimFloat.is_nan (CostRatingChart.rating d)); [discriminate|auto].
  - assert (Parsed : forall f,
               BoxplotComparison.feature_transform f = None ->
               Forall (fun d => exists x, BoxplotComparison.value d = VNumber x
                                          /\ PrimFloat.is_nan x = false)
                 (BoxplotComparison.processData f data)).
    { intros f T. apply List.Forall_forall. intros d I. apply filter_In in I.
      destruct I as (I & K). apply in_map_iff in I. destruct I as (r & <- & _).
      unfold BoxplotComparison.kept, isNaN, BoxplotComparison.mapped in *.
      cbn [BoxplotComparison.value] in *. rewrite T in *. cbn [to_number] in K.
      eexists. split; [reflexivity|]. now apply negb_true_iff in K. }
    repeat constructor; try (apply Parsed; reflexivity).
    apply List.Forall_forall. intros d I. apply filter_In in I.
    destruct I as (I & K). apply in_map_iff in I. destruct I as (r & <- & _).
    unfold BoxplotComparison.kept, isNaN, BoxplotComparison.mapped in *.
    cbn [BoxplotComparison.value BoxplotComparison.feature_transform
           BoxplotComparison.maintenance BoxplotComparison.feature_field] in *.
    destruct (maintenance_score_cases (get r "Maintenance Frequency")) as [(x & E)|(k & E)];
      rewrite E in *; cbn [to_number] in K.
    + exists x. split; [reflexivity|]. now apply negb_true_iff in K.
    + discriminate.
  - eapply Forall_weaken; [|apply Forall_filter_kept].
    intros d. unfold OperatorAnalysis.kept.
    destruct (PrimFloat.is_nan (OperatorAnalysis.rating d)); [discriminate|].
    destruct (PrimFloat.is_nan (OperatorAnalysis.usage d)); [discriminate|].
    destruct (PrimFloat.is_nan (OperatorAnalysis.capacity d)); [discriminate|auto].
Qed.

(** ** Ranges of cost and of usage *)

Lemma SFcompare_antisym (a b : spec_float) :
  SFcompare b a = option_map CompOpp (SFcompare a b).
Proof.
  destruct a as [sa|sa| |sa ma ea], b as [sb|sb| |sb mb eb]; simpl;
    try reflexivity; try (destruct sa; reflexivity); try (destruct sb; reflexivity);
    try (destruct sa, sb; reflexivity).
  change (Pos.compare_cont Eq ma mb) with (ma ?= mb)%positive.
  change (Pos.compare_cont Eq mb ma) with (mb ?= ma)%positive.
  rewrite (Z.compare_antisym ea eb), (Pos.compare_antisym ma mb).
  destruct sa, sb; try reflexivity;
    destruct (ea ?= eb)%Z; simpl; try reflexivity;
    destruct (ma ?= mb)%positive; reflexivity.
Qed.

Lemma number_compares (x : number) :
  PrimFloat.is_nan x = false -> exists c, SFcompare (Prim2SF x) (Prim2SF x) = Some c.
Proof.
  unfold PrimFloat.is_nan. rewrite FloatAxioms.eqb_spec. unfold SFeqb.
  destruct (SFcompare (Prim2SF x) (Prim2SF x)) as [c|]; [eauto|discriminate].
Qed.

Lemma number_is_not_nan (x : number) : PrimFloat.is_nan x = false -> Prim2SF x <> S754_nan.
Proof.
  intros N E. destruct (number_compares x N) as [c C]. rewrite E in C. discriminate.
Qed.

Lemma compared (x y : number) :
  PrimFloat.is_nan x = false -> PrimFloat.is_nan y = false ->
  exists c, SFcompare (Prim2SF x) (Prim2SF y) = Some c.
Proof.
  intros X Y. apply number_is_not_nan in X, Y.
  destruct (Prim2SF x), (Prim2SF y); simpl; try congruence; eauto.
Qed.

(** Among numbers, [x >= y] is the negation of [x < y], and [x <= y] that of [x > y]. *)
Lemma greater_eq_not_less (x y : number) :
  PrimFloat.is_nan x = false -> PrimFloat.is_nan y = false ->
  (x >= y)%js = negb (x < y)%js.
Proof.
  intros X Y. unfold greater_eq, less. rewrite FloatAxioms.leb_spec, FloatAxioms.ltb_spec. unfold SFleb, SFltb.
  rewrite (SFcompare_antisym (Prim2SF x) (Prim2SF y)).
  destruct (compared x y X Y) as [c ->]. destruct c; reflexivity.
Qed.

Lemma less_eq_not_greater (x y : number) :
  PrimFloat.is_nan x = false -> PrimFloat.is_nan y = false ->
  (x <= y)%js = negb (x > y)%js.
Proof.
  intros X Y. unfold less_eq, greater. rewrite FloatAxioms.leb_spec, FloatAxioms.ltb_spec. unfold SFleb, SFltb.
  rewrite (SFcompare_antisym (Prim2SF y) (Prim2SF x)).
  destruct (compared y x Y X) as [c ->]. destruct c; reflexivity.
Qed.

Lemma less_not_nan (x y : number) : (x < y)%js = true -> PrimFloat.is_nan x = false.
Proof.
  unfold less, PrimFloat.is_nan. rewrite FloatAxioms.ltb_spec, FloatAxioms.eqb_spec. unfold SFltb, SFeqb.
  destruct (Prim2SF x) as [s|s| |s m e]; simpl; try discriminate; try reflexivity.
  - destruct s; reflexivity.
  - intros _. destruct s; rewrite Z.compare_refl, Pos.compare_cont_refl; reflexivity.
Qed.

(** No number is below 0.15 and above 0.30, or at most 10 and above 20. *)
Lemma not_low_and_high_cost (x : number) :
  (x < 0.15)%js = true -> (x > 0.30)%js = true -> False.
Proof.
  unfold less, greater. rewrite !FloatAxioms.ltb_spec. unfold SFltb.
  set (a := Prim2SF 0.15). vm_compute in a. subst a.
  set (b := Prim2SF 0.30). vm_compute in b. subst b.
  destruct (Prim2SF x) as [s|s| |s m e]; cbv beta iota delta [SFcompare];
    try discriminate.
  - destruct s; discriminate.
  - destruct s; try discriminate.
    destruct (Z.compare_spec e (-55)), (Z.compare_spec (-54) e); try discriminate; lia.
Qed.

Lemma not_low_and_high_usage (x : number) :
  (x <= 10)%js = true -> (x > 20)%js = true -> False.
Proof.
  unfold less_eq, greater. rewrite FloatAxioms.leb_spec, FloatAxioms.ltb_spec. unfold SFleb, SFltb.
  set (a := Prim2SF 10). vm_compute in a. subst a.
  set (b := Prim2SF 20). vm_compute in b. subst b.
  destruct (Prim2SF x) as [s|s| |s m e]; cbv beta iota delta [SFcompare];
    try discriminate.
  - destruct s; discriminate.
  - destruct s; try discriminate.
    destruct (Z.compare_spec e (-49)), (Z.compare_spec (-48) e); try discriminate; lia.
Qed.

Section Partition.

Context {A : Type}.
Variables p q r all : A -> bool.

(** Three filters that share out what a fourth keeps. *)
Lemma filters_share_out (l : list A) :
  Forall (fun x => p x || q x || r x = all x
                   /\ p x && q x = false /\ p x && r x = false /\ q x && r x = false) l ->
  Permutation (List.filter p l ++ List.filter q l ++ List.filter r l) (List.filter all l).
Proof.
  induction 1 as [|x l (U & PQ & PR & QR) _ IH]; [reflexivity|].
  cbn [List.filter]. rewrite <- U.
  destruct (p x), (q x), (r x); try discriminate; cbn [orb app].
  - constructor. exact IH.
  - symmetry. apply Permutation_cons_app. symmetry. exact IH.
  - symmetry. rewrite app_assoc. apply Permutation_cons_app. rewrite <- app_assoc.
    symmetry. exact IH.
  - exact IH.
Qed.

End Partition.

Section Ranges.

Import TypeUsageChart.

Lemma kept_with_cost (f : filters) (c : string) (d : datum) :
  kept (with_cost f c) d
  = kept (with_cost f "all") d && negb (wrong_cost (with_cost f c) d).
Proof.
  unfold kept.
  change (wrong_cost (with_cost f "all") d) with false.
  change (wrong_type (with_cost f c) d) with (wrong_type f d).
  change (wrong_type (with_cost f "all") d) with (wrong_type f d).
  change (wrong_power (with_cost f c) d) with (wrong_power f d).
  change (wrong_power (with_cost f "all") d) with (wrong_power f d).
  change (wrong_renewable (with_cost f c) d) with (wrong_renewable f d).
  change (wrong_renewable (with_cost f "all") d) with (wrong_renewable f d).
  change (in_range (with_cost f c) d) with (in_range f d).
  change (in_range (with_cost f "all") d) with (in_range f d).
  destruct (unusable d), (wrong_type f d), (wrong_power f d), (wrong_renewable f d),
    (wrong_cost (with_cost f c) d), (in_range f d); reflexivity.
Qed.

Lemma kept_with_range (f : filters) (r : string) (d : datum) :
  kept (with_range f r) d
  = kept (with_range f "all") d && in_range (with_range f r) d.
Proof.
  unfold kept.
  change (in_range (with_range f "all") d) with true.
  change (wrong_type (with_range f r) d) with (wrong_type f d).
  change (wrong_type (with_range f "all") d) with (wrong_type f d).
  change (wrong_power (with_range f r) d) with (wrong_power f d).
  change (wrong_power (with_range f "all") d) with (wrong_power f d).
  change (wrong_renewable (with_range f r) d) with (wrong_renewable f d).
  change (wrong_renewable (with_range f "all") d) with (wrong_renewable f d).
  change (wrong_cost (with_range f r) d) with (wrong_cost f d).
  change (wrong_cost (with_range f "all") d) with (wrong_cost f d).
  destruct (unusable d), (wrong_type f d), (wrong_power f d), (wrong_renewable f d),
    (wrong_cost f d), (in_range (with_range f r) d); reflexivity.
Qed.

(** The three cost ranges at a station whose cost is a number. *)
Lemma cost_ranges (f : filters) (d : datum) :
  PrimFloat.is_nan (cost d) = false ->
  let accepts c := negb (wrong_cost (with_cost f c) d) in
  accepts "low" || accepts "medium" || accepts "high" = true
  /\ accepts "low" && accepts "medium" = false
  /\ accepts "low" && accepts "high" = false
  /\ accepts "medium" && accepts "high" = false.
Proof.
  intros N accepts. subst accepts. cbv beta.
  assert (L : wrong_cost (with_cost f "low") d = negb (cost d < 0.15)%js).
  { rewrite <- greater_eq_not_less by (exact N || reflexivity).
    unfold wrong_cost, with_cost; cbn [selectedCost].
    destruct (cost d >= 0.15)%js; reflexivity. }
  assert (M : wrong_cost (with_cost f "medium") d = (cost d < 0.15)%js || (cost d > 0.30)%js).
  { unfold wrong_cost, with_cost; cbn [selectedCost].
    destruct ((cost d < 0.15)%js || (cost d > 0.30)%js); reflexivity. }
  assert (G : wrong_cost (with_cost f "high") d = negb (cost d > 0.30)%js).
  { rewrite <- less_eq_not_greater by (exact N || reflexivity).
    unfold wrong_cost, with_cost; cbn [selectedCost].
    destruct (cost d <= 0.30)%js; reflexivity. }
  rewrite L, M, G.
  pose proof (not_low_and_high_cost (cost d)) as X.
  destruct (cost d < 0.15)%js, (cost d > 0.30)%js; cbn; auto.
  exfalso. auto.
Qed.

(** The three usage ranges at a station whose usage is a number. *)
Lemma usage_ranges (f : filters) (d : datum) :
  PrimFloat.is_nan (usage d) = false ->
  let accepts r := in_range (with_range f r) d in
  accepts "low" || accepts "medium" || accepts "high" = true
  /\ accepts "low" && accepts "medium" = false
  /\ accepts "low" && accepts "high" = false
  /\ accepts "medium" && accepts "high" = false.
Proof.
  intros N accepts. subst accepts. cbv beta.
  assert (L : in_range (with_range f "low") d = (usage d <= 10)%js) by reflexivity.
  assert (M : in_range (with_range f "medium") d
              = negb (usage d <= 10)%js && negb (usage d > 20)%js).
  { rewrite (less_eq_not_greater (usage d) 10%float) by (exact N || reflexivity).
    rewrite negb_involutive.
    rewrite <- (less_eq_not_greater (usage d) 20%float) by (exact N || reflexivity).
    reflexivity. }
  assert (G : in_range (with_range f "high") d = (usage d > 20)%js) by reflexivity.
  rewrite L, M, G.
  pose proof (not_low_and_high_usage (usage d)) as X.
  destruct (usage d <= 10)%js, (usage d > 20)%js; cbn; auto.
  exfalso. auto.
Qed.

Lemma kept_usage_is_a_number (f : filters) (d : datum) :
  kept f d = true -> PrimFloat.is_nan (usage d) = false.
Proof.
  unfold kept, unusable. destruct (PrimFloat.is_nan (usage d)); [discriminate|reflexivity].
Qed.

Lemma one_usage_range (f : filters) (d : datum) :
  kept (with_range f "all") d = true ->
  length (List.filter (fun r => kept (with_range f r) d) ["low"; "medium"; "high"]) = 1.
Proof.
  intros K.
  destruct (usage_ranges f d (kept_usage_is_a_number _ _ K)) as (U & LM & LH & MH).
  cbn [List.filter].
  rewrite (kept_with_range f "low" d), (kept_with_range f "medium" d),
    (kept_with_range f "high" d), K. cbn [andb].
  destruct (in_range (with_range f "low") d), (in_range (with_range f "medium") d),
    (in_range (with_range f "high") d); cbn in *; congruence.
Qed.

Lemma one_cost_range (f : filters) (d : datum) :
  PrimFloat.is_nan (cost d) = false ->
  kept (with_cost f "all") d = true ->
  length (List.filter (fun c => kept (with_cost f c) d) ["low"; "medium"; "high"]) = 1.
Proof.
  intros N K.
  destruct (cost_ranges f d N) as (U & LM & LH & MH).
  cbn [List.filter].
  rewrite (kept_with_cost f "low" d), (kept_with_cost f "medium" d),
    (kept_with_cost f "high" d), K. cbn [andb].
  destruct (wrong_cost (with_cost f "low") d), (wrong_cost (with_cost f "medium") d),
    (wrong_cost (with_cost f "high") d); cbn in *; congruence.
Qed.

(** X2. Whatever the other selects hold, the usage ranges share out the
    stations the usage chart keeps: those kept under ['low'], ['medium'] and
    ['high'] are together those kept under ['all'], and each of these is kept
    under exactly one range.  The cost ranges do the same on a table where the
    cost of every station is a number. *)
Theorem ranges_share_out_the_stations `{Host} (f : filters) (data : list Row) :
  let by_range r := processData (with_range f r) data in
  let by_cost c := processData (with_cost f c) data in
  Permutation (by_range "low" ++ by_range "medium" ++ by_range "high") (by_range "all")
  /\ Forall
       (fun d =>
          length (List.filter (fun r => kept (with_range f r) d) ["low"; "medium"; "high"]) = 1)
       (by_range "all")
  /\ (Forall (fun r => PrimFloat.is_nan (cost (mapped r)) = false) data ->
      Permutation (by_cost "low" ++ by_cost "medium" ++ by_cost "high") (by_cost "all")
      /\ Forall
           (fun d =>
              length (List.filter (fun c => kept (with_cost f c) d) ["low"; "medium"; "high"])
              = 1)
           (by_cost "all")).
Proof.
  intros by_range by_cost. subst by_range by_cost. cbv beta. unfold processData.
  split; [|split].
  - apply filters_share_out. apply List.Forall_forall. intros d _.
    rewrite (kept_with_range f "low" d), (kept_with_range f "medium" d),
      (kept_with_range f "high" d).
    destruct (kept (with_range f "all") d) eqn:K; [|auto].
    cbn [andb]. apply usage_ranges. eapply kept_usage_is_a_number, K.
  - apply List.Forall_forall. intros d I. apply filter_In in I. destruct I as (_ & K).
    apply one_usage_range, K.
  - intros N. split.
    + apply filters_share_out. apply List.Forall_forall. intros d I.
      apply in_map_iff in I. destruct I as (r & <- & I).
      rewrite List.Forall_forall in N. specialize (N r I).
      rewrite (kept_with_cost f "low" (mapped r)), (kept_with_cost f "medium" (mapped r)),
        (kept_with_cost f "high" (mapped r)).
      destruct (kept (with_cost f "all") (mapped r)) eqn:K; [|auto].
      cbn [andb]. apply cost_ranges, N.
    + apply List.Forall_forall. intros d I. apply filter_In in I. destruct I as (I & K).
      apply in_map_iff in I. destruct I as (r & <- & I).
      rewrite List.Forall_forall in N. apply one_cost_range; [apply N, I|exact K].
Qed.

End Ranges.

Lemma ranges_share_out_witness :
  let data := Examples.csvParse Examples.stations_csv in
  let f := TypeUsageChart.chosen (selects loaded_page) in
  let by_cost c := @TypeUsageChart.processData example_host (with_cost f c) data in
  Forall (fun r => PrimFloat.is_nan (TypeUsageChart.cost (@TypeUsageChart.mapped example_host r))
                   = false) data
  /\ map (fun c => length (by_cost c)) [ "low"; "medium"; "high"; "all" ] = [ 1; 1; 1; 3 ]
  /\ Permutation (by_cost "low" ++ by_cost "medium" ++ by_cost "high") (by_cost "all").
Proof.
  assert (B : forallb
                (fun r => negb (PrimFloat.is_nan
                                  (TypeUsageChart.cost (@TypeUsageChart.mapped example_host r))))
                (Examples.csvParse Examples.stations_csv) = true) by (vm_compute; reflexivity).
  assert (N : Forall
                (fun r => PrimFloat.is_nan
                            (TypeUsageChart.cost (@TypeUsageChart.mapped example_host r)) = false)
                (Examples.csvParse Examples.stations_csv)).
  { apply List.Forall_forall. intros r I. rewrite forallb_forall in B.
    apply negb_true_iff, B, I. }
  split; [exact N|]. split; [vm_compute; reflexivity|].
  exact (proj1 (proj2 (proj2 (@ranges_share_out_the_stations example_host
                                (TypeUsageChart.chosen (selects loaded_page))
                                (Examples.csvParse Examples.stations_csv))) N)).
Defined.

(** ** Charts whose container is on the page *)

Section ElementsKept.

Context `{Host}.

#[local] Instance elements_kept_preorder : PreOrder elements_kept.
Proof.
  split.
  - intros w id I. exact I.
  - intros a b c E1 E2 id I. apply E2, E1, I.
Qed.

Lemma elements_kept_trans (a b c : world) :
  elements_kept a b -> elements_kept b c -> elements_kept a c.
Proof. intros E1 E2 id I. apply E2, E1, I. Qed.

Lemma kept_same_document (w w' : world) : document w' = document w -> elements_kept w w'.
Proof. intros E id I. rewrite E. exact I. Qed.

Lemma kept_insert (w : world) (id : string) (ns : list node) :
  elements_kept w (set_document w (<[id := ns]> (document w))).
Proof.
  intros id' I. cbn [document set_document].
  destruct (decide (id = id')) as [->|N].
  - rewrite lookup_insert_eq. eauto.
  - rewrite lookup_insert_ne by exact N. exact I.
Qed.

Lemma elements_kept_console (w : world) (c : list entry) : elements_kept w (set_console w c).
Proof. apply kept_same_document. reflexivity. Qed.

Lemma elements_kept_new_array (os : list object) : changes elements_kept (new_array os).
Proof. intros w. rewrite new_array_spec. apply kept_same_document. reflexivity. Qed.

Lemma elements_kept_read_table (data : loc) : changes elements_kept (read_table data).
Proof. intros w. reflexivity. Qed.

Lemma elements_kept_getElementById (id : string) : changes elements_kept (getElementById id).
Proof. intros w. reflexivity. Qed.

Lemma elements_kept_appendChild (el : element) (n : node) :
  changes elements_kept (appendChild el n).
Proof. intros w. destruct el; [apply kept_insert|reflexivity]. Qed.

Lemma elements_kept_set_innerHTML (el : element) (ns : list node) :
  changes elements_kept (set_innerHTML el ns).
Proof. intros w. destruct el; [apply kept_insert|reflexivity]. Qed.

Lemma elements_kept_set_style (el : element) : changes elements_kept (set_style el).
Proof. intros w. destruct el; reflexivity. Qed.

Lemma elements_kept_create_select (name : string) (options : list string) :
  changes elements_kept (create_select name options).
Proof. intros w. apply kept_same_document. reflexivity. Qed.

Lemma elements_kept_addEventListener (name : string) (c : chart) (data : loc) :
  changes elements_kept (addEventListener name c data).
Proof. intros w. apply kept_same_document. reflexivity. Qed.

Lemma elements_kept_vegaEmbed (id : string) (spec : vega_spec) :
  changes elements_kept (vegaEmbed id spec).
Proof.
  intros w. unfold vegaEmbed.
  destruct (bool_decide (is_Some (document w !! id)) || has_chartContainer id (document w));
    [|reflexivity].
  destruct (vegaEmbed_rejects id); [reflexivity|].
  destruct (ingest_all (data_values (heap w) spec) (heap w, vega_ids w)) as [h n].
  cbn [snd]. intros id' I. cbn [document set_document set_vega].
  destruct (document w !! id) eqn:D.
  - destruct (decide (id = id')) as [->|N].
    + rewrite lookup_insert_eq. eauto.
    + rewrite lookup_insert_ne by exact N. exact I.
  - rewrite lookup_fmap. destruct I as [ns ->]. eauto.
Qed.

Lemma elements_kept_L_map (id : string) : changes elements_kept (Map.L_map id).
Proof. intros w. unfold Map.L_map. destruct (document w !! id); reflexivity. Qed.

Lemma elements_kept_fetch (url : string) : changes elements_kept (fetch url).
Proof.
  intros w. unfold fetch.
  destruct (fetch_settles (length (network w)) url); apply kept_same_document; reflexivity.
Qed.

Lemma elements_kept_read_usage_filters : changes elements_kept TypeUsageChart.read_filters.
Proof. intros w. reflexivity. Qed.

Lemma elements_kept_read_cost_filters : changes elements_kept CostRatingChart.read_filters.
Proof. intros w. reflexivity. Qed.

Lemma elements_kept_array_filter (callback : Row -> bool) (data : loc) :
  changes elements_kept (TrendChart.array_filter callback data).
Proof. intros w. apply kept_same_document. reflexivity. Qed.

Lemma elements_kept_remove_svg : changes elements_kept TrendChart.remove_svg.
Proof.
  intros w. unfold TrendChart.remove_svg.
  destruct (document w !! "trend-viz"); [apply kept_insert|reflexivity].
Qed.

Lemma elements_kept_append_svg (s : node) : changes elements_kept (TrendChart.append_svg s).
Proof.
  intros w. unfold TrendChart.append_svg.
  destruct (document w !! "trend-viz"); [apply kept_insert|reflexivity].
Qed.

Lemma elements_kept_loadData : changes elements_kept loadData.
Proof. intros w. apply kept_same_document. apply loadData_effect. Qed.

Create HintDb elements.

#[local] Hint Resolve elements_kept_console elements_kept_new_array elements_kept_read_table
  elements_kept_getElementById elements_kept_appendChild elements_kept_set_innerHTML
  elements_kept_set_style elements_kept_create_select elements_kept_addEventListener
  elements_kept_vegaEmbed elements_kept_L_map elements_kept_fetch
  elements_kept_read_usage_filters elements_kept_read_cost_filters
  elements_kept_array_filter elements_kept_remove_svg elements_kept_append_svg
  elements_kept_loadData : elements.

(** Decomposes a program into its statements and closes each with the lemmas above. *)
Ltac keeps_elements :=
  repeat first
    [ solve [auto with elements]
    | changes_step ltac:(first [exact elements_kept_preorder | exact elements_kept_console]) ].

(** A chart function whose container is on the page returns: what its body
    throws is caught, logged and shown in the container. *)
Lemma guarded_returns (id label : string) (report : error -> string) (body : M unit)
  (w : world) :
  changes elements_kept body ->
  is_Some (document w !! id) ->
  let create :=
    try_catch body
      (fun error =>
         console_error label error;;
         el ← getElementById id;
         set_innerHTML el [p_error (report error)]) in
  match body w with
  | (Returned _, w1) => create w = (Returned tt, w1)
  | (Thrown e, w1) =>
      (create w).1 = Returned tt
      /\ document (create w).2 = <[id := [p_error (report e)]]> (document w1)
      /\ last (console (create w).2) = Some (error_logged label e)
  end.
Proof.
  intros K I create. subst create. unfold try_catch.
  specialize (K w id I).
  destruct (body w) as [[[]|e] w1]; cbn [snd] in K; [reflexivity|].
  unfold mbind, M_bind, console_error, getElementById, set_innerHTML.
  cbn [document set_console].
  destruct K as [ns ->]. cbn [fst snd document set_document set_console console].
  split; [reflexivity|]. split; [reflexivity|]. apply last_snoc.
Qed.


Lemma guarded (id label : string) (report : error -> string) (body : M unit) (w : world) :
  changes elements_kept body ->
  is_Some (document w !! id) ->
  let create :=
    try_catch body
      (fun error =>
         console_error label error;;
         el ← getElementById id;
         set_innerHTML el [p_error (report error)]) in
  (create w).1 = Returned tt /\ elements_kept w (create w).2.
Proof.
  intros K I create.
  pose proof (guarded_returns id label report body w K I) as G. fold create in G.
  cbv zeta in G. specialize (K w).
  destruct (body w) as [[[]|e] w1]; cbn [snd] in K.
  - rewrite G. split; [reflexivity|exact K].
  - destruct G as (R & D & _). split; [exact R|].
    etransitivity; [exact K|]. intros id' I'. rewrite D.
    destruct (decide (id = id')) as [->|N].
    + rewrite lookup_insert_eq. eauto.
    + rewrite lookup_insert_ne by exact N. exact I'.
Qed.

(** The same, with what the handler leaves: when the body returns, the page it
    left; when it throws, one more entry in the console and the message as the
    only content of the container. *)
Lemma guarded_outcome (id label text : string) (body : M unit) (w : world) :
  changes elements_kept body ->
  is_Some (document w !! id) ->
  let create :=
    try_catch body
      (fun error =>
         console_error label error;;
         el ← getElementById id;
         set_innerHTML el [p_error (text +:+ message error)]) in
  match body w with
  | (Returned _, w1) => (create w).2 = w1
  | (Thrown e, w1) =>
      console (create w).2 = console w1 ++ [error_logged label e]
      /\ document (create w).2 = <[id := [p_error (text +:+ message e)]]> (document w1)
  end.
Proof.
  intros K I create. subst create. unfold try_catch.
  specialize (K w id I).
  destruct (body w) as [[[]|e] w1]; cbn [snd] in K; [reflexivity|].
  unfold mbind, M_bind, console_error, getElementById, set_innerHTML.
  cbn [document set_console].
  destruct K as [ns ->]. cbn [fst snd document set_document set_console console].
  split; reflexivity.
Qed.

Lemma createMap_returns (data : loc) (w : world) :
  is_Some (document w !! "map-viz") ->
  (createMap data w).1 = Returned tt /\ elements_kept w (createMap data w).2.
Proof.
  intros I. unfold createMap.
  apply (guarded "map-viz" "Error creating map:" (fun e => "Error creating map: " +:+ message e));
    [unfold Map.circleMarker; keeps_elements|exact I].
Qed.

Lemma loadTrendChart_returns (w : world) :
  is_Some (document w !! "trend-viz") ->
  (loadTrendChart w).1 = Returned tt /\ elements_kept w (loadTrendChart w).2.
Proof.
  intros I. unfold loadTrendChart.
  apply (guarded "trend-viz" "Error loading trend chart:"
           (fun e => "Error loading trend chart: " +:+ message e)); [|exact I].
  unfold TrendChart.updateChart. keeps_elements.
Qed.

Lemma createHeatmap_returns (w : world) :
  is_Some (document w !! "heatmap-viz") ->
  (createHeatmap w).1 = Returned tt /\ elements_kept w (createHeatmap w).2.
Proof.
  intros I. unfold createHeatmap.
  apply (guarded "heatmap-viz" "Error creating heatmap:"
           (fun e => "Error creating heatmap: " +:+ message e)); [keeps_elements|exact I].
Qed.

Lemma createCostRatingChart_returns (data : loc) (w : world) :
  is_Some (document w !! "cost-rating-viz") ->
  (createCostRatingChart data w).1 = Returned tt
  /\ elements_kept w (createCostRatingChart data w).2.
Proof.
  intros I. unfold createCostRatingChart.
  apply (guarded "cost-rating-viz" "Error creating cost vs rating chart:"
           (fun e => "Error creating chart: " +:+ message e)); [|exact I].
  unfold CostRatingChart.updateChart, CostRatingChart.show_stats, CostRatingChart.stats,
    CostRatingChart.stat, CostRatingChart.reduce, CostRatingChart.d3_correlation.
  keeps_elements.
Qed.

Lemma createTypeUsageChart_returns (data : loc) (w : world) :
  is_Some (document w !! "type-usage-viz") ->
  (createTypeUsageChart data w).1 = Returned tt
  /\ elements_kept w (createTypeUsageChart data w).2.
Proof.
  intros I. unfold createTypeUsageChart.
  apply (guarded "type-usage-viz" "Error creating charger type vs usage chart:"
           (fun e => "Error creating chart: " +:+ message e)); [|exact I].
  unfold TypeUsageChart.updateChart, TypeUsageChart.show_stats, TypeUsageChart.stats,
    TypeUsageChart.stat.
  keeps_elements.
Qed.

Lemma createBoxplotComparison_returns (data : loc) (w : world) :
  is_Some (document w !! "boxplot-viz") ->
  (createBoxplotComparison data w).1 = Returned tt
  /\ elements_kept w (createBoxplotComparison data w).2.
Proof.
  intros I. unfold createBoxplotComparison.
  apply (guarded "boxplot-viz" "Error creating boxplot comparison:"
           (fun e => "Error creating boxplot comparison: " +:+ message e)); [|exact I].
  unfold BoxplotComparison.updateChart, BoxplotComparison.show_stats,
    BoxplotComparison.stats, BoxplotComparison.stat.
  keeps_elements.
Qed.

Lemma createOperatorAnalysis_returns (data : loc) (w : world) :
  is_Some (document w !! "operator-viz") ->
  (createOperatorAnalysis data w).1 = Returned tt
  /\ elements_kept w (createOperatorAnalysis data w).2.
Proof.
  intros I. unfold createOperatorAnalysis.
  apply (guarded "operator-viz" "Error creating operator analysis:"
           (fun e => "Error creating operator analysis: " +:+ message e)); [|exact I].
  unfold OperatorAnalysis.show_stats, OperatorAnalysis.stats, OperatorAnalysis.stat.
  keeps_elements.
Qed.

Lemma createMap_handled (data : loc) (w : world) :
  is_Some (document w !! "map-viz") -> handled "map-viz" (createMap data) w.
Proof.
  intros I. do 3 eexists. split; [cbn [the_handlers In]; auto 10|].
  split; [reflexivity|].
  apply guarded_outcome; [unfold Map.circleMarker; keeps_elements|exact I].
Qed.

Lemma loadTrendChart_handled (w : world) :
  is_Some (document w !! "trend-viz") -> handled "trend-viz" loadTrendChart w.
Proof.
  intros I. do 3 eexists. split; [cbn [the_handlers In]; auto 10|].
  split; [reflexivity|]. apply guarded_outcome; [|exact I].
  unfold TrendChart.updateChart. keeps_elements.
Qed.

Lemma createHeatmap_handled (w : world) :
  is_Some (document w !! "heatmap-viz") -> handled "heatmap-viz" createHeatmap w.
Proof.
  intros I. do 3 eexists. split; [cbn [the_handlers In]; auto 10|].
  split; [reflexivity|]. apply guarded_outcome; [keeps_elements|exact I].
Qed.

Lemma createCostRatingChart_handled (data : loc) (w : world) :
  is_Some (document w !! "cost-rating-viz") ->
  handled "cost-rating-viz" (createCostRatingChart data) w.
Proof.
  intros I. do 3 eexists. split; [cbn [the_handlers In]; auto 10|].
  split; [reflexivity|]. apply guarded_outcome; [|exact I].
  unfold CostRatingChart.updateChart, CostRatingChart.show_stats, CostRatingChart.stats,
    CostRatingChart.stat, CostRatingChart.reduce, CostRatingChart.d3_correlation.
  keeps_elements.
Qed.

Lemma createTypeUsageChart_handled (data : loc) (w : world) :
  is_Some (document w !! "type-usage-viz") ->
  handled "type-usage-viz" (createTypeUsageChart data) w.
Proof.
  intros I. do 3 eexists. split; [cbn [the_handlers In]; auto 10|].
  split; [reflexivity|]. apply guarded_outcome; [|exact I].
  unfold TypeUsageChart.updateChart, TypeUsageChart.show_stats, TypeUsageChart.stats,
    TypeUsageChart.stat.
  keeps_elements.
Qed.

Lemma createBoxplotComparison_handled (data : loc) (w : world) :
  is_Some (document w !! "boxplot-viz") ->
  handled "boxplot-viz" (createBoxplotComparison data) w.
Proof.
  intros I. do 3 eexists. split; [cbn [the_handlers In]; auto 10|].
  split; [reflexivity|]. apply guarded_outcome; [|exact I].
  unfold BoxplotComparison.updateChart, BoxplotComparison.show_stats,
    BoxplotComparison.stats, BoxplotComparison.stat.
  keeps_elements.
Qed.

Lemma createOperatorAnalysis_handled (data : loc) (w : world) :
  is_Some (document w !! "operator-viz") ->
  handled "operator-viz" (createOperatorAnalysis data) w.
Proof.
  intros I. do 3 eexists. split; [cbn [the_handlers In]; auto 10|].
  split; [reflexivity|]. apply guarded_outcome; [|exact I].
  unfold OperatorAnalysis.show_stats, OperatorAnalysis.stats, OperatorAnalysis.stat.
  keeps_elements.
Qed.

End ElementsKept.

(** X3. A chart function whose container is on the page returns, whatever
    happens in its [try] block, and leaves every element of the page on the
    page.  When the block returns, the page is as the block left it.  When the
    block throws, the handler logs the error once, under the label of the
    function, and the container holds one paragraph and nothing else: the text
    of the function followed by the message of the error. *)
Theorem chart_function_returns `{Host} (data : loc) (w : world) (id : string)
  (create : M unit) :
  In (id, create) (the_charts data) ->
  is_Some (document w !! id) ->
  (create w).1 = Returned tt
  /\ elements_kept w (create w).2
  /\ exists label text body,
       In (id, (label, text)) the_handlers
       /\ create
          = try_catch body
              (fun error =>
                 console_error label error;;
                 el ← getElementById id;
                 set_innerHTML el [p_error (text +:+ message error)])
       /\ match body w with
          | (Returned _, w1) => (create w).2 = w1
          | (Thrown e, w1) =>
              console (create w).2 = console w1 ++ [error_logged label e]
              /\ document (create w).2
                 = <[id := [p_error (text +:+ message e)]]> (document w1)
          end.
Proof.
  intros I S.
  enough (((create w).1 = Returned tt /\ elements_kept w (create w).2)
          /\ handled id create w) as ((R & K) & Hd)
    by (split; [exact R|split; [exact K|exact Hd]]).
  cbn [the_charts In] in I.
  destruct I as [E|[E|[E|[E|[E|[E|[E|[]]]]]]]]; injection E as <- <-.
  - split; [apply createMap_returns, S|apply createMap_handled, S].
  - split; [apply loadTrendChart_returns, S|apply loadTrendChart_handled, S].
  - split; [apply createHeatmap_returns, S|apply createHeatmap_handled, S].
  - split; [apply createCostRatingChart_returns, S|apply createCostRatingChart_handled, S].
  - split; [apply createTypeUsageChart_returns, S|apply createTypeUsageChart_handled, S].
  - split; [apply createBoxplotComparison_returns, S
           |apply createBoxplotComparison_handled, S].
  - split; [apply createOperatorAnalysis_returns, S|apply createOperatorAnalysis_handled, S].
Qed.

Lemma chart_function_returns_witness :
  let host := serving Examples.not_found Examples.not_found in
  is_Some (document Examples.index_html !! "trend-viz")
  /\ (@loadTrendChart host Examples.index_html).1 = Returned tt
  /\ children (@loadTrendChart host Examples.index_html).2 "trend-viz"
     = [ p_error "Error loading trend chart: HTTP error! status: 404" ]
  /\ last (console (@loadTrendChart host Examples.index_html).2)
     = Some (error_logged "Error loading trend chart:" (Error "HTTP error! status: 404")).
Proof.
  intros host.
  assert (S : is_Some (document Examples.index_html !! "trend-viz")) by (vm_compute; eauto).
  assert (I : In ("trend-viz", @loadTrendChart host) (@the_charts host 0))
    by (cbn [the_charts In]; auto 10).
  split; [exact S|]. split; [|split; vm_compute; reflexivity].
  exact (proj1 (@chart_function_returns host 0 Examples.index_html "trend-viz"
                  (@loadTrendChart host) I S)).
Defined.

(** X4. On a page that has the seven containers, once [loadData] has
    returned the table, [initialize] calls the seven chart functions one after
    the other, each on the page the one before left, and returns. *)
Theorem initialize_runs_every_chart `{Host} (w w1 : world) (data : loc) :
  (forall id, In id (map fst (the_charts data)) -> is_Some (document w !! id)) ->
  loadData w = (Returned data, w1) ->
  initialize w
  = (Returned tt, fold_left (fun w' chart => (chart.2 w').2) (the_charts data) w1).
Proof.
  intros S L.
  assert (S1 : elements_kept w w1).
  { pose proof (elements_kept_loadData w) as K. rewrite L in K. exact K. }
  cbn [the_charts fold_left snd]. unfold initialize, try_catch. rewrite bind_eq, L.
  rewrite bind_eq.
  destruct (createMap_returns data w1) as (R1 & K1); [apply S1, S; cbn; auto 10|].
  destruct (createMap data w1) as [[[]|e] w2]; cbn [fst snd] in *; [|discriminate].
  assert (S2 : elements_kept w w2) by (eapply elements_kept_trans; eassumption).
  rewrite bind_eq.
  destruct (loadTrendChart_returns w2) as (R2 & K2); [apply S2, S; cbn; auto 10|].
  destruct (loadTrendChart w2) as [[[]|e] w3]; cbn [fst snd] in *; [|discriminate].
  assert (S3 : elements_kept w w3) by (eapply elements_kept_trans; eassumption).
  rewrite bind_eq.
  destruct (createHeatmap_returns w3) as (R3 & K3); [apply S3, S; cbn; auto 10|].
  destruct (createHeatmap w3) as [[[]|e] w4]; cbn [fst snd] in *; [|discriminate].
  assert (S4 : elements_kept w w4) by (eapply elements_kept_trans; eassumption).
  rewrite bind_eq.
  destruct (createCostRatingChart_returns data w4) as (R4 & K4); [apply S4, S; cbn; auto 10|].
  destruct (createCostRatingChart data w4) as [[[]|e] w5]; cbn [fst snd] in *; [|discriminate].
  assert (S5 : elements_kept w w5) by (eapply elements_kept_trans; eassumption).
  rewrite bind_eq.
  destruct (createTypeUsageChart_returns data w5) as (R5 & K5); [apply S5, S; cbn; auto 10|].
  destruct (createTypeUsageChart data w5) as [[[]|e] w6]; cbn [fst snd] in *; [|discriminate].
  assert (S6 : elements_kept w w6) by (eapply elements_kept_trans; eassumption).
  rewrite bind_eq.
  destruct (createBoxplotComparison_returns data w6) as (R6 & K6);
    [apply S6, S; cbn; auto 10|].
  destruct (createBoxplotComparison data w6) as [[[]|e] w7]; cbn [fst snd] in *;
    [|discriminate].
  assert (S7 : elements_kept w w7) by (eapply elements_kept_trans; eassumption).
  destruct (createOperatorAnalysis_returns data w7) as (R7 & K7);
    [apply S7, S; cbn; auto 10|].
  destruct (createOperatorAnalysis data w7) as [[[]|e] w8]; cbn [fst snd] in *;
    [reflexivity|discriminate].
Qed.

Lemma initialize_runs_every_chart_witness :
  @initialize example_host complete_page
  = (Returned tt,
     fold_left (fun w' chart => (chart.2 w').2) (@the_charts example_host 3)
       (@loadData example_host complete_page).2).
Proof.
  apply (@initialize_runs_every_chart example_host complete_page).
  - intros id I. cbn [the_charts map fst In] in I.
    destruct I as [<-|[<-|[<-|[<-|[<-|[<-|[<-|[]]]]]]]]; vm_compute; eauto.
  - vm_compute. reflexivity.
Defined.

(** ** Groups *)

Section Grouping.

Context {A : Type} (key : A -> field).

Lemma same_key_eq (a b : field) : same_key a b = true <-> a = b.
Proof.
  destruct a as [x|], b as [y|]; simpl; try (split; congruence).
  rewrite String.eqb_eq. split; congruence.
Qed.

Lemma same_key_refl (a : field) : same_key a a = true.
Proof. now apply same_key_eq. Qed.

Lemma same_key_sym (a b : field) : same_key a b = same_key b a.
Proof.
  destruct (same_key a b) eqn:E.
  - apply same_key_eq in E. subst. symmetry. apply same_key_refl.
  - destruct (same_key b a) eqn:E'; [|reflexivity].
    apply same_key_eq in E'. subst. now rewrite same_key_refl in E.
Qed.

Lemma group_snoc (values : list A) (x : A) :
  group key (values ++ [x]) = group_insert (key x) x (group key values).
Proof. unfold group. now rewrite fold_left_app. Qed.

Lemma lookup_group_insert (k k0 : field) (x : A) (groups : list (field * list A)) :
  TrendChart.lookup_key k (group_insert k0 x groups)
  = if same_key k0 k then Some (default [] (TrendChart.lookup_key k groups) ++ [x])
    else TrendChart.lookup_key k groups.
Proof.
  unfold TrendChart.lookup_key. induction groups as [|[k' xs] groups IH]; cbn [group_insert List.find fst].
  - destruct (same_key k0 k); reflexivity.
  - destruct (same_key k' k0) eqn:E0; cbn [List.find fst].
    + apply same_key_eq in E0. subst k0.
      destruct (same_key k' k); reflexivity.
    + destruct (same_key k' k) eqn:E; cbn [fmap option_fmap option_map snd].
      * apply same_key_eq in E. subst k'. rewrite (same_key_sym k0 k), E0. reflexivity.
      * exact IH.
Qed.

(** [d3.rollup] looked up at a key: the members with that key, when there are some. *)
Lemma lookup_group (k : field) (values : list A) :
  TrendChart.lookup_key k (group key values)
  = match of_key key k values with
    | [] => None
    | xs => Some xs
    end.
Proof.
  induction values as [|x values IH] using rev_ind; [reflexivity|].
  rewrite group_snoc, lookup_group_insert, IH. unfold of_key.
  rewrite List.filter_app. cbn [List.filter].
  destruct (same_key (key x) k).
  - destruct (List.filter _ values); reflexivity.
  - rewrite app_nil_r. reflexivity.
Qed.

Lemma keys_group_insert (k0 : field) (x : A) (groups : list (field * list A)) :
  map fst (group_insert k0 x groups)
  = if existsb (fun k => same_key k k0) (map fst groups) then map fst groups
    else map fst groups ++ [k0].
Proof.
  induction groups as [|[k' xs] groups IH]; cbn [group_insert map fst existsb]; [reflexivity|].
  destruct (same_key k' k0); cbn [orb map fst]; [reflexivity|].
  rewrite IH. destruct (existsb _ (map fst groups)); reflexivity.
Qed.

(** The keys of the groups: the keys of the values, each once. *)
Lemma keys_of_group (values : list A) :
  NoDup (map fst (group key values))
  /\ forall k, In k (map fst (group key values)) <-> exists x, In x values /\ key x = k.
Proof.
  induction values as [|x values (N & I)] using rev_ind.
  - split; [constructor|]. intros k. simpl. split; [tauto|]. intros (x & [] & _).
  - rewrite group_snoc, keys_group_insert.
    destruct (existsb (fun k => same_key k (key x)) (map fst (group key values))) eqn:E.
    + split; [exact N|]. intros k. rewrite I. apply existsb_exists in E.
      destruct E as (k' & Ik' & E). apply same_key_eq in E. subst k'.
      split.
      * intros (y & Iy & <-). exists y. split; [apply in_or_app; now left|reflexivity].
      * intros (y & Iy & <-). apply in_app_or in Iy. destruct Iy as [Iy|[<-|[]]].
        -- eauto.
        -- apply I, Ik'.
    + split.
      * apply NoDup_app. split; [exact N|]. split; [|apply NoDup_singleton].
        intros k Ik Ek. apply list_elem_of_singleton in Ek. subst k.
        assert (existsb (fun k => same_key k (key x)) (map fst (group key values)) = true)
          as T; [|congruence].
        apply existsb_exists. exists (key x). split; [|apply same_key_refl].
        now apply list_elem_of_In.
      * intros k. rewrite in_app_iff, I. simpl. split.
        -- intros [(y & Iy & <-)|[<-|[]]].
           ++ exists y. split; [apply in_or_app; now left|reflexivity].
           ++ exists x. split; [apply in_or_app; right; now left|reflexivity].
        -- intros (y & Iy & <-). apply in_app_or in Iy. destruct Iy as [Iy|[<-|[]]]; eauto.
Qed.

End Grouping.

Section Classes.

Context {A : Type} (key : A -> field).

Lemma lookup_key_in (k : field) (xs : list A) (groups : list (field * list A)) :
  List.NoDup (map fst groups) -> In (k, xs) groups ->
  TrendChart.lookup_key k groups = Some xs.
Proof.
  unfold TrendChart.lookup_key.
  induction groups as [|[k' ys] groups IH]; intros N I; [destruct I|].
  cbn [map fst] in N. inversion N as [|? ? NI N']; subst.
  cbn [List.find fst]. destruct I as [E|I].
  - injection E as -> ->. now rewrite same_key_refl.
  - destruct (same_key k' k) eqn:S; [|now apply IH].
    apply same_key_eq in S. subst k'. exfalso. apply NI.
    apply in_map_iff. exists (k, xs). split; [reflexivity|exact I].
Qed.

(** Each group holds the values of its key, all of them, and at least one. *)
Lemma groups_are_classes (values : list A) :
  Forall (fun g => g.2 = of_key key g.1 values /\ g.2 <> []) (group key values).
Proof.
  apply List.Forall_forall. intros [k xs] I.
  destruct (keys_of_group key values) as (N & _).
  apply NoDup_ListNoDup in N.
  pose proof (lookup_key_in k xs _ N I) as L. rewrite lookup_group in L.
  cbn [fst snd]. destruct (of_key key k values); [discriminate|].
  injection L as <-. split; [reflexivity|discriminate].
Qed.

Lemma group_insert_total (k0 : field) (x : A) (groups : list (field * list A)) :
  list_sum (map (fun g => length g.2) (group_insert k0 x groups))
  = S (list_sum (map (fun g => length g.2) groups)).
Proof.
  induction groups as [|[k' xs] groups IH]; cbn [group_insert]; [reflexivity|].
  destruct (same_key k' k0); cbn [map snd]; rewrite ?IH;
    change (list_sum (?a :: ?l)) with (a + list_sum l)%nat.
  - rewrite length_app. cbn [length]. lia.
  - lia.
Qed.

(** The groups share out the values. *)
Lemma group_total (values : list A) :
  list_sum (map (fun g => length g.2) (group key values)) = length values.
Proof.
  induction values as [|x values IH] using rev_ind; [reflexivity|].
  rewrite group_snoc, group_insert_total, IH, length_app. cbn [length]. lia.
Qed.

End Classes.

(** ** The points of the trend chart *)

Lemma lookup_rollup {A B : Type} (key : A -> field) (reduce : list A -> B) (k : field)
  (values : list A) :
  TrendChart.lookup_key k (rollup values reduce key)
  = reduce <$> TrendChart.lookup_key k (group key values).
Proof.
  unfold rollup, TrendChart.lookup_key.
  induction (group key values) as [|[k' xs] groups IH]; [reflexivity|].
  cbn [map List.find fst]. destruct (same_key k' k); [reflexivity|exact IH].
Qed.

Lemma keys_rollup {A B : Type} (key : A -> field) (reduce : list A -> B) (values : list A) :
  map fst (rollup values reduce key) = map fst (group key values).
Proof.
  unfold rollup. rewrite map_map. apply map_ext. intros [k xs]. reflexivity.
Qed.

Lemma filter_twice {A : Type} (p q : A -> bool) (l : list A) :
  List.filter q (List.filter p l) = List.filter (fun x => p x && q x) l.
Proof.
  induction l as [|x l IH]; [reflexivity|]. cbn [List.filter].
  destruct (p x); cbn [andb List.filter]; [|exact IH].
  destruct (q x); now rewrite IH.
Qed.

(** The number the chart plots for a year and a type. *)
Lemma count_of_year_and_type (rows : list Row) (y t : string) :
  default 0%nat
    (TrendChart.lookup_key (Some y) (TrendChart.yearlyData rows)
       ≫= TrendChart.lookup_key (Some t))
  = length (installed rows y t).
Proof.
  unfold TrendChart.yearlyData, installed.
  rewrite <- filter_twice.
  rewrite lookup_rollup, lookup_group. unfold of_key.
  destruct (List.filter (fun x => same_key (get x "Installation Year") (Some y)) rows)
    as [|d ds] eqn:E; [reflexivity|].
  cbn [fmap option_fmap option_map mbind option_bind].
  rewrite lookup_rollup, lookup_group. unfold of_key.
  destruct (List.filter _ (d :: ds)); reflexivity.
Qed.

Lemma sort_insert_permutation (s : string) (a : list string) :
  Permutation (TrendChart.sort_insert s a) (s :: a).
Proof.
  induction a as [|x a IH]; [reflexivity|]. cbn [TrendChart.sort_insert].
  destruct (String.leb s x); [reflexivity|].
  rewrite IH. apply perm_swap.
Qed.

Lemma sort_permutation (a : list string) : Permutation (TrendChart.sort a) a.
Proof.
  induction a as [|x a IH]; [reflexivity|]. unfold TrendChart.sort in *. cbn [fold_right].
  rewrite sort_insert_permutation. now constructor.
Qed.

Lemma sort_insert_sorted (s : string) (a : list string) :
  Sorted (fun x y => String.leb x y = true) a ->
  Sorted (fun x y => String.leb x y = true) (TrendChart.sort_insert s a).
Proof.
  induction 1 as [|x a S IH Hd]; cbn [TrendChart.sort_insert].
  - repeat constructor.
  - destruct (String.leb s x) eqn:L.
    + constructor; [now constructor|now constructor].
    + constructor; [exact IH|].
      assert (X : String.leb x s = true) by (destruct (String.leb_total s x); congruence).
      destruct a as [|y a]; cbn [TrendChart.sort_insert].
      * now constructor.
      * destruct (String.leb s y); constructor; [exact X|]. now inversion Hd.
Qed.

Lemma sort_sorted (a : list string) :
  Sorted (fun x y => String.leb x y = true) (TrendChart.sort a).
Proof.
  induction a as [|x a IH]; [constructor|]. unfold TrendChart.sort in *. cbn [fold_right].
  now apply sort_insert_sorted.
Qed.

(** X5. The points of the trend chart: three for each listed year, for
    ['L1'], ['L2'] and ['DC'] in this order, each with the number of stations
    of the filtered table installed that year with a charger of that type.
    The listed years are the installation years of the table that lie between
    2010 and 2024, each once, in ascending order of their text. *)
Theorem trend_points `{Host} (rows : list Row) :
  exists years : list string,
    TrendChart.trendData rows
    = flat_map
        (fun y =>
           map (fun t => {| year := ToNumber y; type := t; count := length (installed rows y t) |})
             [ "L1"; "L2"; "DC" ])
        years
    /\ Sorted (fun x y => String.leb x y = true) years
    /\ List.NoDup years
    /\ (forall y,
          In y years
          <-> TrendChart.in_window (Some y) = true
              /\ exists d, In d rows /\ get d "Installation Year" = Some y).
Proof.
  set (keys := map fst (TrendChart.yearlyData rows)).
  set (listed := omap id (List.filter TrendChart.in_window keys)).
  exists (TrendChart.sort listed).
  assert (K : List.NoDup keys
              /\ forall k, In k keys <-> exists d, In d rows /\ get d "Installation Year" = k).
  { subst keys. unfold TrendChart.yearlyData. rewrite keys_rollup.
    destruct (keys_of_group (fun d => get d "Installation Year") rows) as (N & I).
    split; [now apply NoDup_ListNoDup|exact I]. }
  destruct K as (N & I).
  assert (L : forall y, In y listed
                        <-> TrendChart.in_window (Some y) = true /\ In (Some y) keys).
  { intros y. subst listed. rewrite <- list_elem_of_In, list_elem_of_omap. split.
    - intros (k & Ik & E). destruct k as [s|]; [|discriminate]. injection E as ->.
      apply list_elem_of_In, filter_In in Ik. tauto.
    - intros (W & Ik). exists (Some y). split; [|reflexivity].
      apply list_elem_of_In, filter_In. tauto. }
  split; [|split; [|split]].
  - unfold TrendChart.trendData. fold keys. fold listed.
    apply flat_map_ext. intros y. unfold TrendChart.types. cbn [map].
    now rewrite !count_of_year_and_type.
  - apply sort_sorted.
  - eapply Permutation_NoDup; [symmetry; apply sort_permutation|].
    subst listed. apply NoDup_ListNoDup.
    apply NoDup_ListNoDup in N.
    assert (F : NoDup (List.filter TrendChart.in_window keys)).
    { apply NoDup_ListNoDup, List.NoDup_filter, NoDup_ListNoDup, N. }
    clear -F. induction F as [|k ks NI F IH]; [constructor|].
    destruct k as [s|]; cbn [omap]; [|exact IH]. cbn. constructor; [|exact IH].
    rewrite list_elem_of_omap. intros (k & Ik & E). destruct k; [|discriminate].
    injection E as ->. contradiction.
  - intros y. rewrite <- I, <- L. split; apply Permutation_in.
    + apply sort_permutation.
    + symmetry. apply sort_permutation.
Qed.

(** ** Redrawing the trend chart *)

(** A new array does not change what the records at the old addresses are. *)
Lemma record_at_new_array (h : list object) (ls : list loc) (l : loc) :
  record_at (h ++ [Array ls]) l = record_at h l.
Proof.
  unfold record_at. destruct (h !! l) as [o|] eqn:E.
  - erewrite lookup_app_l_Some by exact E. reflexivity.
  - apply lookup_ge_None in E. destruct (decide (l = length h)) as [->|N].
    + rewrite list_lookup_middle by reflexivity. reflexivity.
    + rewrite lookup_ge_None_2; [reflexivity|]. rewrite length_app. simpl. lia.
Qed.

Lemma filter_map_commute {A B : Type} (f : A -> B) (p : B -> bool) (l : list A) :
  map f (List.filter (fun x => p (f x)) l) = List.filter p (map f l).
Proof.
  induction l as [|x l IH]; [reflexivity|]. cbn [List.filter map].
  destruct (p (f x)); cbn [map]; now rewrite IH.
Qed.

Lemma elements_at_end (h : list object) (ls : list loc) :
  elements_at (h ++ [Array ls]) (length h) = ls.
Proof. unfold elements_at. now rewrite list_lookup_middle. Qed.

(** [data.filter(callback)] holds the records of [data] that pass. *)
Lemma table_of_array_filter (callback : Row -> bool) (data : loc) (w : world) :
  let r := TrendChart.array_filter callback data w in
  exists filteredData,
    r.1 = Returned filteredData
    /\ heap r.2 = heap w ++ [Array (List.filter (fun l => callback (record_at (heap w) l))
                                      (elements_at (heap w) data))]
    /\ document r.2 = document w
    /\ table (heap r.2) filteredData = List.filter callback (table (heap w) data).
Proof.
  cbv zeta. unfold TrendChart.array_filter, alloc. cbn [fst snd heap document set_heap].
  eexists. split; [reflexivity|]. split; [reflexivity|]. split; [reflexivity|].
  unfold table. rewrite elements_at_end.
  erewrite map_ext by (intros; apply record_at_new_array).
  apply filter_map_commute.
Qed.

Lemma updateChart_document `{Host} (data : loc) (v : string) (w : world) :
  (TrendChart.updateChart data v w).1 = Returned tt
  /\ document (TrendChart.updateChart data v w).2
     = match document w !! "trend-viz" with
       | Some ns =>
           <["trend-viz" :=
               List.filter (fun n => negb (TrendChart.is_svg n)) ns
               ++ [svg (TrendChart.trendData
                          (List.filter (TrendChart.available v) (table (heap w) data)))]]>
             (document w)
       | None => document w
       end
  /\ exists a, heap (TrendChart.updateChart data v w).2 = heap w ++ [Array a].
Proof.
  unfold TrendChart.updateChart. rewrite bind_eq.
  destruct (table_of_array_filter (TrendChart.available v) data w) as (fd & R & Hp & D & T).
  cbv zeta in *.
  destruct (TrendChart.array_filter (TrendChart.available v) data w) as [[fd'|e] w1];
    cbn [fst snd] in *; [|discriminate].
  injection R as ->. run. rewrite T.
  unfold TrendChart.remove_svg, TrendChart.append_svg. cbn [fst snd].
  rewrite !D. destruct (document w !! "trend-viz") as [ns|] eqn:E.
  - cbn [document set_document heap]. rewrite lookup_insert_eq.
    cbn [fst snd document set_document heap]. rewrite insert_insert_eq, ?D. eauto.
  - rewrite ?D, E. cbn [fst snd]. rewrite ?D. eauto.
Qed.

Lemma table_after_new_array (h : list object) (a : list loc) (data : loc) :
  is_Some (h !! data) -> table (h ++ [Array a]) data = table h data.
Proof.
  intros [o O]. unfold table, elements_at.
  rewrite (lookup_app_l_Some _ _ _ _ O), O.
  apply map_ext. intros l. apply record_at_new_array.
Qed.

(** X6. Drawing the trend chart for a selection returns, changes no
    container but [trend-viz], keeps what [trend-viz] holds that is not a
    chart and puts one chart after it: the points of the records of the table
    that pass the selection.  Drawing again for another selection replaces
    that chart: the page shows the last selection only. *)
Theorem trend_chart_shows_the_last_selection `{Host} (data : loc) (v1 v2 : string)
  (w : world) :
  is_Some (heap w !! data) ->
  let drawn v :=
    svg (TrendChart.trendData (List.filter (TrendChart.available v) (table (heap w) data))) in
  let w1 := (TrendChart.updateChart data v1 w).2 in
  let w2 := (TrendChart.updateChart data v2 w1).2 in
  (TrendChart.updateChart data v1 w).1 = Returned tt
  /\ (forall id, id <> "trend-viz" -> document w1 !! id = document w !! id)
  /\ match document w !! "trend-viz" with
     | Some ns =>
         let kept := List.filter (fun n => negb (TrendChart.is_svg n)) ns in
         document w1 !! "trend-viz" = Some (kept ++ [drawn v1])
         /\ document w2 !! "trend-viz" = Some (kept ++ [drawn v2])
     | None => document w1 = document w
     end.
Proof.
  intros S drawn w1 w2.
  destruct (updateChart_document data v1 w) as (R1 & D1 & a1 & H1).
  destruct (updateChart_document data v2 w1) as (_ & D2 & _).
  fold w1 in D1, H1. fold w2 in D2.
  split; [exact R1|]. split.
  - intros id N. rewrite D1. destruct (document w !! "trend-viz"); [|reflexivity].
    now rewrite lookup_insert_ne.
  - destruct (document w !! "trend-viz") as [ns|] eqn:E; [|exact D1].
    cbv zeta. assert (E1 : document w1 !! "trend-viz"
                           = Some (List.filter (fun n => negb (TrendChart.is_svg n)) ns
                                   ++ [drawn v1])).
    { rewrite D1. apply lookup_insert_eq. }
    split; [exact E1|].
    rewrite D2, E1, lookup_insert_eq, H1, (table_after_new_array _ _ _ S).
    rewrite List.filter_app. cbn [List.filter TrendChart.is_svg drawn negb].
    rewrite app_nil_r. f_equal. f_equal.
    clear. induction ns as [|n ns IH]; [reflexivity|]. cbn [List.filter].
    destruct (negb (TrendChart.is_svg n)) eqn:X; cbn [List.filter]; rewrite ?X, IH; reflexivity.
Qed.

Lemma trend_chart_witness :
  is_Some (heap loaded_page !! 7)
  /\ (@TrendChart.updateChart example_host 7 "limited" loaded_page).1 = Returned tt.
Proof.
  assert (S : is_Some (heap loaded_page !! 7)) by (vm_compute; eauto).
  split; [exact S|].
  exact (proj1 (@trend_chart_shows_the_last_selection example_host 7 "limited" "all"
                  loaded_page S)).
Defined.

(** ** The heatmap *)

(** X7. On a page that has the heatmap's container, [createHeatmap] issues
    one request, for [heatmap_spec.json], and leaves in the container either
    the chart or one error message, whatever the container held: the message
    of the rejection when the request is rejected, the status when the
    response is not ok, the parser's message when the body is not JSON, and
    Vega's message when Vega rejects the chart. *)
Theorem heatmap_shows_the_chart_or_one_message `{Host} (w : world) :
  is_Some (document w !! "heatmap-viz") ->
  let answer := fetch_settles (length (network w)) "heatmap_spec.json" in
  let w' := (createHeatmap w).2 in
  let failed e := [ p_error ("Error creating heatmap: " +:+ message e) ] in
  network w' = network w ++ [ "heatmap_spec.json" ]
  /\ (forall e, answer = Rejected e -> children w' "heatmap-viz" = failed e)
  /\ (forall r,
        answer = Fulfilled r -> ok r = false ->
        children w' "heatmap-viz"
        = failed (Error ("HTTP error! status: " +:+ pretty (status r))))
  /\ (forall r e,
        answer = Fulfilled r -> ok r = true -> json r = Rejected e ->
        children w' "heatmap-viz" = failed e)
  /\ (forall r spec,
        answer = Fulfilled r -> ok r = true -> json r = Fulfilled spec ->
        children w' "heatmap-viz"
        = match vegaEmbed_rejects "heatmap-viz" with
          | Some e => failed e
          | None => [ vega_view (from_json spec) ]
          end).
Proof.
  intros [ns S] answer w' failed. subst answer w' failed.
  unfold createHeatmap, children. run.
  destruct (fetch_settles (length (network w)) "heatmap_spec.json") as [r|e0]; run.
  2:{ rewrite S. cbn [snd network document set_document set_console set_network].
      rewrite lookup_insert_eq.
      split; [reflexivity|]. split; [intros e E; now injection E as <-|].
      repeat split; intros; discriminate. }
  destruct (ok r) eqn:Ok; cbn [negb]; run.
  2:{ rewrite S. cbn [snd network document set_document set_console set_network].
      rewrite lookup_insert_eq.
      split; [reflexivity|]. split; [intros; discriminate|].
      split; [intros r' E _; now injection E as <-|].
      split; intros; congruence. }
  destruct (json r) as [spec|e0] eqn:J; run.
  2:{ rewrite S. cbn [snd network document set_document set_console set_network].
      rewrite lookup_insert_eq.
      split; [reflexivity|]. split; [intros; discriminate|].
      split; [intros; congruence|].
      split; [intros r' e E _ J'; injection E as <-; rewrite J in J'; now injection J' as <-|].
      intros r' spec' E _ J'. injection E as <-. congruence. }
  unfold vegaEmbed. cbn [document set_network heap vega_ids]. rewrite S.
  rewrite (bool_decide_eq_true_2 (is_Some (Some ns))) by eauto. cbn [orb].
  destruct (vegaEmbed_rejects "heatmap-viz") as [e|].
  - run. rewrite S. cbn [snd network document set_document set_console set_network].
    rewrite lookup_insert_eq.
    split; [reflexivity|]. split; [intros; discriminate|].
    split; [intros; congruence|]. split; [intros; congruence|].
    intros r' spec' E _ J'. injection E as <-. reflexivity.
  - destruct (ingest_all _ _) as [h n].
    cbn [fst snd network document set_document set_console set_network set_vega].
    rewrite lookup_insert_eq.
    split; [reflexivity|]. split; [intros; discriminate|].
    split; [intros; congruence|]. split; [intros; congruence|].
    intros r' spec' E _ J'. injection E as <-. rewrite J in J'. now injection J' as <-.
Qed.

Lemma heatmap_witness :
  children
    (@createHeatmap (serving (Examples.found Examples.stations_csv) Examples.not_found)
       complete_page).2
    "heatmap-viz"
  = [ p_error ("Error creating heatmap: "
               +:+ message (Error ("HTTP error! status: " +:+ pretty 404%nat))) ].
Proof.
  assert (S : is_Some (document complete_page !! "heatmap-viz")) by (vm_compute; eauto).
  exact (proj1 (proj2 (proj2
           (@heatmap_shows_the_chart_or_one_message
              (serving (Examples.found Examples.stations_csv) Examples.not_found)
              complete_page S)))
           {| ok := false; status := 404; text := Fulfilled "Not Found";
              json := Rejected (Error "Unexpected token N in JSON") |}
           eq_refl eq_refl).
Defined.

(** ** What a chart function leaves alone *)

Section Confined.

Context `{Host}.
Variables own chart : string.

Lemma no_other_kept (w w' : world) :
  no_other own chart w ->
  (forall id, id <> own -> document w' !! id = document w !! id) ->
  no_other own chart w'.
Proof.
  intros (C & O) F. split.
  - intros N. rewrite F by exact N. auto.
  - intros id ns N E. rewrite F in E by exact N. eauto.
Qed.

#[local] Instance confined_preorder : PreOrder (confined own chart).
Proof.
  split.
  - intros w _ id _. reflexivity.
  - intros a b c E1 E2 C id N.
    rewrite (E2 (no_other_kept a b C (E1 C)) id N). apply E1; assumption.
Qed.

Lemma confined_same_document (w w' : world) :
  document w' = document w -> confined own chart w w'.
Proof. intros E _ id _. now rewrite E. Qed.

Lemma confined_insert (w : world) (ns : list node) :
  confined own chart w (set_document w (<[own := ns]> (document w))).
Proof. intros _ id N. cbn [document set_document]. now rewrite lookup_insert_ne. Qed.

Lemma confined_console (w : world) (c : list entry) : confined own chart w (set_console w c).
Proof. apply confined_same_document. reflexivity. Qed.

(** [getElementById] answers with the element asked for, or [null]. *)
Lemma confined_getElementById {A : Type} (id : string) (k : element -> M A) :
  changes (confined own chart) (k (Some id)) ->
  changes (confined own chart) (k None) ->
  changes (confined own chart) (getElementById id ≫= k).
Proof.
  intros S N w. rewrite bind_eq. unfold getElementById.
  destruct (document w !! id); [apply S|apply N].
Qed.

Lemma confined_L_map {A : Type} (id : string) (k : element -> M A) :
  changes (confined own chart) (k (Some id)) ->
  changes (confined own chart) (Map.L_map id ≫= k).
Proof.
  intros S w. rewrite bind_eq. unfold Map.L_map.
  destruct (document w !! id); [apply S|reflexivity].
Qed.

Lemma confined_new_array (os : list object) : changes (confined own chart) (new_array os).
Proof. intros w. rewrite new_array_spec. apply confined_same_document. reflexivity. Qed.

Lemma confined_read_table (data : loc) : changes (confined own chart) (read_table data).
Proof. intros w. reflexivity. Qed.

Lemma confined_appendChild (n : node) : changes (confined own chart) (appendChild (Some own) n).
Proof. intros w. apply confined_insert. Qed.

Lemma confined_appendChild_null (n : node) : changes (confined own chart) (appendChild None n).
Proof. intros w. reflexivity. Qed.

Lemma confined_set_innerHTML (ns : list node) :
  changes (confined own chart) (set_innerHTML (Some own) ns).
Proof. intros w. apply confined_insert. Qed.

Lemma confined_set_innerHTML_null (ns : list node) :
  changes (confined own chart) (set_innerHTML None ns).
Proof. intros w. reflexivity. Qed.

Lemma confined_set_style (el : element) : changes (confined own chart) (set_style el).
Proof. intros w. destruct el; reflexivity. Qed.

Lemma confined_create_select (name : string) (options : list string) :
  changes (confined own chart) (create_select name options).
Proof. intros w. apply confined_same_document. reflexivity. Qed.

Lemma confined_addEventListener (name : string) c (data : loc) :
  changes (confined own chart) (addEventListener name c data).
Proof. intros w. apply confined_same_document. reflexivity. Qed.

Lemma show_nothing (spec : vega_spec) (ns : list node) :
  existsb (is_chartContainer chart) ns = false -> map (show chart spec) ns = ns.
Proof.
  induction ns as [|n ns IH]; [reflexivity|]. cbn [existsb map].
  intros E. apply orb_false_iff in E. destruct E as (E1 & E2).
  rewrite (IH E2). f_equal.
  destruct n; try reflexivity. cbn [show is_chartContainer] in *. now rewrite E1.
Qed.

(** Vega draws in the element with the id [chart], wherever it is. *)
Lemma confined_vegaEmbed (spec : vega_spec) : changes (confined own chart) (vegaEmbed chart spec).
Proof.
  intros w. unfold vegaEmbed.
  destruct (bool_decide (is_Some (document w !! chart))
            || has_chartContainer chart (document w)); [|reflexivity].
  destruct (vegaEmbed_rejects chart); [reflexivity|].
  destruct (ingest_all (data_values (heap w) spec) (heap w, vega_ids w)) as [h n].
  cbn [snd]. intros (C & O) id N. cbn [document set_document set_vega].
  destruct (document w !! chart) eqn:D.
  - destruct (decide (chart = own)) as [->|X]; [|specialize (C X); congruence].
    now rewrite lookup_insert_ne.
  - rewrite lookup_fmap. destruct (document w !! id) as [ns|] eqn:E; [|reflexivity].
    cbn. f_equal. apply show_nothing. eauto.
Qed.

Lemma confined_fetch (url : string) : changes (confined own chart) (fetch url).
Proof.
  intros w. unfold fetch.
  destruct (fetch_settles (length (network w)) url); apply confined_same_document; reflexivity.
Qed.

Lemma confined_read_usage_filters : changes (confined own chart) TypeUsageChart.read_filters.
Proof. intros w. reflexivity. Qed.

Lemma confined_read_cost_filters : changes (confined own chart) CostRatingChart.read_filters.
Proof. intros w. reflexivity. Qed.

Lemma confined_loadData : changes (confined own chart) loadData.
Proof. intros w. apply confined_same_document. apply loadData_effect. Qed.

End Confined.

Create HintDb confinement.

#[local] Hint Resolve confined_console confined_new_array confined_read_table
  confined_appendChild confined_appendChild_null confined_set_innerHTML
  confined_set_innerHTML_null confined_set_style confined_create_select
  confined_addEventListener confined_vegaEmbed confined_fetch confined_read_usage_filters
  confined_read_cost_filters confined_loadData : confinement.

(** Decomposes a program into its statements, following the element that
    [getElementById] answers with, and closes each with the lemmas above. *)
Ltac confine own chart :=
  repeat first
    [ solve [auto with confinement]
    | lazymatch goal with
      | |- changes _ (mbind _ (getElementById _)) =>
          apply confined_getElementById; cbv beta iota
      | |- changes _ (mbind _ (Map.L_map _)) => apply confined_L_map; cbv beta iota
      end
    | changes_step
        ltac:(first [exact (confined_preorder own chart) | exact (confined_console own chart)]) ].

Section Confinement.

Context `{Host}.

Lemma createMap_confined (data : loc) :
  changes (confined "map-viz" "map-viz") (createMap data).
Proof. unfold createMap, Map.circleMarker. confine "map-viz" "map-viz". Qed.

Lemma TrendChart_updateChart_confined (data : loc) (v : string) :
  changes (confined "trend-viz" "trend-viz") (TrendChart.updateChart data v).
Proof.
  intros w _ id N.
  destruct (updateChart_document data v w) as (_ & D & _). rewrite D.
  destruct (document w !! "trend-viz"); [|reflexivity]. now rewrite lookup_insert_ne.
Qed.

Lemma loadTrendChart_confined : changes (confined "trend-viz" "trend-viz") loadTrendChart.
Proof.
  unfold loadTrendChart.
  pose proof TrendChart_updateChart_confined. confine "trend-viz" "trend-viz".
Qed.

Lemma createHeatmap_confined : changes (confined "heatmap-viz" "heatmap-viz") createHeatmap.
Proof. unfold createHeatmap. confine "heatmap-viz" "heatmap-viz". Qed.

Lemma createCostRatingChart_confined (data : loc) :
  changes (confined "cost-rating-viz" "cost-rating-chart") (createCostRatingChart data).
Proof.
  unfold createCostRatingChart, CostRatingChart.updateChart, CostRatingChart.show_stats,
    CostRatingChart.stats, CostRatingChart.stat, CostRatingChart.reduce,
    CostRatingChart.d3_correlation.
  confine "cost-rating-viz" "cost-rating-chart".
Qed.

Lemma createTypeUsageChart_confined (data : loc) :
  changes (confined "type-usage-viz" "type-usage-chart") (createTypeUsageChart data).
Proof.
  unfold createTypeUsageChart, TypeUsageChart.updateChart, TypeUsageChart.show_stats,
    TypeUsageChart.stats, TypeUsageChart.stat.
  confine "type-usage-viz" "type-usage-chart".
Qed.

Lemma createBoxplotComparison_confined (data : loc) :
  changes (confined "boxplot-viz" "boxplot-chart") (createBoxplotComparison data).
Proof.
  unfold createBoxplotComparison, BoxplotComparison.updateChart,
    BoxplotComparison.show_stats, BoxplotComparison.stats, BoxplotComparison.stat.
  confine "boxplot-viz" "boxplot-chart".
Qed.

Lemma createOperatorAnalysis_confined (data : loc) :
  changes (confined "operator-viz" "operator-viz") (createOperatorAnalysis data).
Proof.
  unfold createOperatorAnalysis, OperatorAnalysis.show_stats, OperatorAnalysis.stats,
    OperatorAnalysis.stat.
  confine "operator-viz" "operator-viz".
Qed.

End Confinement.

(** X8. On a page where no element outside a chart function's container
    carries the id of the element the function draws in, the function changes
    nothing outside its own container, whether it succeeds or fails. *)
Theorem chart_function_confined `{Host} (data : loc) (w : world) (own chart : string)
  (create : M unit) :
  In (own, chart, create) (the_embeddings data) ->
  no_other own chart w ->
  forall id, id <> own -> document (create w).2 !! id = document w !! id.
Proof.
  intros I. cbn [the_embeddings In] in I.
  destruct I as [E|[E|[E|[E|[E|[E|[E|[]]]]]]]]; injection E as <- <- <-.
  - apply createMap_confined.
  - apply loadTrendChart_confined.
  - apply createHeatmap_confined.
  - apply createCostRatingChart_confined.
  - apply createTypeUsageChart_confined.
  - apply createBoxplotComparison_confined.
  - apply createOperatorAnalysis_confined.
Qed.

Section Changes_in_a_list.

Variable R : world -> world -> Prop.
Context `{!PreOrder R}.

Lemma changes_mapM_in {A B : Type} (f : A -> M B) (xs : list A) :
  Forall (fun x => changes R (f x)) xs -> changes R (mapM f xs).
Proof.
  induction 1 as [|x xs Hx _ IH]; cbn [mapM].
  - intros w. reflexivity.
  - intros w. rewrite bind_eq. specialize (Hx w).
    destruct (f x w) as [[y|e] w1]; cbn [snd] in *; [|exact Hx].
    rewrite bind_eq. specialize (IH w1).
    destruct (mapM f xs w1) as [[ys|e] w2]; cbn [snd] in *; etransitivity; eassumption.
Qed.

End Changes_in_a_list.

Section Listeners.

Context `{Host}.

Lemma listener_body_confined (l : listener) (value : string) :
  changes (confined (container_of (owner l)).1 (container_of (owner l)).2)
    (listener_body l value).
Proof.
  unfold listener_body. destruct (owner l); cbn [container_of fst snd].
  - apply TrendChart_updateChart_confined.
  - unfold TypeUsageChart.on_change, TypeUsageChart.updateChart, TypeUsageChart.show_stats,
      TypeUsageChart.stats, TypeUsageChart.stat.
    confine "type-usage-viz" "type-usage-chart".
  - unfold CostRatingChart.on_change, CostRatingChart.updateChart,
      CostRatingChart.show_stats, CostRatingChart.stats, CostRatingChart.stat,
      CostRatingChart.reduce, CostRatingChart.d3_correlation.
    confine "cost-rating-viz" "cost-rating-chart".
  - unfold BoxplotComparison.updateChart, BoxplotComparison.show_stats,
      BoxplotComparison.stats, BoxplotComparison.stat.
    confine "boxplot-viz" "boxplot-chart".
Qed.

Lemma call_confined (l : listener) (value : string) :
  changes (confined (container_of (owner l)).1 (container_of (owner l)).2) (call l value).
Proof.
  intros w. unfold call. pose proof (listener_body_confined l value w) as K.
  destruct (listener_body l value w) as [[u|e] w1]; cbn [snd] in *; [exact K|].
  intros C id N. cbn [document set_console]. now apply K.
Qed.

End Listeners.

Section SelectsKept.

Context `{Host}.

#[local] Instance selects_kept_preorder : PreOrder selects_kept.
Proof.
  split.
  - intros w. reflexivity.
  - intros a b c E1 E2. unfold selects_kept in *. congruence.
Qed.

Lemma selects_kept_console (w : world) (c : list entry) : selects_kept w (set_console w c).
Proof. reflexivity. Qed.

Lemma selects_kept_new_array (os : list object) : changes selects_kept (new_array os).
Proof. intros w. rewrite new_array_spec. reflexivity. Qed.

Lemma selects_kept_read_table (data : loc) : changes selects_kept (read_table data).
Proof. intros w. reflexivity. Qed.

Lemma selects_kept_appendChild (el : element) (n : node) :
  changes selects_kept (appendChild el n).
Proof. intros w. destruct el; reflexivity. Qed.

Lemma selects_kept_set_innerHTML (el : element) (ns : list node) :
  changes selects_kept (set_innerHTML el ns).
Proof. intros w. destruct el; reflexivity. Qed.

Lemma selects_kept_vegaEmbed (id : string) (spec : vega_spec) :
  changes selects_kept (vegaEmbed id spec).
Proof.
  intros w. unfold vegaEmbed.
  destruct (bool_decide (is_Some (document w !! id)) || has_chartContainer id (document w));
    [|reflexivity].
  destruct (vegaEmbed_rejects id); [reflexivity|].
  destruct (ingest_all (data_values (heap w) spec) (heap w, vega_ids w)). reflexivity.
Qed.

Lemma selects_kept_read_usage_filters : changes selects_kept TypeUsageChart.read_filters.
Proof. intros w. reflexivity. Qed.

Lemma selects_kept_read_cost_filters : changes selects_kept CostRatingChart.read_filters.
Proof. intros w. reflexivity. Qed.

Lemma selects_kept_array_filter (callback : Row -> bool) (data : loc) :
  changes selects_kept (TrendChart.array_filter callback data).
Proof. intros w. reflexivity. Qed.

Lemma selects_kept_remove_svg : changes selects_kept TrendChart.remove_svg.
Proof.
  intros w. unfold TrendChart.remove_svg. destruct (document w !! "trend-viz"); reflexivity.
Qed.

Lemma selects_kept_append_svg (s : node) : changes selects_kept (TrendChart.append_svg s).
Proof.
  intros w. unfold TrendChart.append_svg. destruct (document w !! "trend-viz"); reflexivity.
Qed.

End SelectsKept.

Create HintDb chosen.

#[local] Hint Resolve selects_kept_console selects_kept_new_array selects_kept_read_table
  selects_kept_appendChild selects_kept_set_innerHTML selects_kept_vegaEmbed
  selects_kept_read_usage_filters selects_kept_read_cost_filters selects_kept_array_filter
  selects_kept_remove_svg selects_kept_append_svg : chosen.

Ltac keeps_selects :=
  repeat first
    [ solve [auto with chosen]
    | changes_step ltac:(first [exact selects_kept_preorder | exact selects_kept_console]) ].

Lemma listener_body_keeps_selects `{Host} (l : listener) (value : string) :
  changes selects_kept (listener_body l value).
Proof.
  unfold listener_body, TrendChart.updateChart, TypeUsageChart.on_change, TypeUsageChart.updateChart,
    TypeUsageChart.show_stats, TypeUsageChart.stats, TypeUsageChart.stat,
    CostRatingChart.on_change, CostRatingChart.updateChart, CostRatingChart.show_stats,
    CostRatingChart.stats, CostRatingChart.stat, CostRatingChart.reduce,
    CostRatingChart.d3_correlation, BoxplotComparison.updateChart,
    BoxplotComparison.show_stats, BoxplotComparison.stats, BoxplotComparison.stat.
  keeps_selects.
Qed.

Lemma call_keeps_selects `{Host} (l : listener) (value : string) :
  changes selects_kept (call l value).
Proof.
  intros w. unfold call. pose proof (listener_body_keeps_selects l value w) as K.
  destruct (listener_body l value w) as [[u|e] w1]; exact K.
Qed.

(** X9. A filter change, on a page where the listeners of the select are
    those of one chart: the select holds the value chosen, the other selects
    hold what they held, and nothing changes outside the container of that
    chart. *)
Theorem filter_change_confined `{Host} (name value : string) (c : chart)
  (w : world) :
  (forall l, In l (listeners w) -> target l = name -> owner l = c) ->
  no_other (container_of c).1 (container_of c).2 w ->
  selects (change name value w).2 = <[name := value]> (selects w)
  /\ forall id, id <> (container_of c).1 ->
       document (change name value w).2 !! id = document w !! id.
Proof.
  intros L C. unfold change.
  set (w1 := set_selects w (<[name:=value]> (selects w))).
  set (calls := mapM (fun l => if (target l =? name)%string then call l value else mret tt)
                  (listeners w)).
  assert (K : changes (confined (container_of c).1 (container_of c).2) calls).
  { apply changes_mapM_in; [apply confined_preorder|].
    apply List.Forall_forall. intros l I.
    destruct (String.eqb_spec (target l) name) as [T|T].
    - rewrite <- (L l I T). apply call_confined.
    - intros w0 _ id _. reflexivity. }
  assert (S : changes selects_kept calls).
  { apply changes_mapM_in; [apply selects_kept_preorder|].
    apply List.Forall_forall. intros l I.
    destruct (target l =? name)%string; [apply call_keeps_selects|intros w0; reflexivity]. }
  specialize (K w1). specialize (S w1). rewrite bind_eq.
  destruct (calls w1) as [[u|e] w2]; cbn [snd] in *; (split; [exact S|now apply K]).
Qed.

Lemma no_other_b_spec (own chart : string) (w : world) :
  no_other_b own chart w = true -> no_other own chart w.
Proof.
  unfold no_other_b. intros B. apply andb_prop in B. destruct B as (B1 & B2).
  apply bool_decide_eq_true in B2. split.
  - intros N. apply orb_prop in B1. destruct B1 as [B1|B1].
    + apply String.eqb_eq in B1. contradiction.
    + now apply bool_decide_eq_true in B1.
  - intros id ns N E. destruct (B2 id ns E) as [->|X]; [contradiction|exact X].
Qed.

Lemma chart_function_confined_witness :
  let w := (@loadData example_host complete_page).2 in
  document (@createTypeUsageChart example_host 3 w).2 !! "boxplot-viz"
  = document w !! "boxplot-viz".
Proof.
  intros w.
  apply (@chart_function_confined example_host 3 w "type-usage-viz" "type-usage-chart").
  - cbn [the_embeddings In]. do 4 right. left. reflexivity.
  - apply no_other_b_spec. vm_compute. reflexivity.
  - discriminate.
Defined.

Lemma filter_change_confined_witness :
  selects (@change example_host "type-usage-viz/costFilter" "low" loaded_page).2
  = <["type-usage-viz/costFilter" := "low"]> (selects loaded_page).
Proof.
  assert (B : forallb
                (fun l => negb (target l =? "type-usage-viz/costFilter")%string
                          || match owner l with TypeUsage => true | _ => false end)
                (listeners loaded_page) = true) by (vm_compute; reflexivity).
  refine (proj1 (@filter_change_confined example_host "type-usage-viz/costFilter" "low"
                   TypeUsage loaded_page _ _)).
  - intros l I T. rewrite forallb_forall in B. specialize (B l I).
    rewrite T, String.eqb_refl in B. cbn [negb orb] in B.
    destruct (owner l); first [reflexivity|discriminate B].
  - apply no_other_b_spec. vm_compute. reflexivity.
Defined.

(** ** The statistics of the usage chart *)

(** A list of statements none of which throws or changes the page. *)
Lemma mapM_pure {A B : Type} (f : A -> M B) (P : A -> B -> Prop) (xs : list A) :
  Forall (fun x => exists y, P x y /\ forall w, f x w = (Returned y, w)) xs ->
  exists ys, Forall2 P xs ys /\ forall w, mapM f xs w = (Returned ys, w).
Proof.
  induction 1 as [|x xs (y & Py & Fy) _ (ys & Pys & Fys)].
  - exists []. split; [constructor|reflexivity].
  - exists (y :: ys). split; [now constructor|].
    intros w. cbn [mapM]. rewrite bind_eq, Fy, bind_eq, Fys. reflexivity.
Qed.

(** X10. The statistics of the usage chart, where D3's mean and median are
    defined on every list that has a number and the records plotted have a
    usage that is a number: the callback does not throw and leaves the page as
    it is; it gives one line for each charger type among the records, no type
    twice, with the mean and the median of the usage of the records of that
    type and their count as sample size; the sample sizes are positive and
    add up to the number of records plotted. *)
Theorem usage_statistics_lines `{Host} (processedData : list TypeUsageChart.datum)
  (w : world) :
  (forall v,
      v <> [] -> Forall (fun x => PrimFloat.is_nan x = false) v ->
      is_Some (mean v) /\ is_Some (median v)) ->
  Forall (fun d => PrimFloat.is_nan (TypeUsageChart.usage d) = false) processedData ->
  exists lines,
    TypeUsageChart.stats processedData w = (Returned lines, w)
    /\ List.NoDup (map keys lines)
    /\ Forall
         (fun line =>
            exists t,
              let v := of_key TypeUsageChart.charger_type t processedData in
              keys line = [t]
              /\ sample_size line = length v
              /\ (0 < sample_size line)%nat
              /\ map Some (map snd (aggregates line))
                 = [ mean (map TypeUsageChart.usage v);
                     median (map TypeUsageChart.usage v) ])
         lines
    /\ (forall d, In d processedData -> In [TypeUsageChart.charger_type d] (map keys lines))
    /\ list_sum (map sample_size lines) = length processedData.
Proof.
  intros D3 Numbers.
  set (groups := group TypeUsageChart.charger_type processedData).
  set (P := fun (g : field * list TypeUsageChart.datum) (line : stats_line) =>
              keys line = [g.1] /\ sample_size line = length g.2
              /\ map Some (map snd (aggregates line))
                 = [ mean (map TypeUsageChart.usage g.2);
                     median (map TypeUsageChart.usage g.2) ]).
  pose proof (groups_are_classes TypeUsageChart.charger_type processedData) as Classes.
  fold groups in Classes.
  assert (Each : Forall (fun g => exists line, P g line
                                  /\ forall w, TypeUsageChart.stat g.1 g.2 w = (Returned line, w))
                   groups).
  { eapply List.Forall_impl; [|exact Classes]. intros [t v] (E & NE). cbn [fst snd] in *.
    assert (Nv : Forall (fun x => PrimFloat.is_nan x = false) (map TypeUsageChart.usage v)).
    { apply List.Forall_forall. intros x Ix. apply in_map_iff in Ix.
      destruct Ix as (d & <- & Id). rewrite E in Id. apply filter_In in Id.
      rewrite List.Forall_forall in Numbers. apply Numbers, Id. }
    assert (NEv : map TypeUsageChart.usage v <> []) by (destruct v; [congruence|discriminate]).
    destruct (D3 _ NEv Nv) as ((m & Em) & (md & Emd)).
    eexists. split; [|intros w0; unfold TypeUsageChart.stat; rewrite Em, Emd; reflexivity].
    unfold P. cbn [keys sample_size aggregates fst snd map]. rewrite Em, Emd. auto. }
  destruct (mapM_pure _ P groups Each) as (lines & F2 & Run).
  exists lines. split; [apply Run|].
  destruct (keys_of_group TypeUsageChart.charger_type processedData) as (N & K).
  fold groups in N, K. apply NoDup_ListNoDup in N.
  assert (Keys : map keys lines = map (fun g => [g.1]) groups).
  { clear -F2. induction F2 as [|g line gs ls (E & _) _ IH]; [reflexivity|].
    cbn [map]. now rewrite E, IH. }
  assert (Sizes : map sample_size lines = map (fun g => length g.2) groups).
  { clear -F2. induction F2 as [|g line gs ls (_ & E & _) _ IH]; [reflexivity|].
    cbn [map]. now rewrite E, IH. }
  split; [|split; [|split]].
  - rewrite Keys. rewrite <- (map_map fst (fun k => [k])).
    apply Finite.Injective_map_NoDup; [|exact N]. intros a b E. now injection E.
  - clear -F2 Classes. induction F2 as [|[t v] line gs ls (E1 & E2 & E3) _ IH];
      [constructor|].
    inversion Classes as [|? ? (C & NE) Classes']; subst. cbn [fst snd] in *.
    constructor; [|now apply IH].
    exists t. cbv zeta. rewrite <- C. repeat split; try assumption.
    rewrite E2. destruct v; [congruence|cbn; lia].
  - intros d I. rewrite Keys. apply in_map_iff.
    assert (Ik : In (TypeUsageChart.charger_type d) (map fst groups)) by (apply K; eauto).
    apply in_map_iff in Ik. destruct Ik as (g & E & Ig). exists g. now rewrite E.
  - rewrite Sizes. apply group_total.
Qed.

Lemma ascending_insert_length (x : number) (a : list number) :
  length (BoxplotComparison.ascending_insert x a) = S (length a).
Proof.
  induction a as [|y a IH]; [reflexivity|]. cbn [BoxplotComparison.ascending_insert].
  destruct (x <= y)%js; cbn [length]; [reflexivity|now rewrite IH].
Qed.

Lemma sort_ascending_length (a : list number) :
  length (BoxplotComparison.sort_ascending a) = length a.
Proof.
  induction a as [|x a IH]; [reflexivity|]. unfold BoxplotComparison.sort_ascending in *.
  cbn [fold_right length]. now rewrite ascending_insert_length, IH.
Qed.

Lemma numbers_pass (v : list number) :
  Forall (fun x => PrimFloat.is_nan x = false) v ->
  List.filter (fun x => negb (PrimFloat.is_nan x)) v = v.
Proof.
  induction 1 as [|x v N _ IH]; [reflexivity|]. cbn [List.filter]. now rewrite N, IH.
Qed.

(** The statistics of the examples are defined on the numbers of a list that has some. *)
Lemma example_statistics_defined (v : list number) :
  v <> [] -> Forall (fun x => PrimFloat.is_nan x = false) v ->
  is_Some (Examples.mean v) /\ is_Some (Examples.median v).
Proof.
  intros NE N. split.
  - unfold Examples.mean. rewrite (numbers_pass v N). destruct v; [congruence|eauto].
  - unfold Examples.median, Examples.quantile. rewrite (numbers_pass v N).
    pose proof (sort_ascending_length v) as L.
    destruct (BoxplotComparison.sort_ascending v) as [|s sorted]; [destruct v; [congruence|discriminate]|].
    change (PrimFloat.is_nan 0.5) with false.
    change ((0.5 <= 0)%js) with false.
    change ((0.5 >= 1)%js) with false.
    cbn [length Nat.eqb orb]. destruct (_ <? 2)%nat; cbn [head]; eauto.
Qed.

Lemma usage_statistics_witness :
  let processedData :=
    @TypeUsageChart.processData example_host (TypeUsageChart.chosen (selects loaded_page))
      (Examples.csvParse Examples.stations_csv) in
  map TypeUsageChart.charger_type processedData = [ Some "L1"; Some "DC"; Some "L2" ]
  /\ exists lines,
       @TypeUsageChart.stats example_host processedData loaded_page
       = (Returned lines, loaded_page)
       /\ length lines = 3
       /\ list_sum (map sample_size lines) = 3.
Proof.
  intros processedData.
  assert (Three : map TypeUsageChart.charger_type processedData
                  = [ Some "L1"; Some "DC"; Some "L2" ]) by (vm_compute; reflexivity).
  split; [exact Three|].
  destruct (@usage_statistics_lines example_host processedData loaded_page
              example_statistics_defined) as (lines & R & N & _ & K & T).
  - eapply Forall_weaken; [|apply Forall_filter_kept].
    intros d. unfold TypeUsageChart.kept, TypeUsageChart.unusable.
    destruct (PrimFloat.is_nan (TypeUsageChart.usage d)); [discriminate|reflexivity].
  - exists lines. split; [exact R|]. split.
    + assert (E : (@TypeUsageChart.stats example_host processedData loaded_page).1
                  = Returned lines) by (rewrite R; reflexivity).
      assert (C : match (@TypeUsageChart.stats example_host processedData loaded_page).1 with
                  | Returned ls => length ls
                  | Thrown _ => 0
                  end = 3) by (vm_compute; reflexivity).
      rewrite E in C. exact C.
    + rewrite T, <- (length_map TypeUsageChart.charger_type), Three. reflexivity.
Defined.

(** ** What [loadData] writes to the console *)

(** Splits what the console holds into what was logged and the error reported. *)
Ltac logged_so_far w :=
  rewrite <- ?app_assoc; cbn [app];
  lazymatch goal with
  | |- context [@eq (list entry) (console w ++ ?l)] =>
      first
        [ exists (removelast l); cbn [removelast]; split; [repeat constructor|reflexivity]
        | exists l; split; [repeat constructor|now rewrite app_nil_r] ]
  end.

(** X11. [loadData] reports an error exactly when it throws one, and then
    reports the error it throws, once, as the last thing it writes to the
    console; everything else it writes is logged with [console.log]. *)
Theorem loadData_reports_what_it_throws `{Host} (w : world) :
  exists logs,
    Forall (fun e => is_log e = true) logs
    /\ console (loadData w).2
       = console w ++ logs
         ++ match (loadData w).1 with
            | Thrown e => [error_logged "Error loading data:" e]
            | Returned _ => []
            end.
Proof.
  unfold loadData. run.
  destruct (fetch_settles (length (network w)) csv_url) as [r|e0]; run;
    [|logged_so_far w].
  destruct (ok r); cbn [negb]; run; [|logged_so_far w].
  destruct (text r) as [t|e0]; run; [|logged_so_far w].
  rewrite new_array_spec. run.
  destruct (csvParse t) as [|d ds]; cbn [head]; run; [logged_so_far w|].
  destruct (0 <? length (List.filter (fun field => negb (includes (Object_keys d) field))
                           requiredFields))%nat; run; [logged_so_far w|].
  destruct (0 <? length (List.filter invalid (d :: ds)))%nat; run;
    rewrite ?app_nil_r; logged_so_far w.
Qed.

(** ** Selects with two answers *)

(** Two filters that share out what a third keeps. *)
Lemma two_filters_share_out {A : Type} (p q all : A -> bool) (l : list A) :
  (forall x, p x || q x = all x /\ p x && q x = false) ->
  Permutation (List.filter p l ++ List.filter q l) (List.filter all l).
Proof.
  intros S.
  rewrite <- (app_nil_r (List.filter q l)).
  change (@nil A) with (List.filter (fun _ : A => false) []).
  replace (List.filter (fun _ : A => false) []) with (List.filter (fun _ : A => false) l)
    by (clear; induction l; [reflexivity|assumption]).
  apply filters_share_out. apply List.Forall_forall. intros x _.
  destruct (S x) as (U & D). rewrite orb_false_r, !andb_false_r. auto.
Qed.

(** X12. The selects with two answers share out what ['all'] keeps, whatever
    the other selects hold: in the usage chart ['high'] and ['standard'] power,
    and ['yes'] and ['no'] for renewable energy; in the cost-and-rating chart
    ['24h'] and ['limited'] availability.  No record is kept under both
    answers and none kept under ['all'] is lost. *)
Theorem yes_or_no_selects_share_out `{Host} (data : list Row) :
  (forall f,
      Permutation
        (TypeUsageChart.processData (with_power f "high") data
         ++ TypeUsageChart.processData (with_power f "standard") data)
        (TypeUsageChart.processData (with_power f "all") data))
  /\ (forall f,
        Permutation
          (TypeUsageChart.processData (with_renewable f "yes") data
           ++ TypeUsageChart.processData (with_renewable f "no") data)
          (TypeUsageChart.processData (with_renewable f "all") data))
  /\ (forall f,
        Permutation
          (CostRatingChart.processData (with_availability f "24h") data
           ++ CostRatingChart.processData (with_availability f "limited") data)
          (CostRatingChart.processData (with_availability f "all") data)).
Proof.
  split; [|split]; intros f.
  - unfold TypeUsageChart.processData. apply two_filters_share_out. intros d.
    unfold TypeUsageChart.kept.
    change (TypeUsageChart.wrong_type (with_power f ?p) d) with (TypeUsageChart.wrong_type f d).
    change (TypeUsageChart.wrong_cost (with_power f ?p) d) with (TypeUsageChart.wrong_cost f d).
    change (TypeUsageChart.wrong_renewable (with_power f ?p) d)
      with (TypeUsageChart.wrong_renewable f d).
    change (TypeUsageChart.in_range (with_power f ?p) d) with (TypeUsageChart.in_range f d).
    change (TypeUsageChart.wrong_power (with_power f "all") d) with false.
    change (TypeUsageChart.wrong_power (with_power f "high") d)
      with (if negb (TypeUsageChart.is_high_power d) then true else false).
    change (TypeUsageChart.wrong_power (with_power f "standard") d)
      with (if TypeUsageChart.is_high_power d then true else false).
    destruct (TypeUsageChart.unusable d), (TypeUsageChart.wrong_type f d),
      (TypeUsageChart.is_high_power d), (TypeUsageChart.wrong_cost f d),
      (TypeUsageChart.wrong_renewable f d), (TypeUsageChart.in_range f d); split; reflexivity.
  - unfold TypeUsageChart.processData. apply two_filters_share_out. intros d.
    unfold TypeUsageChart.kept.
    change (TypeUsageChart.wrong_type (with_renewable f ?p) d)
      with (TypeUsageChart.wrong_type f d).
    change (TypeUsageChart.wrong_cost (with_renewable f ?p) d)
      with (TypeUsageChart.wrong_cost f d).
    change (TypeUsageChart.wrong_power (with_renewable f ?p) d)
      with (TypeUsageChart.wrong_power f d).
    change (TypeUsageChart.in_range (with_renewable f ?p) d)
      with (TypeUsageChart.in_range f d).
    change (TypeUsageChart.wrong_renewable (with_renewable f "all") d) with false.
    change (TypeUsageChart.wrong_renewable (with_renewable f "yes") d)
      with (if TypeUsageChart.renewable d !== "Yes" then true else false).
    change (TypeUsageChart.wrong_renewable (with_renewable f "no") d)
      with (if TypeUsageChart.renewable d === "Yes" then true else false).
    unfold "!==". 
    destruct (TypeUsageChart.unusable d), (TypeUsageChart.wrong_type f d),
      (TypeUsageChart.wrong_power f d), (TypeUsageChart.wrong_cost f d),
      (TypeUsageChart.renewable d === "Yes"), (TypeUsageChart.in_range f d);
      split; reflexivity.
  - unfold CostRatingChart.processData. apply two_filters_share_out. intros d.
    unfold CostRatingChart.kept, CostRatingChart.not_24h, CostRatingChart.not_limited.
    change (CostRatingChart.wrong_type (with_availability f ?p) d)
      with (CostRatingChart.wrong_type f d).
    cbn [CostRatingChart.selectedAvailability with_availability].
    change ("24h" === "24h") with true. change ("24h" === "limited") with false.
    change ("limited" === "24h") with false. change ("limited" === "limited") with true.
    change ("all" === "24h") with false. change ("all" === "limited") with false.
    destruct (CostRatingChart.unusable d), (CostRatingChart.wrong_type f d),
      (CostRatingChart.is24Hours d); split; reflexivity.
Qed.

(** ** Markers, and the map of the first version *)

(** X13. The icon of a cluster is a square whose side never shrinks when the
    cluster grows: 40 up to 50 markers, 50 from 51 to 100, 60 beyond, and no
    other side; the icon shows the number of markers. *)
Theorem cluster_icon_grows_with_the_cluster (m n : nat) :
  let side count := fst (Markers.iconSize (Markers.iconCreateFunction count)) in
  (m <= n)%nat ->
  (side m <= side n)%nat
  /\ Markers.iconSize (Markers.iconCreateFunction n) = (side n, side n)
  /\ Markers.shown_count (Markers.iconCreateFunction n) = n
  /\ (side n = 40 \/ side n = 50 \/ side n = 60)
  /\ (side n = 40 <-> n <= 50)%nat
  /\ (side n = 50 <-> 50 < n <= 100)%nat
  /\ (side n = 60 <-> 100 < n)%nat.
Proof.
  intros side L. subst side.
  cbn [Markers.iconCreateFunction Markers.iconSize Markers.shown_count fst].
  unfold Markers.size.
  destruct (Nat.ltb_spec 100 m), (Nat.ltb_spec 50 m), (Nat.ltb_spec 100 n), (Nat.ltb_spec 50 n);
    repeat split; intros; try reflexivity; try lia; auto.
Qed.

Lemma cluster_icon_witness :
  (50 <= 51)%nat
  /\ (fst (Markers.iconSize (Markers.iconCreateFunction 50))
      <= fst (Markers.iconSize (Markers.iconCreateFunction 51)))%nat
  /\ fst (Markers.iconSize (Markers.iconCreateFunction 51)) = 50.
Proof.
  assert (L : (50 <= 51)%nat) by lia.
  assert (B : (50 < 51 <= 100)%nat) by lia.
  split; [exact L|]. split.
  - exact (proj1 (cluster_icon_grows_with_the_cluster 50 51 L)).
  - exact (proj2 (proj1 (proj2 (proj2 (proj2 (proj2 (proj2
             (cluster_icon_grows_with_the_cluster 50 51 L))))))) B).
Defined.

(** X14. The popup of a marker, the trend chart, the usage chart and the
    cost-and-rating chart agree on which stations are open ['24/7'], and the
    popup and the usage chart on which are high power: a station is so exactly
    when the field is the text ['True']. *)
Theorem hours_and_power_agree `{Host} (d : Row) :
  Markers.hours d = TypeUsageChart.hours (TypeUsageChart.mapped d)
  /\ (Markers.hours d = "24/7" <-> TrendChart.available "24/7" d = true)
  /\ (Markers.hours d = "24/7"
      <-> CostRatingChart.is24Hours (CostRatingChart.mapped d) = true)
  /\ (Markers.power d = "High Power"
      <-> TypeUsageChart.is_high_power (TypeUsageChart.mapped d) = true).
Proof.
  unfold Markers.hours, Markers.power, TrendChart.available.
  cbn [TypeUsageChart.hours TypeUsageChart.mapped TypeUsageChart.is_high_power
         CostRatingChart.is24Hours CostRatingChart.mapped].
  change ("24/7" === "all") with false. change ("24/7" === "24/7") with true.
  cbv iota.
  destruct (get d "Is24Hours" === "True"), (get d "IsHighPower" === "True");
    repeat split; intros; try reflexivity; try discriminate; try congruence.
Qed.

(** X15. The map of the first version.  Whatever the type selected, ['24h']
    and ['limited'] share out what ['all'] keeps, and the tooltip of every
    station kept under ['24h'] says ['24/7'].  A station counts as open 24
    hours when its field is not empty: on a table where every record has a
    text in that field, ['True'] or ['False'] alike, ['24h'] keeps what
    ['all'] keeps and ['limited'] keeps nothing. *)
Theorem first_map_availability (selectedType : string) (data : list Row) :
  Permutation
    (WorldMap.filterData selectedType "24h" data
     ++ WorldMap.filterData selectedType "limited" data)
    (WorldMap.filterData selectedType "all" data)
  /\ Forall (fun d => WorldMap.hours d = "24/7")
       (WorldMap.filterData selectedType "24h" data)
  /\ (Forall (fun d => exists s, get d "Is24Hours" = Some s /\ s <> "") data ->
      WorldMap.filterData selectedType "24h" data = WorldMap.filterData selectedType "all" data
      /\ WorldMap.filterData selectedType "limited" data = []).
Proof.
  assert (A : forall d,
             WorldMap.availabilityMatch "all" d = true
             /\ WorldMap.availabilityMatch "24h" d
                = truthy (of_field (get d "Is24Hours"))
             /\ WorldMap.availabilityMatch "limited" d
                = negb (truthy (of_field (get d "Is24Hours")))).
  { intros d. unfold WorldMap.availabilityMatch.
    change ("all" === "all") with true. change ("24h" === "all") with false.
    change ("24h" === "24h") with true. change ("24h" === "limited") with false.
    change ("limited" === "all") with false. change ("limited" === "24h") with false.
    change ("limited" === "limited") with true.
    destruct (truthy (of_field (get d "Is24Hours"))); repeat split; reflexivity. }
  split; [|split].
  - unfold WorldMap.filterData. apply two_filters_share_out. intros d.
    destruct (A d) as (-> & -> & ->).
    destruct (WorldMap.typeMatch selectedType d), (truthy (of_field (get d "Is24Hours")));
      split; reflexivity.
  - apply List.Forall_forall. intros d I. apply filter_In in I. destruct I as (_ & K).
    destruct (A d) as (_ & E & _). rewrite E in K. apply andb_prop in K.
    unfold WorldMap.hours. now rewrite (proj2 K).
  - intros N. unfold WorldMap.filterData. split.
    + apply filter_ext_in. intros d I. rewrite List.Forall_forall in N.
      destruct (N d I) as (s & E & NE). destruct (A d) as (-> & -> & _).
      rewrite E. cbn [of_field truthy]. apply String.eqb_neq in NE. now rewrite NE.
    + induction N as [|d ds (s & E & NE) _ IH]; [reflexivity|].
      cbn [List.filter]. destruct (A d) as (_ & _ & ->).
      rewrite E. cbn [of_field truthy]. apply String.eqb_neq in NE. rewrite NE.
      cbn [negb]. rewrite andb_false_r. exact IH.
Qed.

Lemma first_map_witness :
  let data := Examples.csvParse Examples.stations_csv in
  Forall (fun d => exists s, get d "Is24Hours" = Some s /\ s <> "") data
  /\ WorldMap.filterData "all" "limited" data = [].
Proof.
  assert (B : forallb
                (fun d => match get d "Is24Hours" with
                          | Some s => negb (s =? "")%string
                          | None => false
                          end)
                (Examples.csvParse Examples.stations_csv) = true) by (vm_compute; reflexivity).
  assert (N : Forall (fun d => exists s, get d "Is24Hours" = Some s /\ s <> "")
                (Examples.csvParse Examples.stations_csv)).
  { apply List.Forall_forall. intros d I. rewrite forallb_forall in B. specialize (B d I).
    destruct (get d "Is24Hours") as [s|]; [|discriminate]. exists s. split; [reflexivity|].
    apply String.eqb_neq. now apply negb_true_iff in B. }
  split; [exact N|].
  exact (proj2 (proj2 (proj2 (first_map_availability "all"
                                (Examples.csvParse Examples.stations_csv))) N)).
Defined.

(** ** Selecting dots *)

Section LegendAndDots.

Import Legend.

Lemma deselect_all (ds : list dot) : List.filter selected_dot (map deselect ds) = [].
Proof.
  induction ds as [|d ds IH]; [reflexivity|]. cbn [map List.filter].
  unfold deselect at 1. destruct (selected_dot d) eqn:S; cbn [selected_dot]; rewrite ?S; exact IH.
Qed.

Lemma deselect_radius (ds : list dot) :
  Forall (fun d => selected_dot d = true -> r d = 8) (map deselect ds).
Proof.
  apply List.Forall_forall. intros d I. apply in_map_iff in I. destruct I as (d0 & <- & _).
  unfold deselect. destruct (selected_dot d0) eqn:S; cbn [selected_dot]; congruence.
Qed.

Lemma filter_insert_length {A : Type} (p : A -> bool) (i : nat) (x : A) (l : list A) :
  (length (List.filter p (<[i := x]> l)) <= S (length (List.filter p l)))%nat.
Proof.
  revert i. induction l as [|y l IH]; intros i; [simpl; lia|].
  destruct i as [|i]; simpl.
  - destruct (p x), (p y); cbn [length]; lia.
  - specialize (IH i). destruct (p y); cbn [length]; lia.
Qed.

Lemma filter_insert_same {A : Type} (p : A -> bool) (i : nat) (x y : A) (l : list A) :
  l !! i = Some y -> p x = p y ->
  length (List.filter p (<[i := x]> l)) = length (List.filter p l).
Proof.
  revert i. induction l as [|z l IH]; intros i L E; [discriminate|].
  destruct i as [|i]; simpl.
  - injection L as ->. rewrite E. destruct (p y); reflexivity.
  - specialize (IH i L E). destruct (p z); simpl; now rewrite IH.
Qed.

Lemma Forall_insert_one {A : Type} (P : A -> Prop) (i : nat) (x : A) (l : list A) :
  Forall P l -> P x -> Forall P (<[i := x]> l).
Proof.
  intros F Px. revert i. induction F as [|y l Py F IH]; intros i; [constructor|].
  destruct i; simpl; constructor; auto.
Qed.

Lemma handle_well_selected (st : state) (e : event) :
  well_selected st -> well_selected (handle st e).
Proof.
  intros (One & Large). unfold well_selected, selected in *.
  destruct e as [t|i|i|i|]; cbn [handle].
  - destruct (includes TrendChart.types t); [|now split].
    unfold click_svg. cbn [dots]. split; [rewrite deselect_all; cbn; lia|apply deselect_radius].
  - destruct (takes_events st i); [|now split]. unfold mouseover.
    destruct (dots st !! i) as [d|] eqn:D; [|now split].
    destruct (visible st (of_type d)); [|now split]. cbn [dots]. split.
    + now rewrite (filter_insert_same selected_dot i (with_r d 8) d _ D eq_refl).
    + apply Forall_insert_one; [exact Large|reflexivity].
  - destruct (takes_events st i); [|now split]. unfold mouseout.
    destruct (dots st !! i) as [d|] eqn:D; [|now split].
    destruct (visible st (of_type d) && negb (selected_dot d)) eqn:G; [|now split].
    cbn [dots]. split.
    + now rewrite (filter_insert_same selected_dot i (with_r d 4) d _ D eq_refl).
    + apply Forall_insert_one; [exact Large|]. cbn [with_r selected_dot r].
      apply andb_prop in G. destruct G as (_ & G). apply negb_true_iff in G. congruence.
  - destruct (takes_events st i); [|now split]. unfold click.
    destruct (dots st !! i) as [d|] eqn:D; [|now split].
    destruct (negb (selected_dot d)); cbn [dots].
    + split.
      * etransitivity; [apply filter_insert_length|]. now rewrite deselect_all.
      * apply Forall_insert_one; [apply deselect_radius|reflexivity].
    + split; [now rewrite deselect_all; cbn; lia|apply deselect_radius].
  - unfold click_svg. cbn [dots]. split; [rewrite deselect_all; cbn; lia|apply deselect_radius].
Qed.

Lemma filter_insert_only {A : Type} (p : A -> bool) (i : nat) (x : A) (l : list A) :
  List.filter p l = [] -> (i < length l)%nat -> p x = true ->
  List.filter p (<[i := x]> l) = [x].
Proof.
  revert i. induction l as [|y l IH]; intros i E L Px; [simpl in L; lia|].
  cbn [List.filter] in E. destruct (p y) eqn:Py; [discriminate|].
  destruct i as [|i]; simpl.
  - now rewrite Px, E.
  - rewrite Py. apply IH; [exact E|simpl in L; lia|exact Px].
Qed.

(** X16. The trend chart of the earlier version, after any sequence of
    clicks and mouse moves on its legend, its dots and its background: at most
    one dot is selected, and a selected dot has radius 8.  A click on the
    background leaves no dot selected and hides the tooltip, and so does a
    click on a legend item, which the background receives as well.  A click on
    a dot that takes pointer events selects it alone and shows the tooltip
    when it was not selected, and leaves no dot selected and hides the tooltip
    when it was. *)
Theorem one_dot_selected_at_most (points : list trend_point) (events : list event) :
  let st := fold_left handle events (drawn points) in
  well_selected st
  /\ selected (handle st ChartClick) = []
  /\ tooltip_visible (handle st ChartClick) = false
  /\ (forall t,
        In t TrendChart.types ->
        selected (handle st (LegendClick t)) = []
        /\ tooltip_visible (handle st (LegendClick t)) = false)
  /\ (forall i d,
        dots st !! i = Some d -> pointer_events d = true ->
        let st' := handle st (DotClick i) in
        selected st'
        = (if selected_dot d then []
           else [ {| of_type := of_type d; selected_dot := true; r := 8;
                     pointer_events := true |} ])
        /\ tooltip_visible st' = negb (selected_dot d)).
Proof.
  intros st. split; [|split; [|split; [|split]]].
  - subst st.
    assert (W : well_selected (drawn points)).
    { split.
      - unfold selected, drawn. cbn [dots]. induction points; [simpl; lia|exact IHpoints].
      - apply List.Forall_forall. intros d I. apply in_map_iff in I.
        destruct I as (p & <- & _). discriminate. }
    revert W. generalize (drawn points). induction events as [|e events IH]; intros s W;
      [exact W|]. cbn [fold_left]. apply IH, handle_well_selected, W.
  - unfold selected. cbn [handle click_svg dots]. apply deselect_all.
  - reflexivity.
  - intros t I. apply includes_In in I. cbn [handle]. rewrite I. split; [|reflexivity].
    unfold selected. cbn [click_svg dots]. apply deselect_all.
  - intros i d D P st'. subst st'. cbn [handle]. unfold takes_events. rewrite D, P.
    unfold click, selected. rewrite D. cbv zeta.
    destruct (selected_dot d); cbn [negb dots tooltip_visible].
    + split; [apply deselect_all|reflexivity].
    + split; [|reflexivity]. rewrite P. apply filter_insert_only.
      * apply deselect_all.
      * rewrite length_map. now apply lookup_lt_Some in D.
      * reflexivity.
Qed.

End LegendAndDots.

Lemma one_dot_witness :
  let points := [ {| year := 2015%float; type := "L1"; count := 1 |} ] in
  Legend.selected
    (Legend.handle (fold_left Legend.handle [ Legend.DotClick 0 ] (Legend.drawn points))
       (Legend.DotClick 0))
  = [].
Proof.
  exact (proj1 (proj2 (proj2 (proj2 (proj2
           (one_dot_selected_at_most
              [ {| year := 2015%float; type := "L1"; count := 1 |} ] [ Legend.DotClick 0 ]))))
           0 _ eq_refl eq_refl)).
Defined.

(** ** The statistics of the cost-and-rating chart *)

Lemma group_of_some {A : Type} (key : A -> field) (values : list A) :
  values <> [] -> group key values <> [].
Proof.
  intros NE E. pose proof (group_total key values) as T. rewrite E in T.
  destruct values; [congruence|discriminate].
Qed.

Lemma stats_need_correlation `{Host} (processedData : list CostRatingChart.datum) (w : world) :
  correlation = None ->
  processedData <> [] ->
  CostRatingChart.stats processedData w
  = (Thrown (TypeError "d3.correlation is not a function"), w).
Proof.
  intros C NE. unfold CostRatingChart.stats. rewrite bind_eq.
  pose proof (group_of_some CostRatingChart.charger_type processedData NE) as G.
  destruct (group CostRatingChart.charger_type processedData) as [|[t v] gs]; [congruence|].
  cbn [mapM]. rewrite bind_eq. cbn [fst snd]. rewrite bind_eq.
  unfold CostRatingChart.reduce. rewrite bind_eq.
  unfold CostRatingChart.d3_correlation. rewrite C. reflexivity.
Qed.

(** X17. Where the [d3] of the page has no [correlation], as version 7 has
    none, the cost-and-rating chart never shows its statistics.  The callback
    throws, before it writes anything, for every selection that keeps a record.
    [updateChart] returns all the same, whatever the selection, and the page
    shows no aggregate it did not show; for a selection that keeps a record
    the last entry of the console is an error no handler caught: the one Vega
    rejects the chart with, or else that [d3.correlation] is not a function. *)
Theorem cost_rating_statistics_need_correlation `{Host} (container : string) (data : loc)
  (w : world) :
  correlation = None ->
  (forall processedData w',
      processedData <> [] ->
      CostRatingChart.show_stats (Some container) processedData w'
      = (Thrown (TypeError "d3.correlation is not a function"), w'))
  /\ (let r := CostRatingChart.updateChart (Some container) data w in
      r.1 = Returned tt
      /\ (forall id x, In x (shown r.2 id) -> In x (shown w id))
      /\ (CostRatingChart.processData (CostRatingChart.chosen (selects w))
            (table (heap w) data) <> [] ->
          last (console r.2)
          = Some (unhandled_rejection
                    match vegaEmbed_rejects "cost-rating-chart" with
                    | Some e => e
                    | None => TypeError "d3.correlation is not a function"
                    end))).
Proof.
  intros C.
  assert (S : forall processedData w',
             processedData <> [] ->
             CostRatingChart.show_stats (Some container) processedData w'
             = (Thrown (TypeError "d3.correlation is not a function"), w')).
  { intros processedData w' NE. unfold CostRatingChart.show_stats.
    rewrite bind_eq, (stats_need_correlation processedData w' C NE). reflexivity. }
  split; [exact S|]. intros r. subst r.
  unfold CostRatingChart.updateChart, CostRatingChart.read_filters. run.
  set (processed := CostRatingChart.processData (CostRatingChart.chosen (selects w))
                      (table (heap w) data)).
  rewrite new_array_spec. run.
  destruct processed as [|d ds] eqn:P.
  - cbn [map length Nat.eqb]. run. split; [reflexivity|]. split; [|congruence].
    intros id x. rewrite shown_insert. destruct (decide (container = id)); [intros []|].
    cbn [document set_heap]. auto.
  - rewrite length_map. cbn [length Nat.eqb]. run.
    match goal with
    | |- context [vegaEmbed ?i ?s ?w1] =>
        pose proof (vegaEmbed_shown i s w1) as V;
        assert (E : (vegaEmbed i s w1).1
                    = match vegaEmbed_rejects i with
                      | Some e => Thrown e
                      | None => Returned tt
                      end);
        [|destruct (vegaEmbed i s w1) as [[[]|e] w2] eqn:Em]
    end; cbn [fst snd] in *.
    + unfold vegaEmbed. cbn [document set_document].
      replace (has_chartContainer _ _) with true.
      * rewrite orb_true_r. destruct (vegaEmbed_rejects "cost-rating-chart"); [reflexivity|].
        destruct (ingest_all _ _). reflexivity.
      * symmetry. apply bool_decide_eq_true. exists container. eexists.
        split; [apply lookup_insert_eq|]. rewrite existsb_app. cbn.
        rewrite String.eqb_refl. apply orb_true_r.
    + rewrite (S (d :: ds) w2) by discriminate. cbn [fst snd console set_console].
      split; [reflexivity|]. split.
      * intros id x I. change (In x (shown w2 id)) in I. apply V in I.
        match type of I with
        | In _ (shown (set_document ?w0 (<[_ := _ ++ [?n]]> _)) _) =>
            exact (shown_append w w0 container id n x eq_refl eq_refl I)
        end.
      * intros _. destruct (vegaEmbed_rejects "cost-rating-chart"); [discriminate|].
        apply last_snoc.
    + split; [reflexivity|]. split.
      * intros id x I. change (In x (shown w2 id)) in I. apply V in I.
        match type of I with
        | In _ (shown (set_document ?w0 (<[_ := _ ++ [?n]]> _)) _) =>
            exact (shown_append w w0 container id n x eq_refl eq_refl I)
        end.
      * intros _. cbn [console set_console].
        destruct (vegaEmbed_rejects "cost-rating-chart"); [|discriminate].
        injection E as <-. apply last_snoc.
Qed.

Lemma cost_rating_statistics_witness :
  let r := @CostRatingChart.updateChart example_host (Some "cost-rating-viz") 3 loaded_page in
  @correlation example_host = None
  /\ length (@CostRatingChart.processData example_host
               (CostRatingChart.chosen (selects loaded_page)) (table (heap loaded_page) 3))
     = 3
  /\ r.1 = Returned tt
  /\ last (console r.2)
     = Some (unhandled_rejection (TypeError "d3.correlation is not a function")).
Proof.
  intros r.
  assert (Three : length (@CostRatingChart.processData example_host
                            (CostRatingChart.chosen (selects loaded_page))
                            (table (heap loaded_page) 3)) = 3) by (vm_compute; reflexivity).
  split; [reflexivity|]. split; [exact Three|].
  pose proof (proj2 (@cost_rating_statistics_need_correlation example_host
                       "cost-rating-viz" 3 loaded_page eq_refl)) as T.
  cbv zeta in T. destruct T as (R & _ & L).
  split; [exact R|].
  assert (NE : @CostRatingChart.processData example_host
                 (CostRatingChart.chosen (selects loaded_page)) (table (heap loaded_page) 3)
               <> []).
  { intros E. apply (f_equal (@length _)) in E. rewrite Three in E. discriminate. }
  exact (L NE).
Defined.
